(** * BOOKSHELF: the recommendation selector and the review flow of [app.py]

    The program is a Flask application over an SQLite store with three
    tables ([users], [books], [reviews]).  The tables are lists of records in
    scan order, a request handler is a function from the world before the
    request to an outcome and the world after it, and every SQL statement is
    given by its text (as Python assembles it) together with the rows it
    selects.

    The store stands for the database file [instance/book_recommender.db].
    The module creates that file, with its directory and its tables, when it
    is imported and the file is missing (lines 100-102), before any request is
    served; so a handler finds the directory and the file, and what [get_db]
    writes is the connection it keeps in [g]. *)

From Stdlib Require Import List String Ascii ZArith QArith Bool Arith Lia.
From Stdlib Require Import Permutation Sorted DecimalString.
Import ListNotations.

Local Open Scope string_scope.
Local Open Scope Z_scope.

(** ** The store: the schema of [init_db] *)

Record user := mkUser {
  u_id : Z;
  u_username : string;
  u_password_hash : string
}.

Record book := mkBook {
  b_id : Z;
  b_title : string;
  b_author : string;
  b_genre : string;
  b_description : option string
}.

Record review := mkReview {
  r_id : Z;
  r_user_id : Z;
  r_book_id : Z;
  r_rating : Z;
  r_review_text : option string
}.

Record database := mkDb {
  users : list user;
  books : list book;
  reviews : list review
}.

(** What [sqlite3.connect(DATABASE)] returns.  There is one database file,
    so one connection value. *)
Inductive connection := Connection.

(** The world a request runs in: the store, the messages handed to [flash]
    so far (message, category), and [g._database], the connection of the
    current application context ([None] until [get_db] opens it). *)
Record world := mkWorld {
  store : database;
  flashed : list (string * string);
  g_database : option connection
}.

(** ** Outcomes and the request monad *)

Inductive exn :=
| OperationalError (msg : string)
| ProgrammingError (msg : string)
| IntegrityError (msg : string)
| OverflowError (msg : string)
| TypeError (msg : string)
| BadRequestKeyError (key : string).

Inductive outcome (A : Type) :=
| Ok (a : A)
| Raise (e : exn).
Arguments Ok {A} a.
Arguments Raise {A} e.

Definition Req (A : Type) : Type := world -> outcome A * world.

Definition ret {A} (a : A) : Req A := fun w => (Ok a, w).

Definition bind {A B} (m : Req A) (k : A -> Req B) : Req B :=
  fun w => match m w with
           | (Ok a, w') => k a w'
           | (Raise e, w') => (Raise e, w')
           end.

Definition raise {A} (e : exn) : Req A := fun w => (Raise e, w).

Notation "x <- m ;; k" := (bind m (fun x => k))
  (at level 61, m at next level, right associativity).
Notation "m ;;; k" := (bind m (fun _ => k))
  (at level 61, right associativity).

(** [flash(message, category)] *)
Definition flash (message category : string) : Req unit :=
  fun w => (Ok tt, mkWorld (store w) (flashed w ++ [(message, category)])%list
                     (g_database w)).

(** [get_db]: the connection [g] holds, opened on the first call of the
    application context.  [os.makedirs(..., exist_ok=True)] finds the
    directory and [sqlite3.connect] opens the file that is there. *)
Definition get_db : Req connection :=
  fun w =>
    match g_database w with
    | Some db => (Ok db, w)
    | None =>
        let db := Connection in
        (Ok db, mkWorld (store w) (flashed w) (Some db))
    end.

(** The world [get_db] leaves. *)
Definition connected (w : world) : world :=
  mkWorld (store w) (flashed w) (Some Connection).

(** ** The query engine: ORDER BY, and the number of parameters

    SQL fixes the result of ORDER BY only up to the order of rows whose keys
    compare equal; which of those comes first is the engine's choice.  The
    model takes the engine as an interface: some function that returns its
    input rearranged and sorted for the key order.  The engine also has a
    largest number of [?] it accepts in one statement
    (SQLITE_MAX_VARIABLE_NUMBER: 999 in the builds before 3.32, 32766 by
    default since, 250000 in some distributions); no build in use goes below
    the first of these.  [stable_engine] below is one such engine (insertion
    sort keeping scan order among equal keys, the limit of the older
    builds). *)

Class SqlEngine : Type := {
  order_by : forall {A : Type}, (A -> A -> bool) -> list A -> list A;
  order_by_perm : forall (A : Type) (le : A -> A -> bool) (l : list A),
      Permutation l (order_by le l);
  order_by_sorted : forall (A : Type) (le : A -> A -> bool) (l : list A),
      (forall x y, le x y = true \/ le y x = true) ->
      (forall x y z, le x y = true -> le y z = true -> le x z = true) ->
      StronglySorted (fun x y => le x y = true) (order_by le l);
  max_variable_number : nat;
  max_variable_number_floor : (999 <= max_variable_number)%nat
}.

Fixpoint insert_sorted {A} (le : A -> A -> bool) (x : A) (l : list A) : list A :=
  match l with
  | [] => [x]
  | y :: l' => if le x y then x :: y :: l' else y :: insert_sorted le x l'
  end.

Fixpoint insertion_sort {A} (le : A -> A -> bool) (l : list A) : list A :=
  match l with
  | [] => []
  | x :: l' => insert_sorted le x (insertion_sort le l')
  end.

Lemma insert_sorted_perm {A} (le : A -> A -> bool) x l :
  Permutation (x :: l) (insert_sorted le x l).
Proof.
  induction l as [|y l IH]; simpl; [reflexivity|].
  destruct (le x y); [reflexivity|].
  rewrite perm_swap. now apply perm_skip.
Qed.

Lemma insertion_sort_perm {A} (le : A -> A -> bool) l :
  Permutation l (insertion_sort le l).
Proof.
  induction l as [|x l IH]; simpl; [constructor|].
  rewrite <- insert_sorted_perm. now apply perm_skip.
Qed.

Lemma insert_sorted_sorted {A} (le : A -> A -> bool) x l :
  (forall a b, le a b = true \/ le b a = true) ->
  (forall a b c, le a b = true -> le b c = true -> le a c = true) ->
  StronglySorted (fun a b => le a b = true) l ->
  StronglySorted (fun a b => le a b = true) (insert_sorted le x l).
Proof.
  intros Htot Htrans Hs.
  induction Hs as [|y l Hs IH Hy]; simpl.
  - repeat constructor.
  - destruct (le x y) eqn:Hxy.
    + constructor; [now constructor|].
      constructor; [exact Hxy|].
      rewrite Forall_forall in *. intros z Hz. eauto.
    + constructor; [exact IH|].
      assert (Hyx : le y x = true) by (destruct (Htot x y); congruence).
      rewrite Forall_forall in *. intros z Hz.
      apply (Permutation_in _ (Permutation_sym (insert_sorted_perm le x l))) in Hz.
      destruct Hz as [<-|Hz]; auto.
Qed.

Lemma insertion_sort_sorted {A} (le : A -> A -> bool) l :
  (forall a b, le a b = true \/ le b a = true) ->
  (forall a b c, le a b = true -> le b c = true -> le a c = true) ->
  StronglySorted (fun a b => le a b = true) (insertion_sort le l).
Proof.
  intros Htot Htrans. induction l as [|x l IH]; simpl.
  - constructor.
  - now apply insert_sorted_sorted.
Qed.

#[export] Instance stable_engine : SqlEngine := {|
  order_by := @insertion_sort;
  order_by_perm := @insertion_sort_perm;
  order_by_sorted := @insertion_sort_sorted;
  max_variable_number := 999;
  max_variable_number_floor := le_n 999
|}.

(** ** [db.execute]: the text of a statement and its bound parameters

    SQLite compiles the text before it binds anything.  Its tokenizer rejects
    a character of the class it calls illegal wherever it stands outside a
    quoted literal or a comment (the statements of this program have neither),
    and it rejects a text with more [?] than the engine takes; [sqlite3]
    raises [OperationalError] for both.  A statement that compiles and is
    given a number of parameters different from its number of [?] raises
    [ProgrammingError].  Then the parameters are converted: a Python [int]
    that is not an SQLite INTEGER raises [OverflowError]. *)

Inductive sqlvalue :=
| SqlNull
| SqlInt (n : Z)
| SqlText (s : string).

Definition sqlite_illegal (c : ascii) : bool :=
  let n := nat_of_ascii c in
  ((n <? 32) && negb (n =? 9) && negb (n =? 10) && negb (n =? 12) && negb (n =? 13)
   || (n =? 92) || (n =? 93) || (n =? 94) || (n =? 123) || (n =? 125) || (n =? 127))%nat.

Fixpoint unrecognized_token (sql : string) : option ascii :=
  match sql with
  | EmptyString => None
  | String c rest => if sqlite_illegal c then Some c else unrecognized_token rest
  end.

Fixpoint count_placeholders (sql : string) : nat :=
  match sql with
  | EmptyString => O
  | String c rest =>
      ((if Ascii.eqb c "?" then 1 else 0) + count_placeholders rest)%nat
  end.

(** Python's [str] on an [int]. *)
Definition str (n : Z) : string := NilZero.string_of_int (Z.to_int n).

(** The messages of SQLite and of [sqlite3]; SQLite puts the token it
    rejects between double quotes. *)
Definition double_quote : ascii := "034"%char.

Definition unrecognized_token_error (c : ascii) : exn :=
  OperationalError
    ("unrecognized token: " ++ String double_quote (String c (String double_quote ""))).

Definition too_many_variables : exn := OperationalError "too many SQL variables".

Definition incorrect_bindings (uses supplied : nat) : exn :=
  ProgrammingError
    ("Incorrect number of bindings supplied. The current statement uses "
     ++ str (Z.of_nat uses) ++ ", and there are " ++ str (Z.of_nat supplied)
     ++ " supplied.").

Definition int_too_large : exn :=
  OverflowError "Python int too large to convert to SQLite INTEGER".

(** An SQLite INTEGER is a signed integer of 64 bits. *)
Definition fits_int64 (n : Z) : bool := (- 2 ^ 63 <=? n) && (n <? 2 ^ 63).

(** The integers of the tables.  The model writes them in [Z]; in the
    database file each of them is an SQLite INTEGER. *)
Definition stored_integers (d : database) : list Z :=
  (map u_id (users d) ++ map b_id (books d)
   ++ flat_map (fun r => [r_id r; r_user_id r; r_book_id r; r_rating r]) (reviews d))%list.

(** The integers that can be bound to a statement: those of 64 bits, an
    integer of the tables being one of them. *)
Definition sqlite_integer (d : database) (n : Z) : bool :=
  fits_int64 n || existsb (Z.eqb n) (stored_integers d).

Definition bindable (d : database) (v : sqlvalue) : bool :=
  match v with
  | SqlInt n => sqlite_integer d n
  | SqlNull | SqlText _ => true
  end.

Section Statements.
Context {engine : SqlEngine}.

(** What stops a statement before it runs, if anything does. *)
Definition statement_error (sql : string) (params : list sqlvalue) (d : database)
    : option exn :=
  match unrecognized_token sql with
  | Some c => Some (unrecognized_token_error c)
  | None =>
      if (max_variable_number <? count_placeholders sql)%nat
      then Some too_many_variables
      else if negb (Nat.eqb (count_placeholders sql) (List.length params))
      then Some (incorrect_bindings (count_placeholders sql) (List.length params))
      else if forallb (bindable d) params
      then None
      else Some int_too_large
  end.

(** [db.execute(sql, params)] for a SELECT, with [fetchall()]: [rows] is what
    the statement selects. *)
Definition execute {A} (db : connection) (sql : string) (params : list sqlvalue)
    (rows : database -> list A) : Req (list A) :=
  fun w =>
    match statement_error sql params (store w) with
    | Some e => (Raise e, w)
    | None => (Ok (rows (store w)), w)
    end.

(** A statement that writes: [change] is what it does to the tables, or the
    constraint it trips over.  The handlers call [db.commit()] after every
    write and before they return, so a write is applied where it is
    executed. *)
Definition execute_write (db : connection) (sql : string) (params : list sqlvalue)
    (change : database -> outcome database) : Req unit :=
  fun w =>
    match statement_error sql params (store w) with
    | Some e => (Raise e, w)
    | None =>
        match change (store w) with
        | Ok d => (Ok tt, mkWorld d (flashed w) (g_database w))
        | Raise e => (Raise e, w)
        end
    end.

End Statements.

(** [', '.join('?' for _ in xs)] *)
Definition placeholders_for {A} (xs : list A) : string :=
  String.concat ", " (map (fun _ => "?") xs).

(** ** Aggregates and sort keys *)

(** [AVG(r.rating)] over the joined rows of one group: NULL for a book that
    the LEFT JOIN padded (no review), else the sum over the count.  SQLite
    computes the quotient in floating point; the model keeps it exact. *)
Definition AVG (ratings : list Z) : option Q :=
  match ratings with
  | [] => None
  | _ :: _ => Some (Qmake (fold_right Z.add 0 ratings) (Pos.of_nat (List.length ratings)))
  end.

(** SQLite's comparison of two values of a numeric column that may be NULL:
    NULL is smaller than every number. *)
Definition avg_compare (a b : option Q) : comparison :=
  match a, b with
  | None, None => Eq
  | None, Some _ => Lt
  | Some _, None => Gt
  | Some p, Some q => Qcompare p q
  end.

Definition row : Type := book * option Q.

(** [ORDER BY avg_rating DESC] *)
Definition avg_desc (x y : row) : bool :=
  match avg_compare (snd y) (snd x) with
  | Gt => false
  | _ => true
  end.

(** [ORDER BY avg_rating DESC, b.title ASC] (titles under BINARY collation) *)
Definition avg_desc_title_asc (x y : row) : bool :=
  match avg_compare (snd y) (snd x) with
  | Lt => true
  | Eq => String.leb (b_title (fst x)) (b_title (fst y))
  | Gt => false
  end.

(** [ORDER BY COUNT(b.genre) DESC] *)
Definition count_desc (x y : string * nat) : bool := Nat.leb (snd y) (snd x).

(** ** The statements of [get_recommendations]

    The texts are the source's, with each run of white space written as one
    space. *)

Definition sql_favorite_genres : string :=
  "SELECT b.genre FROM reviews r JOIN books b ON r.book_id = b.id WHERE r.user_id = ? AND r.rating >= 4 GROUP BY b.genre ORDER BY COUNT(b.genre) DESC LIMIT 3".

Definition sql_global_top : string :=
  "SELECT b.*, AVG(r.rating) as avg_rating FROM books b LEFT JOIN reviews r ON b.id = r.book_id GROUP BY b.id ORDER BY avg_rating DESC LIMIT 5".

Definition sql_reviewed_books : string :=
  "SELECT book_id FROM reviews WHERE user_id = ?".

(** The f-string that opens the recommendation query. *)
Definition sql_recommendation_select : string :=
  "SELECT b.*, AVG(r.rating) as avg_rating FROM books b LEFT JOIN reviews r ON b.id = r.book_id WHERE b.genre IN (".

Definition sql_recommendation_head (placeholders : string) : string :=
  sql_recommendation_select ++ placeholders ++ ")".

(** The f-string that adds the exclusion. *)
Definition sql_recommendation_exclusion (exclusion_placeholders : string) : string :=
  " AND b.id NOT IN (" ++ exclusion_placeholders ++ ")".

Definition sql_recommendation_tail : string :=
  " GROUP BY b.id ORDER BY avg_rating DESC, b.title ASC LIMIT 5".

(** The text of the last statement is a plain string literal in the source,
    not an f-string: the braces reach SQLite as they are written. *)
Definition sql_exhausted_fallback : string :=
  "SELECT b.*, AVG(r.rating) as avg_rating FROM books b LEFT JOIN reviews r ON b.id = r.book_id WHERE b.id NOT IN ({exclusion_placeholders}) GROUP BY b.id ORDER BY avg_rating DESC LIMIT 5".

Section Recommendation.
Context {engine : SqlEngine}.

(** [FROM reviews r JOIN books b ON r.book_id = b.id
     WHERE r.user_id = ? AND r.rating >= 4], projected on [b.genre]. *)
Definition high_rated_genres (user_id : Z) (d : database) : list string :=
  flat_map (fun r =>
    if (r_user_id r =? user_id) && (4 <=? r_rating r)
    then map b_genre (filter (fun b => r_book_id r =? b_id b) (books d))
    else []) (reviews d).

(** [GROUP BY b.genre] with [COUNT(b.genre)] for each group. *)
Definition group_count (genres : list string) : list (string * nat) :=
  map (fun g => (g, count_occ string_dec genres g)) (nodup string_dec genres).

Definition favorite_genres_rows (user_id : Z) (d : database) : list string :=
  map fst (firstn 3 (order_by count_desc (group_count (high_rated_genres user_id d)))).

(** [FROM books b LEFT JOIN reviews r ON b.id = r.book_id GROUP BY b.id],
    selecting [b.*, AVG(r.rating)]: one row for each book. *)
Definition with_avg (d : database) (b : book) : row :=
  (b, AVG (map r_rating (filter (fun r => b_id b =? r_book_id r) (reviews d)))).

Definition global_top_rows (d : database) : list row :=
  firstn 5 (order_by avg_desc (map (with_avg d) (books d))).

Definition reviewed_books_rows (user_id : Z) (d : database) : list Z :=
  map r_book_id (filter (fun r => r_user_id r =? user_id) (reviews d)).

(** [b.genre IN (...)] and [b.id NOT IN (...)] *)
Definition genre_in (genres : list string) (b : book) : bool :=
  existsb (String.eqb (b_genre b)) genres.

Definition id_not_in (ids : list Z) (b : book) : bool :=
  negb (existsb (Z.eqb (b_id b)) ids).

Definition recommendation_rows (condition : book -> bool) (d : database) : list row :=
  firstn 5 (order_by avg_desc_title_asc (map (with_avg d) (filter condition (books d)))).

(** The candidate pool of the recommendation query for a user: the books it
    is left with once [params] are bound, before ORDER BY and LIMIT. *)
Definition affinity_candidates (user_id : Z) (d : database) : list row :=
  map (with_avg d)
    (filter (fun b => genre_in (favorite_genres_rows user_id d) b
                      && id_not_in (reviewed_books_rows user_id d) b)
       (books d)).

Definition get_recommendations (user_id : Z) : Req (list row) :=
  db <- get_db ;;
  favorite_genres <-
    execute db sql_favorite_genres [SqlInt user_id] (favorite_genres_rows user_id) ;;
  match favorite_genres with
  | [] => execute db sql_global_top [] global_top_rows
  | _ :: _ =>
      let genres := favorite_genres in
      let placeholders := placeholders_for genres in
      reviewed_book_ids <-
        execute db sql_reviewed_books [SqlInt user_id] (reviewed_books_rows user_id) ;;
      let recommendation_query := sql_recommendation_head placeholders in
      let '(recommendation_query, params, condition) :=
        match reviewed_book_ids with
        | _ :: _ =>
            let exclusion_placeholders := placeholders_for reviewed_book_ids in
            (recommendation_query ++ sql_recommendation_exclusion exclusion_placeholders,
             (map SqlText genres ++ map SqlInt reviewed_book_ids)%list,
             fun b => genre_in genres b && id_not_in reviewed_book_ids b)
        | [] => (recommendation_query, map SqlText genres, genre_in genres)
        end in
      let recommendation_query := recommendation_query ++ sql_recommendation_tail in
      recommendations <-
        execute db recommendation_query params (recommendation_rows condition) ;;
      match recommendations with
      | [] =>
          (* this text never compiles ([exhausted_fallback_unrecognized]
             below), so no rows are ever asked of it *)
          execute db sql_exhausted_fallback [] (fun _ => [])
      | _ :: _ => ret recommendations
      end
  end.

End Recommendation.

(** ** The review flow: requests, sessions and the routes that write *)

Inductive http_method := GET | POST.

Definition form_data : Type := list (string * string).

(** What a request brings: the user id kept in the session cookie (if any;
    Flask-Login writes [str(user.id)] there), the method, the submitted form,
    and the salt that [generate_password_hash] draws if it is called. *)
Record request := mkRequest {
  session_user_id : option Z;
  method : http_method;
  form : form_data;
  salt : string
}.

(** The [User] class of Flask-Login. *)
Record User := mkUserMixin {
  User_id : Z;
  User_username : string
}.

Inductive page :=
| BookDetailPage (book : book) (reviews : list (review * string))
    (user_review : option review)
| RecommendationsPage (recommended_books : list row)
| RegisterPage.

Inductive response :=
| Redirect (endpoint : string)
| Render (template : page).

(** [request.form.get(key)]: the first value submitted under [key]. *)
Fixpoint form_get (key : string) (form : form_data) : option string :=
  match form with
  | [] => None
  | (k, v) :: rest => if String.eqb k key then Some v else form_get key rest
  end.

(** [request.form[key]] *)
Definition form_item (key : string) (form : form_data) : Req string :=
  match form_get key form with
  | Some v => ret v
  | None => raise (BadRequestKeyError key)
  end.

Definition fetchone {A} (rows : Req (list A)) : Req (option A) :=
  l <- rows ;; ret (hd_error l).

Definition commit : Req unit := ret tt.

(** [try: body except sqlite3.IntegrityError: ... except Exception as e: ...] *)
Definition try_except {A} (body : Req A) (handler : exn -> Req A) : Req A :=
  fun w => match body w with
           | (Ok a, w') => (Ok a, w')
           | (Raise e, w') => handler e w'
           end.

Definition exn_message (e : exn) : string :=
  match e with
  | OperationalError m | ProgrammingError m | IntegrityError m | OverflowError m
  | TypeError m => m
  | BadRequestKeyError k => k
  end.

(** What Python 3 raises on [1 <= None]. *)
Definition type_error_none : exn :=
  TypeError "'<=' not supported between instances of 'int' and 'NoneType'".

(** Python's [lo <= x <= hi] on an [x] that may be [None]. *)
Definition chained_le (lo : Z) (x : option Z) (hi : Z) : Req bool :=
  match x with
  | None => raise type_error_none
  | Some v => ret ((lo <=? v) && (v <=? hi))
  end.

Definition sql_of_int (x : option Z) : sqlvalue :=
  match x with Some n => SqlInt n | None => SqlNull end.

Definition sql_of_text (x : option string) : sqlvalue :=
  match x with Some s => SqlText s | None => SqlNull end.

(** A rowid of an AUTOINCREMENT key: one more than the largest one in use
    (no statement of the program deletes a row). *)
Definition next_rowid (ids : list Z) : Z := 1 + fold_right Z.max 0 ids.

(** [UPDATE reviews SET rating = ?, review_text = ? WHERE id = ?] *)
Definition update_review (rating : option Z) (review_text : option string)
    (id : Z) (d : database) : outcome database :=
  match rating with
  | Some n =>
      Ok (mkDb (users d) (books d)
            (map (fun r =>
                    if r_id r =? id
                    then mkReview (r_id r) (r_user_id r) (r_book_id r) n review_text
                    else r) (reviews d)))
  | None =>
      if existsb (fun r => r_id r =? id) (reviews d)
      then Raise (IntegrityError "NOT NULL constraint failed: reviews.rating")
      else Ok d
  end.

(** [INSERT INTO reviews (user_id, book_id, rating, review_text) VALUES (?, ?, ?, ?)]
    under [rating INTEGER NOT NULL] and [UNIQUE (user_id, book_id)]. *)
Definition insert_review (user_id book_id : Z) (rating : option Z)
    (review_text : option string) (d : database) : outcome database :=
  match rating with
  | None => Raise (IntegrityError "NOT NULL constraint failed: reviews.rating")
  | Some n =>
      if existsb (fun r => (r_user_id r =? user_id) && (r_book_id r =? book_id)) (reviews d)
      then Raise (IntegrityError "UNIQUE constraint failed: reviews.user_id, reviews.book_id")
      else Ok (mkDb (users d) (books d)
                 (reviews d ++
                  [mkReview (next_rowid (map r_id (reviews d))) user_id book_id n review_text])%list)
  end.

(** [INSERT INTO users (username, password_hash) VALUES (?, ?)] under
    [username TEXT UNIQUE NOT NULL]. *)
Definition insert_user (username password_hash : string) (d : database)
    : outcome database :=
  if existsb (fun u => String.eqb (u_username u) username) (users d)
  then Raise (IntegrityError "UNIQUE constraint failed: users.username")
  else Ok (mkDb (users d ++ [mkUser (next_rowid (map u_id (users d))) username password_hash])%list
             (books d) (reviews d)).

(** [init_db]: the tables are created if they are missing and the six sample
    books are inserted into an empty [books] table. *)
Definition sample_books : list (string * string * string * string) :=
  [ ("The Shadow of the Wind", "Carlos Ruiz Zafón", "Mystery",
     "A magical tale set in a Barcelona book graveyard.");
    ("The Martian", "Andy Weir", "Sci-Fi",
     "An astronaut struggles to survive alone on Mars.");
    ("A Gentleman in Moscow", "Amor Towles", "Historical Fiction",
     "A count is sentenced to house arrest in a luxury hotel.");
    ("Project Hail Mary", "Andy Weir", "Sci-Fi",
     "A solitary survivor must save Earth from catastrophe.");
    ("Where the Crawdads Sing", "Delia Owens", "Mystery",
     "A story of a girl who raises herself in the marshes of North Carolina.");
    ("Sapiens: A Brief History of Humankind", "Yuval Noah Harari", "Non-Fiction",
     "A look at the history of humanity from early times to the present.") ].

(** [executemany] of [INSERT INTO books (title, author, genre, description)] *)
Definition insert_books (rows : list (string * string * string * string))
    (d : database) : database :=
  fold_left (fun d '(title, author, genre, description) =>
    mkDb (users d)
         (books d ++ [mkBook (next_rowid (map b_id (books d))) title author genre
                        (Some description)])%list
         (reviews d)) rows d.

Definition init_db (d : database) : database :=
  match books d with
  | [] => insert_books sample_books d
  | _ :: _ => d
  end.

(** The world after the import: [init_db] ran in an application context of
    its own, which is gone. *)
Definition init_world : world := mkWorld (init_db (mkDb [] [] [])) [] None.

Section Routes.
Context {engine : SqlEngine}.

(** Python's [int] on a form value: [None] where it raises [ValueError]. *)
Variable py_int : string -> option Z.

(** Werkzeug's [generate_password_hash], as a function of the salt it draws. *)
Variable generate_password_hash : string -> string -> string.

(** [request.form.get(key, type=int)] *)
Definition form_get_int (key : string) (form : form_data) : option Z :=
  match form_get key form with
  | Some v => py_int v
  | None => None
  end.

(** Flask-Login hands [load_user] the string the session holds; SQLite
    compares it with the INTEGER column by its value. *)
Definition load_user (user_id : Z) : Req (option User) :=
  db <- get_db ;;
  user_data <- fetchone (execute db "SELECT id, username FROM users WHERE id = ?"
                           [SqlText (str user_id)]
                           (fun d => filter (fun u => u_id u =? user_id) (users d))) ;;
  match user_data with
  | Some u => ret (Some (mkUserMixin (u_id u) (u_username u)))
  | None => ret None
  end.

(** Flask-Login's [current_user]: the account the session names, when it
    still loads; [None] stands for the anonymous user. *)
Definition current_user (rq : request) : Req (option User) :=
  match session_user_id rq with
  | Some uid => load_user uid
  | None => ret None
  end.

Definition book_detail (rq : request) (book_id : Z) : Req response :=
  db <- get_db ;;
  book <- fetchone (execute db "SELECT * FROM books WHERE id = ?" [SqlInt book_id]
                      (fun d => filter (fun b => b_id b =? book_id) (books d))) ;;
  match book with
  | None => flash "Book not found." "error" ;;; ret (Redirect "index")
  | Some book =>
      book_reviews <-
        execute db "SELECT r.*, u.username FROM reviews r JOIN users u ON r.user_id = u.id WHERE r.book_id = ? ORDER BY r.id DESC"
          [SqlInt book_id]
          (fun d =>
             order_by (fun x y : review * string => r_id (fst y) <=? r_id (fst x))
               (flat_map (fun r =>
                  if r_book_id r =? book_id
                  then map (fun u => (r, u_username u))
                         (filter (fun u => r_user_id r =? u_id u) (users d))
                  else []) (reviews d))) ;;
      current_user <- current_user rq ;;
      user_review <-
        match current_user with
        | Some cu =>
            fetchone (execute db "SELECT * FROM reviews WHERE user_id = ? AND book_id = ?"
                        [SqlInt (User_id cu); SqlInt book_id]
                        (fun d => filter (fun r => (r_user_id r =? User_id cu)
                                                   && (r_book_id r =? book_id))
                                    (reviews d)))
        | None => ret None
        end ;;
      match method rq with
      | POST =>
          match current_user with
          | None =>
              flash "You must be logged in to submit a review." "warning" ;;;
              ret (Redirect "login")
          | Some cu =>
              let rating := form_get_int "rating" (form rq) in
              let review_text := form_get "review_text" (form rq) in
              in_range <- chained_le 1 rating 5 ;;
              if negb in_range then
                flash "Rating must be between 1 and 5." "error" ;;;
                ret (Redirect "book_detail")
              else
                try_except
                  (match user_review with
                   | Some ur =>
                       execute_write db
                         "UPDATE reviews SET rating = ?, review_text = ? WHERE id = ?"
                         [sql_of_int rating; sql_of_text review_text; SqlInt (r_id ur)]
                         (update_review rating review_text (r_id ur)) ;;;
                       flash "Your review has been updated!" "success"
                   | None =>
                       execute_write db
                         "INSERT INTO reviews (user_id, book_id, rating, review_text) VALUES (?, ?, ?, ?)"
                         [SqlInt (User_id cu); SqlInt book_id; sql_of_int rating;
                          sql_of_text review_text]
                         (insert_review (User_id cu) book_id rating review_text) ;;;
                       flash "Your review has been submitted!" "success"
                   end ;;;
                   commit ;;;
                   ret (Redirect "book_detail"))
                  (fun e =>
                     match e with
                     | IntegrityError _ =>
                         flash "Error submitting review. You may have already reviewed this book." "error" ;;;
                         ret (Redirect "book_detail")
                     | _ =>
                         flash ("An unexpected error occurred: " ++ exn_message e) "error" ;;;
                         ret (Redirect "book_detail")
                     end)
          end
      | GET => ret (Render (BookDetailPage book book_reviews user_review))
      end
  end.

(** [@login_required]: an anonymous request is flashed the login message and
    sent to the login view. *)
Definition recommendations (rq : request) : Req response :=
  current_user <- current_user rq ;;
  match current_user with
  | None =>
      flash "Please log in to access this page." "message" ;;;
      ret (Redirect "login")
  | Some cu =>
      recommended_books <- get_recommendations (User_id cu) ;;
      ret (Render (RecommendationsPage recommended_books))
  end.

Definition register (rq : request) : Req response :=
  current_user <- current_user rq ;;
  match current_user with
  | Some _ => ret (Redirect "index")
  | None =>
      match method rq with
      | POST =>
          username <- form_item "username" (form rq) ;;
          password <- form_item "password" (form rq) ;;
          db <- get_db ;;
          taken <- fetchone (execute db "SELECT id FROM users WHERE username = ?"
                               [SqlText username]
                               (fun d => filter (fun u => String.eqb (u_username u) username)
                                           (users d))) ;;
          match taken with
          | Some _ =>
              flash "Username already taken. Please choose a different one." "error" ;;;
              ret (Render RegisterPage)
          | None =>
              let password_hash := generate_password_hash (salt rq) password in
              execute_write db "INSERT INTO users (username, password_hash) VALUES (?, ?)"
                [SqlText username; SqlText password_hash]
                (insert_user username password_hash) ;;;
              commit ;;;
              flash "Registration successful! Please log in." "success" ;;;
              ret (Redirect "login")
          end
      | GET => ret (Render RegisterPage)
      end
  end.

(** The routes that touch the store.  ([index], [login] and [logout] read
    the store at most.) *)
Inductive route :=
| route_book_detail (book_id : Z)
| route_recommendations
| route_register.

(** Flask serves a request in an application context of its own: [g] is
    new when the view starts, and when the context is torn down
    [close_connection] closes the connection [g] holds and [g] goes with the
    context. *)
Definition app_context {A} (view : Req A) : Req A :=
  fun w =>
    let served := view (mkWorld (store w) (flashed w) None) in
    (fst served, mkWorld (store (snd served)) (flashed (snd served)) None).

Definition handle (rt : route) (rq : request) : Req response :=
  app_context
    match rt with
    | route_book_detail book_id => book_detail rq book_id
    | route_recommendations => recommendations rq
    | route_register => register rq
    end.

(** The worlds the application can be in: the one [init_db] leaves, and
    the one after any request served in such a world. *)
Inductive reachable : world -> Prop :=
| reachable_init : reachable init_world
| reachable_request : forall w rt rq,
    reachable w -> reachable (snd (handle rt rq w)).

End Routes.

(** ** The routes that only read: [index] and [login] *)

(** A row of the index query: [b.*], [AVG(r.rating)], [COUNT(r.id)]. *)
Definition index_row : Type := book * option Q * nat.

(** [ORDER BY b.title ASC] *)
Definition title_asc (x y : index_row) : bool :=
  String.leb (b_title (fst (fst x))) (b_title (fst (fst y))).

(** [render_template('index.html', books=books)] *)
Inductive index_response :=
| RenderIndex (books : list index_row).

(** Where [login] sends the browser: an endpoint of the application, or the
    URL given in the query string. *)
Inductive target :=
| Endpoint (name : string)
| Url (location : string).

(** What [login] answers; [logged_in] is the user it handed to
    [login_user], if it did. *)
Inductive login_response :=
| LoginRedirect (to : target) (logged_in : option User)
| LoginPage.

Section ReadingRoutes.
Context {engine : SqlEngine}.

(** Werkzeug's [check_password_hash]. *)
Variable check_password_hash : string -> string -> bool.

(** [FROM books b LEFT JOIN reviews r ON b.id = r.book_id GROUP BY b.id]
    with [AVG(r.rating)] and [COUNT(r.id)] of each group. *)
Definition with_avg_count (d : database) (b : book) : index_row :=
  let joined := filter (fun r => b_id b =? r_book_id r) (reviews d) in
  (b, AVG (map r_rating joined), List.length joined).

Definition index_rows (d : database) : list index_row :=
  order_by title_asc (map (with_avg_count d) (books d)).

Definition index : Req index_response :=
  db <- get_db ;;
  books <-
    execute db "SELECT b.*, AVG(r.rating) as avg_rating, COUNT(r.id) as review_count FROM books b LEFT JOIN reviews r ON b.id = r.book_id GROUP BY b.id ORDER BY b.title ASC"
      [] index_rows ;;
  ret (RenderIndex books).

(** [next_page or url_for('index')], [next_page] being
    [request.args.get('next')]. *)
Definition next_or_index (next_page : option string) : target :=
  match next_page with
  | None => Endpoint "index"
  | Some EmptyString => Endpoint "index"
  | Some location => Url location
  end.

Definition login (next_page : option string) (rq : request) : Req login_response :=
  current_user <- current_user rq ;;
  match current_user with
  | Some _ => ret (LoginRedirect (Endpoint "index") None)
  | None =>
      match method rq with
      | POST =>
          username <- form_item "username" (form rq) ;;
          password <- form_item "password" (form rq) ;;
          db <- get_db ;;
          user_data <-
            fetchone (execute db "SELECT id, username, password_hash FROM users WHERE username = ?"
                        [SqlText username]
                        (fun d => filter (fun u => String.eqb (u_username u) username)
                                    (users d))) ;;
          match user_data with
          | Some u =>
              if check_password_hash (u_password_hash u) password then
                let user := mkUserMixin (u_id u) (u_username u) in
                flash ("Welcome back, " ++ username ++ "!") "success" ;;;
                ret (LoginRedirect (next_or_index next_page) (Some user))
              else
                flash "Invalid username or password." "error" ;;;
                ret LoginPage
          | None =>
              flash "Invalid username or password." "error" ;;;
              ret LoginPage
          end
      | GET => ret LoginPage
      end
  end.

End ReadingRoutes.

(** An [int] for plain decimal numerals, to run the routes on examples. *)
Fixpoint decimal_digits (s : string) (acc : Z) : option Z :=
  match s with
  | EmptyString => Some acc
  | String c rest =>
      let n := nat_of_ascii c in
      if ((48 <=? n) && (n <=? 57))%nat
      then decimal_digits rest (10 * acc + Z.of_nat (n - 48))
      else None
  end.

Definition decimal_int (s : string) : option Z :=
  match s with
  | EmptyString => None
  | String "-" rest =>
      match rest with
      | EmptyString => None
      | _ => option_map Z.opp (decimal_digits rest 0)
      end
  | _ => decimal_digits s 0
  end.

Definition salted (salt password : string) : string := salt ++ "$" ++ password.

(** Every review names an account, as
    [FOREIGN KEY (user_id) REFERENCES users (id)] declares. *)
Definition reviews_reference_accounts (d : database) : bool :=
  forallb (fun r => existsb (fun u => u_id u =? r_user_id r) (users d)) (reviews d).

(** The account [current_user] resolves to in a store. *)
Definition session_account (rq : request) (d : database) : option User :=
  match session_user_id rq with
  | Some uid =>
      match hd_error (filter (fun u => u_id u =? uid) (users d)) with
      | Some u => Some (mkUserMixin (u_id u) (u_username u))
      | None => None
      end
  | None => None
  end.

(** The world once [current_user] is resolved: [load_user] has connected
    when the session names a user. *)
Definition session_loaded (rq : request) (w : world) : world :=
  match session_user_id rq with
  | Some _ => connected w
  | None => w
  end.

(** What one request can do to the store. *)
Inductive store_change (d : database) : database -> Prop :=
| change_none : store_change d d
| change_insert_user username password_hash d' :
    insert_user username password_hash d = Ok d' -> store_change d d'
| change_insert_review u b rating review_text d' :
    In u (users d) -> In b (books d) -> 1 <= rating <= 5 ->
    insert_review (u_id u) (b_id b) (Some rating) review_text d = Ok d' ->
    store_change d d'
| change_update_review u b ur rating review_text d' :
    In u (users d) -> In b (books d) -> In ur (reviews d) ->
    r_user_id ur = u_id u -> r_book_id ur = b_id b -> 1 <= rating <= 5 ->
    update_review (Some rating) review_text (r_id ur) d = Ok d' ->
    store_change d d'.

(** The (account, item) pair of a review. *)
Definition review_key (r : review) : Z * Z := (r_user_id r, r_book_id r).

(** What the schema promises of a store: the keys are keys, every review
    names an account, and the catalogue is the seeded one. *)
Record store_ok (d : database) : Prop := mk_store_ok {
  ok_user_ids : NoDup (map u_id (users d));
  ok_review_ids : NoDup (map r_id (reviews d));
  ok_review_keys : NoDup (map review_key (reviews d));
  ok_review_accounts : reviews_reference_accounts d = true;
  ok_books : books d = books (store init_world)
}.

(** ** The pieces of a book page *)

(** The book the first statement of [book_detail] fetches. *)
Definition fetched_book (book_id : Z) (d : database) : option book :=
  hd_error (filter (fun b => b_id b =? book_id) (books d)).

(** The rows of the review list of a book page, before ORDER BY:
    [FROM reviews r JOIN users u ON r.user_id = u.id WHERE r.book_id = ?]. *)
Definition book_review_rows (book_id : Z) (d : database) : list (review * string) :=
  flat_map (fun r =>
    if r_book_id r =? book_id
    then map (fun u => (r, u_username u))
           (filter (fun u => r_user_id r =? u_id u) (users d))
    else []) (reviews d).

(** [ORDER BY r.id DESC] *)
Definition newest_first (x y : review * string) : bool :=
  r_id (fst y) <=? r_id (fst x).

(** The review of the book by the account of the session, if any. *)
Definition fetched_user_review (rq : request) (book_id : Z) (d : database)
    : option review :=
  match session_account rq d with
  | Some cu =>
      hd_error (filter (fun r => (r_user_id r =? User_id cu) && (r_book_id r =? book_id))
                  (reviews d))
  | None => None
  end.

(** A checker for [salted]: the text after the first [$] is the password. *)
Definition check_salted (pwhash password : string) : bool :=
  match String.index 0 "$" pwhash with
  | Some n => String.eqb (String.substring (S n) (String.length pwhash) pwhash) password
  | None => false
  end.

(** What the review flow promises of the reviews: a rating is 1 to 5 and the
    book is in the catalogue. *)
Definition review_well_formed (d : database) (r : review) : Prop :=
  1 <= r_rating r <= 5 /\ exists b, In b (books d) /\ b_id b = r_book_id r.

(** ** The words of the specification

    The definitions of this part are written from the specification, not
    from the code; the theorems compare the two. *)

(** "the mean of all Ratings per Item": the scores of the ratings of an
    item. *)
Definition spec_item_scores (d : database) (item : book) : list Z :=
  map r_rating (filter (fun r => r_book_id r =? b_id item) (reviews d)).

(** [average] is the mean of [scores], null ("undefined") when there is no
    score. *)
Definition spec_mean (scores : list Z) (average : option Q) : Prop :=
  match average with
  | None => scores = []
  | Some q =>
      scores <> [] /\
      (q * inject_Z (Z.of_nat (List.length scores))
       == inject_Z (fold_right Z.add 0%Z scores))%Q
  end.

(** "descending average rating", a null average "below rated items": [a]
    may stand before [b]. *)
Definition spec_not_below (a b : option Q) : Prop :=
  match a, b with
  | _, None => True
  | None, Some _ => False
  | Some p, Some q => (q <= p)%Q
  end.

(** "identical average rating" *)
Definition spec_same_average (a b : option Q) : Prop :=
  match a, b with
  | None, None => True
  | Some p, Some q => (p == q)%Q
  | _, _ => False
  end.

(** "all Ratings by user_id with score >= 4, joined to their Item's
    category": one category for each such rating and its item. *)
Definition spec_qualifying_categories (user_id : Z) (d : database) : list string :=
  map (fun joined : review * book => b_genre (snd joined))
    (filter (fun joined : review * book =>
               (r_user_id (fst joined) =? user_id) && (4 <=? r_rating (fst joined))
               && (r_book_id (fst joined) =? b_id (snd joined)))
       (list_prod (reviews d) (books d))).

(** "Group by category, count occurrences" *)
Definition spec_occurrences (user_id : Z) (d : database) (category : string) : nat :=
  count_occ string_dec (spec_qualifying_categories user_id d) category.

(** ** A session to run on

    One account registers, then reviews the two Sci-Fi books of the
    catalogue (5 and 4), then reviews the first of them again (3). *)
Definition serve : route -> request -> Req response :=
  @handle stable_engine decimal_int salted.

Definition world_registered : world :=
  snd (serve route_register
         (mkRequest None POST [("username", "ann"); ("password", "pw")] "s1")
         init_world).

Definition world_one_review : world :=
  snd (serve (route_book_detail 2)
         (mkRequest (Some 1) POST [("rating", "5"); ("review_text", "great")] "")
         world_registered).

Definition world_two_reviews : world :=
  snd (serve (route_book_detail 4)
         (mkRequest (Some 1) POST [("rating", "4")] "")
         world_one_review).

Definition world_reviewed_again : world :=
  snd (serve (route_book_detail 2)
         (mkRequest (Some 1) POST [("rating", "3"); ("review_text", "on second thought")] "")
         world_two_reviews).

(** The second book of the catalogue, and the request that registers the
    account of the session. *)
Definition the_martian : book :=
  mkBook 2 "The Martian" "Andy Weir" "Sci-Fi"
    (Some "An astronaut struggles to survive alone on Mars.").

Definition ann_registers : request :=
  mkRequest None POST [("username", "ann"); ("password", "pw")] "s1".

(** ** A shelf to rank

    A store written out by hand: eight Sci-Fi books and one other.  Account
    1 rated "Solaris" 5 and "Neuromancer" 2; the other accounts rated three
    of the remaining Sci-Fi books, two of them to the same average (9/2 and
    18/4), and three have no rating. *)
Definition shelf : database :=
  mkDb
    [ mkUser 1 "ann" "h1"; mkUser 2 "bob" "h2"; mkUser 3 "cy" "h3";
      mkUser 4 "dee" "h4"; mkUser 5 "eve" "h5" ]
    [ mkBook 1 "Solaris" "Stanislaw Lem" "Sci-Fi" None;
      mkBook 2 "Dune" "Frank Herbert" "Sci-Fi" None;
      mkBook 3 "Contact" "Carl Sagan" "Sci-Fi" None;
      mkBook 4 "Ubik" "Philip K. Dick" "Sci-Fi" None;
      mkBook 5 "Blindsight" "Peter Watts" "Sci-Fi" None;
      mkBook 6 "Emma" "Jane Austen" "Romance" None;
      mkBook 7 "Neuromancer" "William Gibson" "Sci-Fi" None;
      mkBook 8 "Accelerando" "Charles Stross" "Sci-Fi" None;
      mkBook 9 "Babel-17" "Samuel R. Delany" "Sci-Fi" None ]
    [ mkReview 1 1 1 5 None;
      mkReview 2 1 7 2 None;
      mkReview 3 2 2 4 None;
      mkReview 4 3 2 5 None;
      mkReview 5 2 3 5 None;
      mkReview 6 3 3 4 None;
      mkReview 7 4 3 5 None;
      mkReview 8 5 3 4 None;
      mkReview 9 2 5 5 None;
      mkReview 10 2 6 5 None ].

Definition world_shelf : world := mkWorld shelf [] None.

(** * Facts *)

(** ** Statement texts *)

Lemma unrecognized_token_app (a b : string) :
  unrecognized_token (a ++ b) =
  match unrecognized_token a with
  | Some c => Some c
  | None => unrecognized_token b
  end.
Proof.
  induction a as [|c a IH]; simpl; [reflexivity|].
  destruct (sqlite_illegal c); [reflexivity|exact IH].
Qed.

Lemma count_placeholders_app (a b : string) :
  count_placeholders (a ++ b) = (count_placeholders a + count_placeholders b)%nat.
Proof.
  induction a as [|c a IH]; simpl; [reflexivity|].
  rewrite IH. lia.
Qed.

Lemma placeholders_for_tokens {A} (xs : list A) :
  unrecognized_token (placeholders_for xs) = None.
Proof.
  unfold placeholders_for.
  induction xs as [|x xs IH]; [reflexivity|].
  destruct xs as [|y xs]; [reflexivity|].
  change (unrecognized_token
            ("?" ++ ", " ++ String.concat ", " (map (fun _ : A => "?") (y :: xs))) = None).
  rewrite !unrecognized_token_app, IH. reflexivity.
Qed.

Lemma placeholders_for_count {A} (xs : list A) :
  count_placeholders (placeholders_for xs) = List.length xs.
Proof.
  unfold placeholders_for.
  induction xs as [|x xs IH]; [reflexivity|].
  destruct xs as [|y xs]; [reflexivity|].
  change (count_placeholders
            ("?" ++ ", " ++ String.concat ", " (map (fun _ : A => "?") (y :: xs)))
          = S (List.length (y :: xs))).
  rewrite !count_placeholders_app, IH. reflexivity.
Qed.

Lemma get_db_run w : get_db w = (Ok Connection, connected w).
Proof.
  unfold get_db, connected. now destruct w as [d f [[]|]].
Qed.

Lemma connected_when_connected w : g_database w = Some Connection -> connected w = w.
Proof. destruct w as [d f g]. unfold connected. simpl. now intros ->. Qed.

(** The 64-bit integers, and the integers of the tables. *)
Lemma fits_int64_range (n : Z) : fits_int64 n = true <-> - 2 ^ 63 <= n < 2 ^ 63.
Proof.
  unfold fits_int64. rewrite andb_true_iff, Z.leb_le, Z.ltb_lt. tauto.
Qed.

Lemma sqlite_integer_fits d n : - 2 ^ 63 <= n < 2 ^ 63 -> sqlite_integer d n = true.
Proof.
  intros H. unfold sqlite_integer. apply fits_int64_range in H. now rewrite H.
Qed.

Lemma sqlite_integer_stored d n : In n (stored_integers d) -> sqlite_integer d n = true.
Proof.
  intros H. unfold sqlite_integer. apply orb_true_iff. right.
  apply existsb_exists. exists n. split; [exact H|apply Z.eqb_refl].
Qed.

(** Where every integer of the tables has 64 bits, as in a database file,
    the integers that can be bound are the 64-bit ones. *)
Lemma sqlite_integer_int64 d n :
  forallb fits_int64 (stored_integers d) = true ->
  sqlite_integer d n = fits_int64 n.
Proof.
  intros Hall. unfold sqlite_integer.
  destruct (fits_int64 n) eqn:E; [reflexivity|]. simpl.
  destruct (existsb (Z.eqb n) (stored_integers d)) eqn:Ex; [|reflexivity].
  apply existsb_exists in Ex. destruct Ex as (m & Hm & Heq).
  apply Z.eqb_eq in Heq. subst m.
  rewrite forallb_forall in Hall. specialize (Hall n Hm). congruence.
Qed.

Lemma account_id_stored d u : In u (users d) -> sqlite_integer d (u_id u) = true.
Proof.
  intros H. apply sqlite_integer_stored. unfold stored_integers.
  apply in_or_app. left. now apply in_map.
Qed.

Lemma book_id_stored d b : In b (books d) -> sqlite_integer d (b_id b) = true.
Proof.
  intros H. apply sqlite_integer_stored. unfold stored_integers.
  apply in_or_app. right. apply in_or_app. left. now apply in_map.
Qed.

Lemma review_stored d r :
  In r (reviews d) ->
  sqlite_integer d (r_id r) = true /\ sqlite_integer d (r_user_id r) = true /\
  sqlite_integer d (r_book_id r) = true.
Proof.
  intros H.
  assert (Hin : forall n, In n [r_id r; r_user_id r; r_book_id r; r_rating r] ->
                          sqlite_integer d n = true).
  { intros n Hn. apply sqlite_integer_stored. unfold stored_integers.
    apply in_or_app. right. apply in_or_app. right.
    apply in_flat_map. now exists r. }
  split; [|split]; apply Hin; simpl; tauto.
Qed.

Section StatementFacts.
Context {engine : SqlEngine}.

Lemma few_placeholders sql :
  (count_placeholders sql <=? 999)%nat = true ->
  (count_placeholders sql <= max_variable_number)%nat.
Proof.
  intros H. apply Nat.leb_le in H.
  exact (Nat.le_trans _ _ _ H max_variable_number_floor).
Qed.

Lemma statement_error_none sql params d :
  unrecognized_token sql = None ->
  (count_placeholders sql <= max_variable_number)%nat ->
  count_placeholders sql = List.length params ->
  forallb (bindable d) params = true ->
  statement_error sql params d = None.
Proof.
  intros Htok Hmax Hcount Hbound. unfold statement_error.
  rewrite Htok, <- Hcount, Nat.eqb_refl, Hbound.
  replace (max_variable_number <? count_placeholders sql)%nat with false;
    [reflexivity|].
  symmetry. apply Nat.ltb_ge. exact Hmax.
Qed.

Lemma statement_error_overflow sql params d :
  unrecognized_token sql = None ->
  (count_placeholders sql <= max_variable_number)%nat ->
  count_placeholders sql = List.length params ->
  forallb (bindable d) params = false ->
  statement_error sql params d = Some int_too_large.
Proof.
  intros Htok Hmax Hcount Hbound. unfold statement_error.
  rewrite Htok, <- Hcount, Nat.eqb_refl, Hbound.
  replace (max_variable_number <? count_placeholders sql)%nat with false;
    [reflexivity|].
  symmetry. apply Nat.ltb_ge. exact Hmax.
Qed.

Lemma statement_error_too_many sql params d :
  unrecognized_token sql = None ->
  (max_variable_number < count_placeholders sql)%nat ->
  statement_error sql params d = Some too_many_variables.
Proof.
  intros Htok Hmax. unfold statement_error. rewrite Htok.
  apply Nat.ltb_lt in Hmax. now rewrite Hmax.
Qed.

Lemma execute_ok {A} db sql params (rows : database -> list A) w :
  unrecognized_token sql = None ->
  (count_placeholders sql <= max_variable_number)%nat ->
  count_placeholders sql = List.length params ->
  forallb (bindable (store w)) params = true ->
  execute db sql params rows w = (Ok (rows (store w)), w).
Proof.
  intros Htok Hmax Hcount Hbound. unfold execute.
  now rewrite statement_error_none.
Qed.

Lemma execute_overflow {A} db sql params (rows : database -> list A) w :
  unrecognized_token sql = None ->
  (count_placeholders sql <= max_variable_number)%nat ->
  count_placeholders sql = List.length params ->
  forallb (bindable (store w)) params = false ->
  execute db sql params rows w = (Raise int_too_large, w).
Proof.
  intros Htok Hmax Hcount Hbound. unfold execute.
  now rewrite statement_error_overflow.
Qed.

Lemma execute_too_many {A} db sql params (rows : database -> list A) w :
  unrecognized_token sql = None ->
  (max_variable_number < count_placeholders sql)%nat ->
  execute db sql params rows w = (Raise too_many_variables, w).
Proof.
  intros Htok Hmax. unfold execute.
  now rewrite statement_error_too_many.
Qed.

Lemma execute_unrecognized {A} db sql params (rows : database -> list A) w c :
  unrecognized_token sql = Some c ->
  execute db sql params rows w = (Raise (unrecognized_token_error c), w).
Proof.
  intros Htok. unfold execute, statement_error. rewrite Htok. reflexivity.
Qed.

Lemma execute_write_ok db sql params change w :
  unrecognized_token sql = None ->
  (count_placeholders sql <= max_variable_number)%nat ->
  count_placeholders sql = List.length params ->
  forallb (bindable (store w)) params = true ->
  execute_write db sql params change w =
  match change (store w) with
  | Ok d => (Ok tt, mkWorld d (flashed w) (g_database w))
  | Raise e => (Raise e, w)
  end.
Proof.
  intros Htok Hmax Hcount Hbound. unfold execute_write.
  now rewrite statement_error_none.
Qed.

End StatementFacts.

(** The side conditions of a statement written out in the source: its text,
    its number of [?], and the integers bound to it. *)
Ltac bound_integers :=
  cbn [forallb bindable store connected];
  repeat match goal with
         | H : sqlite_integer _ _ = true |- _ => rewrite H
         end;
  reflexivity.

Ltac statement_runs :=
  first [reflexivity | apply few_placeholders; reflexivity | bound_integers].

Lemma exhausted_fallback_unrecognized :
  unrecognized_token sql_exhausted_fallback = Some "{"%char.
Proof. reflexivity. Qed.

Lemma recommendation_query_tokens {A B} (genres : list A) (ids : list B) :
  unrecognized_token
    ((sql_recommendation_head (placeholders_for genres)
      ++ sql_recommendation_exclusion (placeholders_for ids))
     ++ sql_recommendation_tail) = None.
Proof.
  unfold sql_recommendation_head, sql_recommendation_exclusion.
  rewrite !unrecognized_token_app, !placeholders_for_tokens. reflexivity.
Qed.

Lemma recommendation_query_count {A B} (genres : list A) (ids : list B) :
  count_placeholders
    ((sql_recommendation_head (placeholders_for genres)
      ++ sql_recommendation_exclusion (placeholders_for ids))
     ++ sql_recommendation_tail) = (List.length genres + List.length ids)%nat.
Proof.
  unfold sql_recommendation_head, sql_recommendation_exclusion.
  rewrite !count_placeholders_app, !placeholders_for_count.
  change (count_placeholders sql_recommendation_select) with O.
  change (count_placeholders sql_recommendation_tail) with O.
  change (count_placeholders ")") with O.
  change (count_placeholders " AND b.id NOT IN (") with O.
  lia.
Qed.

Lemma recommendation_query_tokens_plain {A} (genres : list A) :
  unrecognized_token
    (sql_recommendation_head (placeholders_for genres) ++ sql_recommendation_tail) = None.
Proof.
  unfold sql_recommendation_head.
  rewrite !unrecognized_token_app, !placeholders_for_tokens. reflexivity.
Qed.

Lemma recommendation_query_count_plain {A} (genres : list A) :
  count_placeholders
    (sql_recommendation_head (placeholders_for genres) ++ sql_recommendation_tail)
  = List.length genres.
Proof.
  unfold sql_recommendation_head.
  rewrite !count_placeholders_app, !placeholders_for_count.
  change (count_placeholders sql_recommendation_select) with O.
  change (count_placeholders sql_recommendation_tail) with O.
  change (count_placeholders ")") with O.
  lia.
Qed.

(** ** The sort keys are total preorders *)

Lemma string_leb_trans (a b c : string) :
  String.leb a b = true -> String.leb b c = true -> String.leb a c = true.
Proof.
  unfold String.leb. revert b c.
  induction a as [|x a IH]; intros [|y b] [|z c]; simpl; try congruence.
  unfold Ascii.compare.
  destruct (N.compare_spec (N_of_ascii x) (N_of_ascii y)) as [Hxy|Hxy|Hxy];
    destruct (N.compare_spec (N_of_ascii y) (N_of_ascii z)) as [Hyz|Hyz|Hyz];
    try congruence;
    destruct (N.compare_spec (N_of_ascii x) (N_of_ascii z)) as [Hxz|Hxz|Hxz];
    try congruence; try lia.
  apply IH.
Qed.

Lemma avg_compare_antisym (a b : option Q) :
  avg_compare b a = CompOpp (avg_compare a b).
Proof.
  destruct a, b; simpl; try reflexivity.
  symmetry. apply Qcompare_antisym.
Qed.

Lemma avg_compare_trans (a b c : option Q) :
  avg_compare a b <> Gt -> avg_compare b c <> Gt ->
  match avg_compare a b, avg_compare b c with
  | Eq, Eq => avg_compare a c = Eq
  | _, _ => avg_compare a c = Lt
  end.
Proof.
  destruct a as [p|], b as [q|], c as [r|]; simpl; try congruence.
  destruct (Qcompare_spec p q) as [Hpq|Hpq|Hpq];
    destruct (Qcompare_spec q r) as [Hqr|Hqr|Hqr];
    intros H1 H2; try congruence.
  - apply Qeq_alt. now rewrite Hpq.
  - apply Qlt_alt. now rewrite Hpq.
  - apply Qlt_alt. now rewrite <- Hqr.
  - apply Qlt_alt. now apply Qlt_trans with q.
Qed.

Lemma count_desc_total (x y : string * nat) :
  count_desc x y = true \/ count_desc y x = true.
Proof. unfold count_desc. rewrite !Nat.leb_le. lia. Qed.

Lemma count_desc_trans (x y z : string * nat) :
  count_desc x y = true -> count_desc y z = true -> count_desc x z = true.
Proof. unfold count_desc. rewrite !Nat.leb_le. lia. Qed.

Lemma avg_desc_total (x y : row) : avg_desc x y = true \/ avg_desc y x = true.
Proof.
  unfold avg_desc. rewrite (avg_compare_antisym (snd y) (snd x)).
  destruct (avg_compare (snd y) (snd x)); simpl; auto.
Qed.

Lemma avg_desc_trans (x y z : row) :
  avg_desc x y = true -> avg_desc y z = true -> avg_desc x z = true.
Proof.
  unfold avg_desc. intros Hxy Hyz.
  assert (H := avg_compare_trans (snd z) (snd y) (snd x)).
  destruct (avg_compare (snd z) (snd y)), (avg_compare (snd y) (snd x));
    try discriminate; rewrite H; congruence.
Qed.

Lemma avg_desc_title_asc_total (x y : row) :
  avg_desc_title_asc x y = true \/ avg_desc_title_asc y x = true.
Proof.
  unfold avg_desc_title_asc. rewrite (avg_compare_antisym (snd y) (snd x)).
  destruct (avg_compare (snd y) (snd x)); simpl; auto.
  apply String.leb_total.
Qed.

Lemma avg_desc_title_asc_trans (x y z : row) :
  avg_desc_title_asc x y = true -> avg_desc_title_asc y z = true ->
  avg_desc_title_asc x z = true.
Proof.
  unfold avg_desc_title_asc. intros Hxy Hyz.
  assert (H := avg_compare_trans (snd z) (snd y) (snd x)).
  destruct (avg_compare (snd z) (snd y)), (avg_compare (snd y) (snd x));
    try discriminate; rewrite H; try congruence.
  eapply string_leb_trans; eassumption.
Qed.

(** ** Lists *)

Lemma firstn_succ_nil {A} n (l : list A) : firstn (S n) l = [] -> l = [].
Proof. destruct l; simpl; congruence. Qed.

Lemma StronglySorted_app_parts {A} (R : A -> A -> Prop) (l1 l2 : list A) :
  StronglySorted R (l1 ++ l2) ->
  StronglySorted R l1 /\ StronglySorted R l2 /\
  (forall x y, In x l1 -> In y l2 -> R x y).
Proof.
  induction l1 as [|a l1 IH]; simpl; intros Hs.
  - repeat split; [constructor|exact Hs|contradiction].
  - inversion Hs as [|? ? Hs' Hall]; subst.
    destruct (IH Hs') as (H1 & H2 & H3).
    rewrite Forall_app in Hall. destruct Hall as [Ha1 Ha2].
    repeat split; [now constructor|exact H2|].
    intros x y [<-|Hx] Hy; [|now apply H3].
    rewrite Forall_forall in Ha2. now apply Ha2.
Qed.

Lemma StronglySorted_firstn {A} (R : A -> A -> Prop) n (l : list A) :
  StronglySorted R l -> StronglySorted R (firstn n l).
Proof.
  intros Hs. rewrite <- (firstn_skipn n l) in Hs.
  now apply StronglySorted_app_parts in Hs.
Qed.

Lemma StronglySorted_before {A} (R : A -> A -> Prop) (l : list A) i j x y :
  StronglySorted R l -> (i < j)%nat ->
  nth_error l i = Some x -> nth_error l j = Some y -> R x y.
Proof.
  intros Hs. revert i j.
  induction Hs as [|a l Hs IH Hall]; intros i j Hij Hi Hj.
  - destruct i; discriminate.
  - destruct j as [|j]; [lia|]. simpl in Hj.
    destruct i as [|i]; simpl in Hi.
    + injection Hi as <-. rewrite Forall_forall in Hall.
      apply Hall. eapply nth_error_In; eassumption.
    + apply (IH i j); [lia|assumption|assumption].
Qed.

Lemma NoDup_firstn_of {A} n (l : list A) : NoDup l -> NoDup (firstn n l).
Proof.
  intros Hn. rewrite <- (firstn_skipn n l) in Hn.
  now apply NoDup_app_remove_r in Hn.
Qed.

Lemma filter_keeps_key {K R} (key : R -> K) (keep : R -> bool) (rows : list R) :
  NoDup (map key rows) -> NoDup (map key (filter keep rows)).
Proof.
  induction rows as [|x rows IH]; simpl; intros Hkey; [constructor|].
  apply NoDup_cons_iff in Hkey. destruct Hkey as [Hfresh Hkey].
  destruct (keep x); simpl; [|now apply IH].
  apply NoDup_cons; [|now apply IH].
  intros Hx. apply Hfresh.
  apply in_map_iff in Hx. destruct Hx as (y & Hy & Hin).
  apply filter_In in Hin. apply in_map_iff. exists y. tauto.
Qed.

Section RecommendationFacts.
Context {engine : SqlEngine}.

Lemma order_by_nil {A} (le : A -> A -> bool) (l : list A) :
  order_by le l = [] -> l = [].
Proof.
  intros H. apply Permutation_nil. rewrite <- H.
  apply Permutation_sym, order_by_perm.
Qed.

Lemma order_by_singleton {A} (le : A -> A -> bool) (x : A) :
  order_by le [x] = [x].
Proof. apply Permutation_length_1_inv. apply order_by_perm. Qed.

(** ** Affinity extraction *)

Lemma high_rated_genres_In user_id d g :
  In g (high_rated_genres user_id d) <->
  exists r b, In r (reviews d) /\ In b (books d) /\
              r_user_id r = user_id /\ 4 <= r_rating r /\
              r_book_id r = b_id b /\ b_genre b = g.
Proof.
  unfold high_rated_genres. rewrite in_flat_map. split.
  - intros (r & Hr & Hg).
    destruct (r_user_id r =? user_id) eqn:Eu; [|contradiction].
    destruct (4 <=? r_rating r) eqn:Er; [|contradiction].
    simpl in Hg. apply in_map_iff in Hg. destruct Hg as (b & Hb & Hin).
    apply filter_In in Hin. destruct Hin as [Hin Eb].
    exists r, b. rewrite Z.eqb_eq in Eu, Eb. rewrite Z.leb_le in Er. tauto.
  - intros (r & b & Hr & Hb & Eu & Er & Eb & Hg).
    exists r. split; [exact Hr|].
    apply Z.eqb_eq in Eu. apply Z.leb_le in Er. rewrite Eu, Er. simpl.
    apply in_map_iff. exists b. split; [exact Hg|].
    apply filter_In. split; [exact Hb|]. now apply Z.eqb_eq.
Qed.

(** The join of the code, review by review, is the join of the
    specification, pair by pair. *)
Lemma joined_to_one_review (r : review) (user_id : Z) (catalogue : list book) :
  map (fun joined : review * book => b_genre (snd joined))
    (filter (fun joined : review * book =>
               (r_user_id (fst joined) =? user_id) && (4 <=? r_rating (fst joined))
               && (r_book_id (fst joined) =? b_id (snd joined)))
       (map (fun b => (r, b)) catalogue))
  = if (r_user_id r =? user_id) && (4 <=? r_rating r)
    then map b_genre (filter (fun b => r_book_id r =? b_id b) catalogue)
    else [].
Proof.
  destruct ((r_user_id r =? user_id) && (4 <=? r_rating r)) eqn:Equalifies;
    induction catalogue as [|b catalogue IH]; cbn [map filter fst snd];
    try reflexivity; rewrite Equalifies; cbn [andb].
  - destruct (r_book_id r =? b_id b); cbn [map snd]; now rewrite IH.
  - exact IH.
Qed.

Lemma high_rated_genres_spec user_id d :
  high_rated_genres user_id d = spec_qualifying_categories user_id d.
Proof.
  unfold high_rated_genres, spec_qualifying_categories.
  induction (reviews d) as [|r rs IH]; simpl; [reflexivity|].
  rewrite filter_app, map_app, joined_to_one_review, IH. reflexivity.
Qed.

Lemma group_count_fst gs : map fst (group_count gs) = nodup string_dec gs.
Proof.
  unfold group_count. rewrite map_map. simpl. apply map_id.
Qed.

Lemma group_count_snd gs x :
  In x (group_count gs) -> snd x = count_occ string_dec gs (fst x).
Proof.
  unfold group_count. rewrite in_map_iff. now intros (g & <- & _).
Qed.

Lemma favorite_genres_rows_nil user_id d :
  favorite_genres_rows user_id d = [] <-> high_rated_genres user_id d = [].
Proof.
  unfold favorite_genres_rows. split.
  - intros H. apply map_eq_nil, firstn_succ_nil, order_by_nil in H.
    apply (f_equal (map fst)) in H. rewrite group_count_fst in H. simpl in H.
    destruct (high_rated_genres user_id d) as [|g gs]; [reflexivity|].
    assert (Hin : In g (nodup string_dec (g :: gs))) by (apply nodup_In; now left).
    rewrite H in Hin. contradiction.
  - intros ->. unfold group_count. simpl.
    assert (H := order_by_perm _ count_desc []).
    apply Permutation_nil in H. now rewrite H.
Qed.

Lemma favorite_genres_length user_id d :
  (List.length (favorite_genres_rows user_id d) <= 3)%nat.
Proof.
  unfold favorite_genres_rows. rewrite length_map, length_firstn. lia.
Qed.

(** Favourite genres come from a review of the user rated 4 or more. *)
Lemma favorite_genres_high_rating user_id d :
  favorite_genres_rows user_id d <> [] ->
  exists r b, In r (reviews d) /\ In b (books d) /\
              r_user_id r = user_id /\ 4 <= r_rating r /\ r_book_id r = b_id b.
Proof.
  intros Hfav.
  destruct (high_rated_genres user_id d) as [|g gs] eqn:E.
  - exfalso. apply Hfav. now apply favorite_genres_rows_nil.
  - assert (Hin : In g (high_rated_genres user_id d)) by (rewrite E; now left).
    apply high_rated_genres_In in Hin.
    destruct Hin as (r & b & Hr & Hb & Hu & Hrating & Hid & _).
    exists r, b. auto 10.
Qed.

Lemma high_rating_favorite_genres user_id d r b :
  In r (reviews d) -> In b (books d) ->
  r_user_id r = user_id -> 4 <= r_rating r -> r_book_id r = b_id b ->
  favorite_genres_rows user_id d <> [].
Proof.
  intros Hr Hb Hu Hrating Hid Hnil.
  apply favorite_genres_rows_nil in Hnil.
  assert (Hin : In (b_genre b) (high_rated_genres user_id d))
    by (apply high_rated_genres_In; exists r, b; auto 10).
  rewrite Hnil in Hin. contradiction.
Qed.

Lemma favorite_genres_user_bound user_id d :
  favorite_genres_rows user_id d <> [] -> sqlite_integer d user_id = true.
Proof.
  intros Hfav.
  destruct (favorite_genres_high_rating user_id d Hfav) as (r & b & Hr & _ & Hu & _).
  rewrite <- Hu. now apply review_stored.
Qed.

Lemma text_parameters_bound d (texts : list string) :
  forallb (bindable d) (map SqlText texts) = true.
Proof. induction texts as [|t texts IH]; simpl; [reflexivity|exact IH]. Qed.

Lemma reviewed_books_bound user_id d :
  forallb (bindable d) (map SqlInt (reviewed_books_rows user_id d)) = true.
Proof.
  apply forallb_forall. intros v Hv.
  apply in_map_iff in Hv. destruct Hv as (i & <- & Hi).
  unfold reviewed_books_rows in Hi. apply in_map_iff in Hi.
  destruct Hi as (r & <- & Hr). apply filter_In in Hr.
  simpl. now apply review_stored.
Qed.

(** ** The ways out of [get_recommendations] *)

Lemma recommendation_rows_ext (p q : book -> bool) d :
  (forall b, p b = q b) -> recommendation_rows p d = recommendation_rows q d.
Proof.
  intros H. unfold recommendation_rows. now rewrite (filter_ext p q H).
Qed.

(** Every call, path by path: the user id is bound to the first statement;
    the recommendation query has one [?] for each favourite genre and each
    reviewed book; the fallback statement never compiles. *)
Lemma get_recommendations_run user_id w :
  get_recommendations user_id w =
  (if sqlite_integer (store w) user_id then
     match favorite_genres_rows user_id (store w) with
     | [] => Ok (global_top_rows (store w))
     | g :: gs =>
         if (max_variable_number
             <? List.length (g :: gs)
                + List.length (reviewed_books_rows user_id (store w)))%nat
         then Raise too_many_variables
         else
           match firstn 5 (order_by avg_desc_title_asc
                             (affinity_candidates user_id (store w))) with
           | [] => Raise (unrecognized_token_error "{")
           | x :: l => Ok (x :: l)
           end
     end
   else Raise int_too_large, connected w).
Proof.
  unfold get_recommendations, bind. rewrite get_db_run.
  destruct (sqlite_integer (store w) user_id) eqn:Hu.
  2: { rewrite execute_overflow; [reflexivity|statement_runs..|].
       cbn [forallb bindable store connected]. now rewrite Hu. }
  rewrite execute_ok by statement_runs.
  cbn [store connected]. unfold affinity_candidates.
  destruct (favorite_genres_rows user_id (store w)) as [|g gs] eqn:Efav.
  { now rewrite execute_ok by statement_runs. }
  rewrite execute_ok by statement_runs. cbn [store connected].
  assert (Hids := reviewed_books_bound user_id (store w)).
  destruct (reviewed_books_rows user_id (store w)) as [|i ids] eqn:Eids.
  - rewrite Nat.add_0_r.
    destruct (max_variable_number <? List.length (g :: gs))%nat eqn:Emax.
    + apply Nat.ltb_lt in Emax.
      rewrite execute_too_many; [reflexivity| |].
      * apply recommendation_query_tokens_plain.
      * now rewrite recommendation_query_count_plain.
    + apply Nat.ltb_ge in Emax.
      rewrite execute_ok.
      * cbn [store connected]. unfold recommendation_rows.
        rewrite (filter_ext (genre_in (g :: gs))
                   (fun b => genre_in (g :: gs) b && id_not_in [] b))
          by (intros b; unfold id_not_in; simpl; now rewrite andb_true_r).
        destruct (firstn 5 _); [|reflexivity].
        now rewrite (execute_unrecognized _ _ _ _ _ _ exhausted_fallback_unrecognized).
      * apply recommendation_query_tokens_plain.
      * now rewrite recommendation_query_count_plain.
      * now rewrite recommendation_query_count_plain, length_map.
      * apply text_parameters_bound.
  - destruct (max_variable_number
              <? List.length (g :: gs) + List.length (i :: ids))%nat eqn:Emax.
    + apply Nat.ltb_lt in Emax.
      rewrite execute_too_many; [reflexivity| |].
      * apply recommendation_query_tokens.
      * now rewrite recommendation_query_count.
    + apply Nat.ltb_ge in Emax.
      rewrite execute_ok.
      * cbn [store connected]. unfold recommendation_rows.
        destruct (firstn 5 _); [|reflexivity].
        now rewrite (execute_unrecognized _ _ _ _ _ _ exhausted_fallback_unrecognized).
      * apply recommendation_query_tokens.
      * now rewrite recommendation_query_count.
      * now rewrite recommendation_query_count, length_app, !length_map.
      * rewrite forallb_app, text_parameters_bound. exact Hids.
Qed.

Lemma get_recommendations_overflow user_id w :
  sqlite_integer (store w) user_id = false ->
  get_recommendations user_id w = (Raise int_too_large, connected w).
Proof. intros H. now rewrite get_recommendations_run, H. Qed.

Lemma get_recommendations_no_affinity user_id w :
  sqlite_integer (store w) user_id = true ->
  favorite_genres_rows user_id (store w) = [] ->
  get_recommendations user_id w = (Ok (global_top_rows (store w)), connected w).
Proof. intros Hu Hfav. now rewrite get_recommendations_run, Hu, Hfav. Qed.

Lemma get_recommendations_too_many user_id w :
  favorite_genres_rows user_id (store w) <> [] ->
  (max_variable_number
   < List.length (favorite_genres_rows user_id (store w))
     + List.length (reviewed_books_rows user_id (store w)))%nat ->
  get_recommendations user_id w = (Raise too_many_variables, connected w).
Proof.
  intros Hfav Hmax. rewrite get_recommendations_run.
  rewrite (favorite_genres_user_bound _ _ Hfav).
  destruct (favorite_genres_rows user_id (store w)) as [|g gs]; [congruence|].
  apply Nat.ltb_lt in Hmax. now rewrite Hmax.
Qed.

Lemma get_recommendations_query user_id w :
  favorite_genres_rows user_id (store w) <> [] ->
  (List.length (favorite_genres_rows user_id (store w))
   + List.length (reviewed_books_rows user_id (store w)) <= max_variable_number)%nat ->
  get_recommendations user_id w =
  (match firstn 5 (order_by avg_desc_title_asc (affinity_candidates user_id (store w))) with
   | [] => Raise (unrecognized_token_error "{")
   | x :: l => Ok (x :: l)
   end, connected w).
Proof.
  intros Hfav Hmax. rewrite get_recommendations_run.
  rewrite (favorite_genres_user_bound _ _ Hfav).
  destruct (favorite_genres_rows user_id (store w)) as [|g gs]; [congruence|].
  apply Nat.ltb_ge in Hmax. now rewrite Hmax.
Qed.

Lemma get_recommendations_frame user_id w :
  snd (get_recommendations user_id w) = connected w.
Proof. now rewrite get_recommendations_run. Qed.

Lemma get_recommendations_of_store user_id w1 w2 :
  store w1 = store w2 ->
  fst (get_recommendations user_id w1) = fst (get_recommendations user_id w2).
Proof.
  intros H. rewrite !get_recommendations_run. simpl. now rewrite H.
Qed.

Lemma count_desc_sorted_genres (occurrences : string -> nat) (l : list (string * nat)) :
  (forall x, In x l -> snd x = occurrences (fst x)) ->
  StronglySorted (fun x y => count_desc x y = true) l ->
  StronglySorted (fun g h => (occurrences h <= occurrences g)%nat) (map fst l).
Proof.
  intros Hocc Hs. induction Hs as [|x l Hs IH Hall]; simpl; constructor.
  - apply IH. intros y Hy. apply Hocc. now right.
  - rewrite Forall_forall in *. intros h Hh.
    apply in_map_iff in Hh. destruct Hh as (y & <- & Hy).
    specialize (Hall y Hy). unfold count_desc in Hall. apply Nat.leb_le in Hall.
    rewrite <- (Hocc x) by now left. rewrite <- (Hocc y) by now right.
    exact Hall.
Qed.

(** What the first statement selects, against the specification's count of
    occurrences. *)
Lemma favorite_genres_rows_most_frequent user_id d :
  let count := spec_occurrences user_id d in
  let genres := favorite_genres_rows user_id d in
  NoDup genres /\
  (forall g, In g genres -> (0 < count g)%nat) /\
  List.length genres
  = Nat.min 3 (List.length (nodup string_dec (spec_qualifying_categories user_id d))) /\
  StronglySorted (fun g h => (count h <= count g)%nat) genres /\
  (forall g h, In g genres -> ~ In h genres -> (count h <= count g)%nat).
Proof.
  intros count genres. unfold count, genres, spec_occurrences.
  rewrite <- (high_rated_genres_spec user_id d).
  set (qualifying := high_rated_genres user_id d).
  set (occurrences := count_occ string_dec qualifying).
  unfold favorite_genres_rows. fold qualifying.
  set (l := order_by count_desc (group_count qualifying)).
  assert (Hperm : Permutation (group_count qualifying) l) by apply order_by_perm.
  assert (Hsort : StronglySorted (fun x y => count_desc x y = true) l)
    by (apply order_by_sorted; [apply count_desc_total|apply count_desc_trans]).
  assert (Hfst : Permutation (nodup string_dec qualifying) (map fst l))
    by (rewrite <- group_count_fst; now apply Permutation_map).
  assert (Hocc : forall x, In x l -> snd x = occurrences (fst x)).
  { intros x Hx. apply group_count_snd.
    eapply Permutation_in; [apply Permutation_sym; exact Hperm|exact Hx]. }
  assert (Hin : forall g, In g (map fst (firstn 3 l)) -> In g qualifying).
  { intros g Hg. apply (nodup_In string_dec).
    eapply Permutation_in; [apply Permutation_sym; exact Hfst|].
    rewrite <- (firstn_skipn 3 l). rewrite map_app. apply in_or_app. now left. }
  split; [|split; [|split; [|split]]].
  - rewrite <- firstn_map. apply NoDup_firstn_of.
    eapply Permutation_NoDup; [exact Hfst|apply NoDup_nodup].
  - intros g Hg. apply Hin in Hg. unfold occurrences.
    now apply (count_occ_In string_dec).
  - rewrite length_map, length_firstn.
    rewrite (Permutation_length Hfst), length_map. reflexivity.
  - apply count_desc_sorted_genres.
    + intros x Hx. apply Hocc. rewrite <- (firstn_skipn 3 l).
      apply in_or_app. now left.
    + now apply StronglySorted_firstn.
  - intros g h Hg Hnot.
    destruct (in_dec string_dec h qualifying) as [Hh|Hh].
    2: { unfold occurrences at 1.
         rewrite (proj1 (count_occ_not_In string_dec qualifying h) Hh). lia. }
    apply in_map_iff in Hg. destruct Hg as (x & <- & Hx).
    assert (Hh' : In h (map fst l)).
    { eapply Permutation_in; [exact Hfst|]. now apply nodup_In. }
    apply in_map_iff in Hh'. destruct Hh' as (y & <- & Hy).
    rewrite <- (firstn_skipn 3 l) in Hy, Hsort.
    apply StronglySorted_app_parts in Hsort. destruct Hsort as (_ & _ & Hcross).
    apply in_app_or in Hy. destruct Hy as [Hy|Hy].
    + exfalso. apply Hnot. apply in_map_iff. now exists y.
    + specialize (Hcross x y Hx Hy). unfold count_desc in Hcross.
      apply Nat.leb_le in Hcross.
      rewrite <- (Hocc x), <- (Hocc y); [exact Hcross| |].
      * rewrite <- (firstn_skipn 3 l). apply in_or_app. now right.
      * rewrite <- (firstn_skipn 3 l). apply in_or_app. now left.
Qed.

(** C4: for a user with a review rated 4 or more (of a catalogued book),
    the genres that [get_recommendations] goes on with (it selects the books
    of these genres that the user has not reviewed) are the up-to-3 most
    frequent categories among that user's ratings of score 4 or more, as the
    specification counts them: no genre twice, each one the category of such
    a rating, three of them unless fewer distinct ones exist, in descending
    order of their number of occurrences, and no category left out occurs
    more often than one that was taken. *)
Theorem favorite_genres_most_frequent (user_id : Z) (w : world) :
  (exists r b, In r (reviews (store w)) /\ In b (books (store w)) /\
               r_user_id r = user_id /\ 4 <= r_rating r /\ r_book_id r = b_id b) ->
  let count := spec_occurrences user_id (store w) in
  let reviewed := reviewed_books_rows user_id (store w) in
  exists genres,
    get_recommendations user_id w
    = (if (max_variable_number <? List.length genres + List.length reviewed)%nat
       then Raise too_many_variables
       else
         match firstn 5
                 (order_by avg_desc_title_asc
                    (map (with_avg (store w))
                       (filter (fun b => genre_in genres b && id_not_in reviewed b)
                          (books (store w))))) with
         | [] => Raise (unrecognized_token_error "{")
         | x :: l => Ok (x :: l)
         end, connected w) /\
    genres <> [] /\
    NoDup genres /\
    (forall g, In g genres -> (0 < count g)%nat) /\
    List.length genres
    = Nat.min 3 (List.length
                   (nodup string_dec (spec_qualifying_categories user_id (store w)))) /\
    StronglySorted (fun g h => (count h <= count g)%nat) genres /\
    (forall g h, In g genres -> ~ In h genres -> (count h <= count g)%nat).
Proof.
  intros (r & b & Hr & Hb & Hu & Hrating & Hid) count reviewed.
  assert (Hfav : favorite_genres_rows user_id (store w) <> [])
    by exact (high_rating_favorite_genres user_id (store w) r b Hr Hb Hu Hrating Hid).
  exists (favorite_genres_rows user_id (store w)).
  split; [|split; [exact Hfav|]].
  - rewrite get_recommendations_run.
    rewrite (favorite_genres_user_bound _ _ Hfav).
    unfold affinity_candidates. fold reviewed.
    now destruct (favorite_genres_rows user_id (store w)) as [|g gs]; [congruence|].
  - apply favorite_genres_rows_most_frequent.
Qed.

(** ** Rankings *)

Lemma AVG_spec_mean (ratings : list Z) : spec_mean ratings (AVG ratings).
Proof.
  destruct ratings as [|n l]; [reflexivity|].
  unfold AVG, spec_mean. split; [discriminate|].
  set (total := fold_right Z.add 0 (n :: l)).
  set (count := List.length (n :: l)).
  assert (Hpos : Z.pos (Pos.of_nat count) = Z.of_nat count).
  { rewrite <- (Nat2Pos.id count) at 2 by (unfold count; simpl; lia).
    symmetry. apply positive_nat_Z. }
  unfold Qeq, Qmult, inject_Z. cbn [Qnum Qden].
  rewrite Pos.mul_1_r, Hpos. ring.
Qed.

Lemma with_avg_fst d b : fst (with_avg d b) = b.
Proof. reflexivity. Qed.

Lemma with_avg_spec_mean d b :
  spec_mean (spec_item_scores d b) (snd (with_avg d b)).
Proof.
  unfold spec_item_scores, with_avg. cbn [snd].
  rewrite (filter_ext (fun r => r_book_id r =? b_id b) (fun r => b_id b =? r_book_id r))
    by (intros r; apply Z.eqb_sym).
  apply AVG_spec_mean.
Qed.

Lemma ranked_rows_spec_mean (le : row -> row -> bool) d (l : list book) x :
  In x (order_by le (map (with_avg d) l)) ->
  spec_mean (spec_item_scores d (fst x)) (snd x).
Proof.
  intros Hx.
  apply (Permutation_in _ (Permutation_sym (order_by_perm _ le _))) in Hx.
  apply in_map_iff in Hx. destruct Hx as (b & <- & _).
  apply with_avg_spec_mean.
Qed.

Lemma avg_compare_not_below (a b : option Q) :
  avg_compare b a <> Gt <-> spec_not_below a b.
Proof.
  destruct a as [p|], b as [q|]; simpl.
  - symmetry. apply Qle_alt.
  - split; [intros _; exact I|discriminate].
  - split; [intros H; now apply H|contradiction].
  - split; [intros _; exact I|discriminate].
Qed.

Lemma avg_compare_same (a b : option Q) :
  avg_compare b a = Eq <-> spec_same_average a b.
Proof.
  destruct a as [p|], b as [q|]; simpl.
  - rewrite <- Qeq_alt. split; intros H; now symmetry.
  - split; [discriminate|contradiction].
  - split; [discriminate|contradiction].
  - split; [intros _; exact I|reflexivity].
Qed.

Lemma with_avg_null d b :
  snd (with_avg d b) = None <->
  (forall r, In r (reviews d) -> r_book_id r <> b_id b).
Proof.
  unfold with_avg, AVG. simpl.
  destruct (map r_rating (filter (fun r => b_id b =? r_book_id r) (reviews d)))
    as [|n ns] eqn:E.
  - split; [intros _ r Hr Heq|reflexivity].
    apply map_eq_nil in E.
    assert (Hin : In r (filter (fun r => b_id b =? r_book_id r) (reviews d)))
      by (apply filter_In; split; [exact Hr|apply Z.eqb_eq; congruence]).
    rewrite E in Hin. contradiction.
  - split; [discriminate|]. intros H. exfalso.
    destruct (filter (fun r => b_id b =? r_book_id r) (reviews d)) as [|r rs] eqn:F;
      [discriminate|].
    assert (Hin : In r (filter (fun r => b_id b =? r_book_id r) (reviews d)))
      by (rewrite F; now left).
    apply filter_In in Hin. destruct Hin as [Hin Heq].
    apply Z.eqb_eq in Heq. now apply (H r Hin).
Qed.

Lemma no_high_rating_no_favorite user_id d :
  (forall r, In r (reviews d) -> r_user_id r = user_id -> r_rating r < 4) ->
  favorite_genres_rows user_id d = [].
Proof.
  intros H. apply favorite_genres_rows_nil.
  destruct (high_rated_genres user_id d) as [|g gs] eqn:E; [reflexivity|].
  assert (Hin : In g (high_rated_genres user_id d)) by (rewrite E; now left).
  apply high_rated_genres_In in Hin.
  destruct Hin as (r & b & Hr & _ & Hu & Hrating & _).
  specialize (H r Hr Hu). lia.
Qed.

Lemma ranked_rows_distinct (le : row -> row -> bool) d (l : list book) :
  NoDup (map b_id l) ->
  NoDup (map (fun x : row => b_id (fst x)) (firstn 5 (order_by le (map (with_avg d) l)))).
Proof.
  intros Hn. rewrite <- firstn_map. apply NoDup_firstn_of.
  eapply Permutation_NoDup.
  - apply Permutation_map. apply order_by_perm.
  - rewrite map_map. simpl. exact Hn.
Qed.

Lemma ranked_rows_books (le : row -> row -> bool) d (l : list book) :
  Permutation l (map fst (order_by le (map (with_avg d) l))).
Proof.
  rewrite <- (map_id l) at 1.
  rewrite <- (map_ext (fun b => fst (with_avg d b)) (fun b => b)) by reflexivity.
  rewrite <- map_map. apply Permutation_map. apply order_by_perm.
Qed.

Lemma account_or_int64_bound user_id d :
  - 2 ^ 63 <= user_id < 2 ^ 63 \/ In user_id (map u_id (users d)) ->
  sqlite_integer d user_id = true.
Proof.
  intros [H|H]; [now apply sqlite_integer_fits|].
  apply in_map_iff in H. destruct H as (u & <- & Hu). now apply account_id_stored.
Qed.

(** C3: for a user none of whose reviews is rated 4 or more (a user with no
    review among them), the user id being one an account can have (64 bits,
    or the id of an account of the store), the result is the first five rows
    of a ranking of every book of the catalogue, the user's own reviewed
    books included; each row carries the mean of all ratings of its book,
    null for a book without ratings; the averages descend along the ranking,
    and a null average stands below every number. *)
Theorem no_high_rating_global_ranking (user_id : Z) (w : world) :
  - 2 ^ 63 <= user_id < 2 ^ 63 \/ In user_id (map u_id (users (store w))) ->
  (forall r, In r (reviews (store w)) -> r_user_id r = user_id -> r_rating r < 4) ->
  exists ranked,
    get_recommendations user_id w = (Ok (firstn 5 ranked), connected w) /\
    Permutation (books (store w)) (map fst ranked) /\
    (forall x, In x ranked ->
       spec_mean (spec_item_scores (store w) (fst x)) (snd x)) /\
    (forall i j x y, (i < j)%nat ->
       nth_error ranked i = Some x -> nth_error ranked j = Some y ->
       spec_not_below (snd x) (snd y)) /\
    (forall i j x y,
       nth_error ranked i = Some x -> nth_error ranked j = Some y ->
       snd x <> None -> snd y = None -> (i < j)%nat).
Proof.
  intros Hid Hlow.
  exists (order_by avg_desc (map (with_avg (store w)) (books (store w)))).
  assert (Hsort : StronglySorted (fun x y => avg_desc x y = true)
                    (order_by avg_desc (map (with_avg (store w)) (books (store w)))))
    by (apply order_by_sorted; [apply avg_desc_total|apply avg_desc_trans]).
  assert (Hbefore : forall i j x y, (i < j)%nat ->
            nth_error (order_by avg_desc (map (with_avg (store w)) (books (store w)))) i
              = Some x ->
            nth_error (order_by avg_desc (map (with_avg (store w)) (books (store w)))) j
              = Some y ->
            spec_not_below (snd x) (snd y)).
  { intros i j x y Hij Hi Hj.
    assert (H := StronglySorted_before _ _ i j x y Hsort Hij Hi Hj).
    simpl in H. unfold avg_desc in H. apply avg_compare_not_below.
    destruct (avg_compare (snd y) (snd x)); congruence. }
  split; [|split; [apply ranked_rows_books|split; [|split; [exact Hbefore|]]]].
  - apply get_recommendations_no_affinity.
    + now apply account_or_int64_bound.
    + now apply no_high_rating_no_favorite.
  - intros x. apply ranked_rows_spec_mean.
  - intros i j x y Hi Hj Hx Hy.
    destruct (Nat.lt_trichotomy i j) as [Hlt|[Heq|Hgt]]; [exact Hlt| |].
    + subst j. congruence.
    + exfalso. assert (H := Hbefore j i y x Hgt Hj Hi).
      rewrite Hy in H. destruct (snd x); [exact H|congruence].
Qed.

Lemma affinity_candidates_books user_id d b :
  In b (map fst (affinity_candidates user_id d)) <->
  In b (books d) /\
  In (b_genre b) (favorite_genres_rows user_id d) /\
  ~ (exists r, In r (reviews d) /\ r_user_id r = user_id /\ r_book_id r = b_id b).
Proof.
  unfold affinity_candidates. rewrite map_map.
  rewrite (map_ext (fun b => fst (with_avg d b)) (fun b => b)) by reflexivity.
  rewrite map_id, filter_In, andb_true_iff.
  assert (Hgenre : genre_in (favorite_genres_rows user_id d) b = true <->
                   In (b_genre b) (favorite_genres_rows user_id d)).
  { unfold genre_in. rewrite existsb_exists. split.
    - intros (g & Hg & Heq). apply String.eqb_eq in Heq. congruence.
    - intros Hg. exists (b_genre b). split; [exact Hg|apply String.eqb_refl]. }
  assert (Hnew : id_not_in (reviewed_books_rows user_id d) b = true <->
                 ~ (exists r, In r (reviews d) /\
                              r_user_id r = user_id /\ r_book_id r = b_id b)).
  { unfold id_not_in. rewrite negb_true_iff, <- not_true_iff_false, existsb_exists.
    unfold reviewed_books_rows. split; intros Hnot Hex; apply Hnot.
    - destruct Hex as (r & Hr & Hu & Hbid). exists (r_book_id r). split.
      + apply in_map. apply filter_In. split; [exact Hr|now apply Z.eqb_eq].
      + apply Z.eqb_eq. congruence.
    - destruct Hex as (i & Hi & Heq). apply Z.eqb_eq in Heq.
      apply in_map_iff in Hi. destruct Hi as (r & Hri & Hr).
      apply filter_In in Hr. destruct Hr as [Hr Hu]. apply Z.eqb_eq in Hu.
      exists r. split; [exact Hr|]. split; [exact Hu|congruence]. }
  rewrite Hgenre, Hnew. tauto.
Qed.

(** C2: when the recommendation query has candidates (and its [?] are no
    more than the engine takes), the user has a review rated 4 or more and
    the result is the first five rows of a ranking of exactly the books whose
    genre is one of the favourite genres and that the user has not reviewed;
    each row carries the mean of all ratings of its book, null for a book
    without ratings; the averages descend along the ranking, a null average
    below every number, and rows of the same average ascend by title. *)
Theorem affinity_branch_ranking (user_id : Z) (w : world) :
  affinity_candidates user_id (store w) <> [] ->
  (List.length (favorite_genres_rows user_id (store w))
   + List.length (reviewed_books_rows user_id (store w)) <= max_variable_number)%nat ->
  exists ranked,
    get_recommendations user_id w = (Ok (firstn 5 ranked), connected w) /\
    (exists r, In r (reviews (store w)) /\ r_user_id r = user_id /\ 4 <= r_rating r) /\
    (forall b, In b (map fst ranked) <->
       In b (books (store w)) /\
       In (b_genre b) (favorite_genres_rows user_id (store w)) /\
       ~ (exists r, In r (reviews (store w)) /\
                    r_user_id r = user_id /\ r_book_id r = b_id b)) /\
    Permutation (affinity_candidates user_id (store w)) ranked /\
    (forall x, In x ranked ->
       spec_mean (spec_item_scores (store w) (fst x)) (snd x)) /\
    (forall i j x y, (i < j)%nat ->
       nth_error ranked i = Some x -> nth_error ranked j = Some y ->
       spec_not_below (snd x) (snd y) /\
       (spec_same_average (snd x) (snd y) ->
        String.leb (b_title (fst x)) (b_title (fst y)) = true)).
Proof.
  intros Hcand Hmax.
  set (ranked := order_by avg_desc_title_asc (affinity_candidates user_id (store w))).
  assert (Hperm : Permutation (affinity_candidates user_id (store w)) ranked)
    by apply order_by_perm.
  assert (Hfav : favorite_genres_rows user_id (store w) <> []).
  { intros Hnil. apply Hcand. unfold affinity_candidates. rewrite Hnil.
    simpl. now induction (books (store w)). }
  assert (Hsort : StronglySorted (fun x y => avg_desc_title_asc x y = true) ranked)
    by (apply order_by_sorted;
        [apply avg_desc_title_asc_total|apply avg_desc_title_asc_trans]).
  exists ranked.
  split; [|split; [|split; [|split; [exact Hperm|split]]]].
  - rewrite get_recommendations_query by assumption. fold ranked.
    destruct (firstn 5 ranked) eqn:E; [|reflexivity].
    apply firstn_succ_nil in E. unfold ranked in E. apply order_by_nil in E.
    contradiction.
  - destruct (favorite_genres_high_rating _ _ Hfav) as (r & b & Hr & _ & Hu & Hrating & _).
    exists r. auto.
  - intros b. rewrite <- affinity_candidates_books. split; intros Hb.
    + eapply Permutation_in; [|exact Hb].
      apply Permutation_map. now apply Permutation_sym.
    + eapply Permutation_in; [|exact Hb]. now apply Permutation_map.
  - intros x. unfold ranked, affinity_candidates. apply ranked_rows_spec_mean.
  - intros i j x y Hij Hi Hj.
    assert (Hk := StronglySorted_before _ _ i j x y Hsort Hij Hi Hj).
    simpl in Hk. unfold avg_desc_title_asc in Hk.
    rewrite <- avg_compare_not_below, <- avg_compare_same.
    destruct (avg_compare (snd y) (snd x)); split; congruence.
Qed.

(** ** Shape of every result, and the frame *)

(** C6: a result of [get_recommendations] has at most five rows, and no book
    twice, in a store whose [books.id] is a key (PRIMARY KEY). *)
Theorem at_most_five_distinct (user_id : Z) (w w' : world) (result : list row) :
  NoDup (map b_id (books (store w))) ->
  get_recommendations user_id w = (Ok result, w') ->
  (List.length result <= 5)%nat /\
  NoDup (map (fun x : row => b_id (fst x)) result) /\
  NoDup result.
Proof.
  intros Hkey Hrun.
  assert (Hres : (List.length result <= 5)%nat /\
                 NoDup (map (fun x : row => b_id (fst x)) result)).
  { rewrite get_recommendations_run in Hrun.
    destruct (sqlite_integer (store w) user_id); [|discriminate].
    destruct (favorite_genres_rows user_id (store w)) as [|g gs].
    - injection Hrun as <- _. unfold global_top_rows. split.
      + rewrite length_firstn. lia.
      + now apply ranked_rows_distinct.
    - destruct (_ <? _)%nat; [discriminate|].
      unfold affinity_candidates in Hrun.
      destruct (firstn 5 _) as [|x l] eqn:F in Hrun; [discriminate|].
      injection Hrun as <- _. rewrite <- F. split.
      + rewrite length_firstn. lia.
      + apply ranked_rows_distinct. now apply filter_keeps_key. }
  destruct Hres as [Hlen Hdistinct].
  split; [exact Hlen|]. split; [exact Hdistinct|].
  now apply NoDup_map_inv in Hdistinct.
Qed.

(** C7: a second call right after a first one, nothing written in between,
    returns what the first one returned. *)
Theorem consecutive_calls_agree (user_id : Z) (w : world) :
  fst (get_recommendations user_id (snd (get_recommendations user_id w)))
  = fst (get_recommendations user_id w).
Proof.
  apply get_recommendations_of_store. now rewrite get_recommendations_frame.
Qed.

(** C8 (as the code has it): [get_recommendations] leaves the three tables
    as they were, and the flashed messages too, whatever it returns; what it
    writes is [g._database], which holds the connection afterwards, and where
    [g] held the connection before the call the world is left as it was. *)
Theorem read_only (user_id : Z) (w : world) :
  let w' := snd (get_recommendations user_id w) in
  users (store w') = users (store w) /\
  books (store w') = books (store w) /\
  reviews (store w') = reviews (store w) /\
  flashed w' = flashed w /\
  g_database w' = Some Connection /\
  (g_database w = Some Connection -> w' = w).
Proof.
  simpl. rewrite get_recommendations_frame.
  repeat split. apply connected_when_connected.
Qed.

(** ** Unknown users *)

Lemma unknown_user_no_review user_id d :
  reviews_reference_accounts d = true ->
  ~ In user_id (map u_id (users d)) ->
  forall r, In r (reviews d) -> r_user_id r <> user_id.
Proof.
  unfold reviews_reference_accounts. intros Hfk Hunknown r Hr Heq.
  rewrite forallb_forall in Hfk. specialize (Hfk r Hr).
  apply existsb_exists in Hfk. destruct Hfk as (u & Hu & Hid).
  apply Z.eqb_eq in Hid. apply Hunknown.
  apply in_map_iff. exists u. split; [congruence|exact Hu].
Qed.

Lemma no_review_global_ranking user_id w :
  sqlite_integer (store w) user_id = true ->
  (forall r, In r (reviews (store w)) -> r_user_id r <> user_id) ->
  get_recommendations user_id w = (Ok (global_top_rows (store w)), connected w).
Proof.
  intros Hid Hnone. apply get_recommendations_no_affinity; [exact Hid|].
  apply no_high_rating_no_favorite. intros r Hr Heq.
  exfalso. now apply (Hnone r Hr).
Qed.

(** C5 (as the code has it): where every review names an account, a
    [user_id] of 64 bits with no account gets the global ranking, no
    exception, and exactly what a user without reviews gets. *)
Theorem unknown_user_global_ranking (user_id : Z) (w : world) :
  - 2 ^ 63 <= user_id < 2 ^ 63 ->
  reviews_reference_accounts (store w) = true ->
  ~ In user_id (map u_id (users (store w))) ->
  get_recommendations user_id w = (Ok (global_top_rows (store w)), connected w) /\
  (forall other,
     - 2 ^ 63 <= other < 2 ^ 63 \/ In other (map u_id (users (store w))) ->
     (forall r, In r (reviews (store w)) -> r_user_id r <> other) ->
     get_recommendations other w = get_recommendations user_id w).
Proof.
  intros Hid Hfk Hunknown.
  assert (Hnone := unknown_user_no_review user_id (store w) Hfk Hunknown).
  assert (Hrun : get_recommendations user_id w
                 = (Ok (global_top_rows (store w)), connected w))
    by (apply no_review_global_ranking; [now apply sqlite_integer_fits|exact Hnone]).
  split; [exact Hrun|].
  intros other Hother Hnone'. rewrite Hrun.
  apply no_review_global_ranking; [now apply account_or_int64_bound|exact Hnone'].
Qed.

(** A user id with no account and no reviews that is not of 64 bits: the
    first statement cannot take it. *)
Lemma unknown_user_overflow user_id w :
  ~ (- 2 ^ 63 <= user_id < 2 ^ 63) ->
  ~ In user_id (stored_integers (store w)) ->
  get_recommendations user_id w = (Raise int_too_large, connected w).
Proof.
  intros Hbig Hnew. apply get_recommendations_overflow.
  unfold sqlite_integer. apply orb_false_iff. split.
  - apply not_true_iff_false. now rewrite fits_int64_range.
  - apply not_true_iff_false. rewrite existsb_exists.
    intros (n & Hn & Heq). apply Z.eqb_eq in Heq. now subst n.
Qed.

(** ** The exhausted affinity branch *)

Lemma exhausted_affinity_raises user_id w :
  favorite_genres_rows user_id (store w) <> [] ->
  (List.length (favorite_genres_rows user_id (store w))
   + List.length (reviewed_books_rows user_id (store w)) <= max_variable_number)%nat ->
  affinity_candidates user_id (store w) = [] ->
  get_recommendations user_id w
  = (Raise (unrecognized_token_error "{"), connected w).
Proof.
  intros Hfav Hmax Hnone. rewrite get_recommendations_query by assumption.
  rewrite Hnone.
  assert (E : order_by avg_desc_title_asc (@nil row) = []).
  { apply Permutation_nil. apply order_by_perm. }
  now rewrite E.
Qed.

(** C1 (what the code does): the account of [world_two_reviews] rated both
    Sci-Fi books 5 and 4, its only favourite genre is Sci-Fi and no Sci-Fi
    book is left to recommend; the fallback statement is then executed with
    its braces and [get_recommendations] raises instead of returning the
    global ranking that leaves the two reviewed books out. *)
Theorem exhausted_fallback_raises :
  favorite_genres_rows 1 (store world_two_reviews) = ["Sci-Fi"] /\
  reviewed_books_rows 1 (store world_two_reviews) = [2; 4] /\
  affinity_candidates 1 (store world_two_reviews) = [] /\
  get_recommendations 1 world_two_reviews
  = (Raise (unrecognized_token_error "{"), connected world_two_reviews).
Proof.
  assert (Hfav : favorite_genres_rows 1 (store world_two_reviews) = ["Sci-Fi"]).
  { unfold favorite_genres_rows.
    replace (group_count (high_rated_genres 1 (store world_two_reviews)))
      with [("Sci-Fi", 2%nat)] by (vm_compute; reflexivity).
    now rewrite order_by_singleton. }
  assert (Hids : reviewed_books_rows 1 (store world_two_reviews) = [2; 4])
    by (vm_compute; reflexivity).
  assert (Hnone : affinity_candidates 1 (store world_two_reviews) = []).
  { unfold affinity_candidates. rewrite Hfav. vm_compute. reflexivity. }
  split; [exact Hfav|]. split; [exact Hids|].
  split; [exact Hnone|].
  apply exhausted_affinity_raises; [rewrite Hfav; discriminate| |exact Hnone].
  rewrite Hfav, Hids. simpl.
  apply (Nat.le_trans _ 999); [lia|apply max_variable_number_floor].
Qed.

End RecommendationFacts.

(** ** The review flow *)

Lemma hd_error_filter_In {A} (p : A -> bool) (l : list A) (x : A) :
  hd_error (filter p l) = Some x -> In x l /\ p x = true.
Proof.
  intros H. apply filter_In. destruct (filter p l); [discriminate|].
  injection H as ->. now left.
Qed.

Lemma hd_error_filter_None {A} (p : A -> bool) (l : list A) :
  hd_error (filter p l) = None -> existsb p l = false.
Proof.
  induction l as [|a l IH]; simpl; [reflexivity|].
  destruct (p a); simpl; [discriminate|exact IH].
Qed.

Lemma hd_error_filter_Some {A} (p : A -> bool) (l : list A) (x : A) :
  In x l -> p x = true -> exists y, hd_error (filter p l) = Some y.
Proof.
  intros Hin Hp.
  assert (H : In x (filter p l)) by (apply filter_In; now split).
  destruct (filter p l) as [|y l']; [contradiction|]. now exists y.
Qed.

Lemma NoDup_map_eq {A B} (f : A -> B) (l : list A) (x y : A) :
  NoDup (map f l) -> In x l -> In y l -> f x = f y -> x = y.
Proof.
  induction l as [|a l IH]; simpl; intros Hn Hx Hy Hf; [contradiction|].
  inversion Hn as [|? ? Hnotin Hn']; subst.
  destruct Hx as [<-|Hx], Hy as [<-|Hy]; auto.
  - exfalso. apply Hnotin. rewrite Hf. now apply in_map.
  - exfalso. apply Hnotin. rewrite <- Hf. now apply in_map.
Qed.

Lemma NoDup_snoc {A} (l : list A) (x : A) :
  NoDup l -> ~ In x l -> NoDup (l ++ [x]).
Proof.
  intros Hn Hx.
  apply (Permutation_NoDup (Permutation_cons_append l x)).
  now constructor.
Qed.

Lemma next_rowid_fresh (ids : list Z) : ~ In (next_rowid ids) ids.
Proof.
  assert (H : forall i, In i ids -> i <= fold_right Z.max 0 ids).
  { induction ids as [|a ids IH]; simpl; [contradiction|].
    intros i [<-|Hi]; [lia|]. specialize (IH i Hi). lia. }
  intros Hin. specialize (H _ Hin). unfold next_rowid in H. lia.
Qed.

Lemma init_world_ok : store_ok (store init_world).
Proof.
  split; try (vm_compute; reflexivity); simpl; constructor.
Qed.

Lemma update_review_ids v text id l :
  map r_id (map (fun r => if r_id r =? id
                          then mkReview (r_id r) (r_user_id r) (r_book_id r) v text
                          else r) l) = map r_id l.
Proof.
  rewrite map_map. apply map_ext. intros r.
  now destruct (r_id r =? id).
Qed.

Lemma update_review_keys v text id l :
  map review_key (map (fun r => if r_id r =? id
                                then mkReview (r_id r) (r_user_id r) (r_book_id r) v text
                                else r) l) = map review_key l.
Proof.
  rewrite map_map. apply map_ext. intros r.
  now destruct (r_id r =? id).
Qed.

(** Each change a request can make keeps the promises of the schema: an
    INSERT is stopped by UNIQUE where the pair is taken, and an UPDATE leaves
    the pair of the row alone. *)
Lemma store_change_ok d d' : store_change d d' -> store_ok d -> store_ok d'.
Proof.
  intros Hchange [Hu Hr Hk Hfk Hb].
  destruct Hchange as [|username password_hash d' Hins
                       |u b rating text d' Hin Hbin Hrat Hins
                       |u b ur rating text d' Hin Hbin Hrin Hru Hrb Hrat Hupd].
  - now split.
  - unfold insert_user in Hins. destruct (existsb _ _); [discriminate|].
    injection Hins as <-. split; simpl; try assumption.
    + rewrite map_app. apply NoDup_snoc; [exact Hu|apply next_rowid_fresh].
    + unfold reviews_reference_accounts in *. simpl.
      rewrite forallb_forall in *. intros r Hr'. specialize (Hfk r Hr').
      rewrite existsb_app. now rewrite Hfk.
  - unfold insert_review in Hins.
    destruct (existsb _ _) eqn:Eex; [discriminate|].
    injection Hins as <-. split; simpl; try assumption.
    + rewrite map_app. apply NoDup_snoc; [exact Hr|apply next_rowid_fresh].
    + rewrite map_app. apply NoDup_snoc; [exact Hk|].
      simpl. intros Hkey. apply in_map_iff in Hkey.
      destruct Hkey as (r & Hkey & Hr').
      unfold review_key in Hkey. injection Hkey as Hk1 Hk2.
      assert (Htrue : existsb (fun r => (r_user_id r =? u_id u)
                                        && (r_book_id r =? b_id b)) (reviews d) = true).
      { apply existsb_exists. exists r. split; [exact Hr'|].
        rewrite Hk1, Hk2, !Z.eqb_refl. reflexivity. }
      congruence.
    + unfold reviews_reference_accounts in *. simpl.
      rewrite forallb_app, Hfk. simpl. rewrite andb_true_r.
      apply existsb_exists. exists u. split; [exact Hin|apply Z.eqb_refl].
  - unfold update_review in Hupd. injection Hupd as <-.
    split; simpl; try assumption.
    + now rewrite update_review_ids.
    + now rewrite update_review_keys.
    + unfold reviews_reference_accounts in *. simpl.
      rewrite forallb_forall in *. intros r Hr'.
      apply in_map_iff in Hr'. destruct Hr' as (r0 & <- & Hr0).
      specialize (Hfk r0 Hr0). now destruct (r_id r0 =? r_id ur).
Qed.

Lemma session_loaded_connected rq w : session_loaded rq (connected w) = connected w.
Proof. unfold session_loaded. now destruct (session_user_id rq). Qed.

Lemma session_loaded_store rq w : store (session_loaded rq w) = store w.
Proof. unfold session_loaded. now destruct (session_user_id rq). Qed.

Lemma session_loaded_flashed rq w : flashed (session_loaded rq w) = flashed w.
Proof. unfold session_loaded. now destruct (session_user_id rq). Qed.

Lemma session_account_In rq d cu :
  session_account rq d = Some cu ->
  exists u, In u (users d) /\ cu = mkUserMixin (u_id u) (u_username u).
Proof.
  unfold session_account. destruct (session_user_id rq) as [uid|]; [|discriminate].
  destruct (hd_error _) as [u|] eqn:E; [|discriminate].
  intros [= <-]. apply hd_error_filter_In in E. exists u. tauto.
Qed.

Lemma session_account_bound rq d cu :
  session_account rq d = Some cu -> sqlite_integer d (User_id cu) = true.
Proof.
  intros H. destruct (session_account_In rq d cu H) as (u & Hu & ->).
  now apply account_id_stored.
Qed.

Lemma rating_bound d v : 1 <= v <= 5 -> sqlite_integer d v = true.
Proof.
  intros H. apply sqlite_integer_fits.
  change (2 ^ 63) with 9223372036854775808. lia.
Qed.

Section RoutesFacts.
Context {engine : SqlEngine}.
Variable py_int : string -> option Z.
Variable generate_password_hash : string -> string -> string.

Lemma load_user_run user_id w :
  load_user user_id w
  = (Ok (match hd_error (filter (fun u => u_id u =? user_id) (users (store w))) with
         | Some u => Some (mkUserMixin (u_id u) (u_username u))
         | None => None
         end), connected w).
Proof.
  unfold load_user, fetchone, bind. rewrite get_db_run.
  rewrite execute_ok by statement_runs. cbn [ret store connected].
  now destruct (hd_error _).
Qed.

Lemma current_user_run rq w :
  current_user rq w = (Ok (session_account rq (store w)), session_loaded rq w).
Proof.
  unfold current_user, session_account, session_loaded.
  destruct (session_user_id rq) as [uid|]; [|reflexivity].
  apply load_user_run.
Qed.

(** A book id that cannot be bound stops [book_detail] at its first
    statement. *)
Lemma book_detail_overflow_run rq book_id w :
  sqlite_integer (store w) book_id = false ->
  book_detail py_int rq book_id w = (Raise int_too_large, connected w).
Proof.
  intros Hbig. unfold book_detail, bind, fetchone, bind. rewrite get_db_run.
  rewrite execute_overflow; [reflexivity|statement_runs..|].
  cbn [forallb bindable store connected]. now rewrite Hbig.
Qed.

Lemma book_detail_no_book_run rq book_id w :
  sqlite_integer (store w) book_id = true ->
  fetched_book book_id (store w) = None ->
  book_detail py_int rq book_id w
  = (Ok (Redirect "index"),
     mkWorld (store w) (flashed w ++ [("Book not found.", "error")])%list
       (Some Connection)).
Proof.
  unfold fetched_book. intros Hbound Hnone.
  unfold book_detail, bind, fetchone, bind. rewrite get_db_run.
  rewrite execute_ok by statement_runs. cbn [ret store connected].
  now rewrite Hnone.
Qed.

(** A POST by a logged-in account on a book of the catalogue, path by path. *)
Lemma book_detail_post_run rq book_id w cu b :
  method rq = POST ->
  session_account rq (store w) = Some cu ->
  In b (books (store w)) -> b_id b = book_id ->
  book_detail py_int rq book_id w =
  match form_get_int py_int "rating" (form rq) with
  | None => (Raise type_error_none, connected w)
  | Some v =>
      if (1 <=? v) && (v <=? 5) then
        match hd_error (filter (fun r => (r_user_id r =? User_id cu)
                                         && (r_book_id r =? book_id))
                          (reviews (store w))) with
        | Some ur =>
            (Ok (Redirect "book_detail"),
             mkWorld
               (mkDb (users (store w)) (books (store w))
                  (map (fun r =>
                          if r_id r =? r_id ur
                          then mkReview (r_id r) (r_user_id r) (r_book_id r) v
                                 (form_get "review_text" (form rq))
                          else r) (reviews (store w))))
               (flashed w ++ [("Your review has been updated!", "success")])%list
               (Some Connection))
        | None =>
            (Ok (Redirect "book_detail"),
             mkWorld
               (mkDb (users (store w)) (books (store w))
                  (reviews (store w) ++
                   [mkReview (next_rowid (map r_id (reviews (store w))))
                      (User_id cu) book_id v (form_get "review_text" (form rq))])%list)
               (flashed w ++ [("Your review has been submitted!", "success")])%list
               (Some Connection))
        end
      else
        (Ok (Redirect "book_detail"),
         mkWorld (store w)
           (flashed w ++ [("Rating must be between 1 and 5.", "error")])%list
           (Some Connection))
  end.
Proof.
  intros Hpost Hcu Hb Hbid.
  assert (Hbook : sqlite_integer (store w) book_id = true)
    by (rewrite <- Hbid; now apply book_id_stored).
  assert (Hacc := session_account_bound rq (store w) cu Hcu).
  unfold book_detail, bind, fetchone, bind. rewrite get_db_run.
  rewrite execute_ok by statement_runs. cbn [ret store connected].
  destruct (hd_error_filter_Some (fun b => b_id b =? book_id) _ b Hb) as [b' Eb];
    [now apply Z.eqb_eq|].
  rewrite Eb.
  rewrite execute_ok by statement_runs.
  rewrite current_user_run, session_loaded_connected. cbn [store connected].
  rewrite Hcu.
  rewrite execute_ok by statement_runs. cbn [ret store connected].
  rewrite Hpost. unfold chained_le.
  destruct (form_get_int py_int "rating" (form rq)) as [v|]; [|reflexivity].
  cbn [ret].
  destruct ((1 <=? v) && (v <=? 5)) eqn:Ev; cbn [negb]; [|reflexivity].
  apply andb_prop in Ev. destruct Ev as [Ev1 Ev2]. apply Z.leb_le in Ev1, Ev2.
  assert (Hv : sqlite_integer (store w) v = true) by (apply rating_bound; lia).
  unfold try_except, commit.
  destruct (hd_error (filter _ (reviews (store w)))) as [ur|] eqn:Er.
  - assert (Hur : sqlite_integer (store w) (r_id ur) = true).
    { apply hd_error_filter_In in Er. destruct Er as [Hr _]. now apply review_stored. }
    rewrite execute_write_ok;
      [reflexivity|statement_runs..|].
    cbn [forallb bindable sql_of_int sql_of_text store connected].
    destruct (form_get "review_text" (form rq)); cbn [bindable];
      now rewrite Hv, Hur.
  - rewrite execute_write_ok;
      [|statement_runs..|].
    + cbn [store connected]. unfold insert_review.
      rewrite (hd_error_filter_None _ _ Er). reflexivity.
    + cbn [forallb bindable sql_of_int sql_of_text store connected].
      destruct (form_get "review_text" (form rq)); cbn [bindable];
        now rewrite Hacc, Hbook, Hv.
Qed.

Lemma book_detail_anonymous_run rq book_id w b :
  method rq = POST ->
  fetched_book book_id (store w) = Some b ->
  session_account rq (store w) = None ->
  book_detail py_int rq book_id w
  = (Ok (Redirect "login"),
     mkWorld (store w)
       (flashed w ++ [("You must be logged in to submit a review.", "warning")])%list
       (Some Connection)).
Proof.
  unfold fetched_book. intros Hpost Eb Hanon.
  assert (Hbook : sqlite_integer (store w) book_id = true).
  { apply hd_error_filter_In in Eb. destruct Eb as [Hb Hid].
    apply Z.eqb_eq in Hid. rewrite <- Hid. now apply book_id_stored. }
  unfold book_detail, bind, fetchone, bind. rewrite get_db_run.
  rewrite execute_ok by statement_runs. cbn [ret store connected].
  rewrite Eb. rewrite execute_ok by statement_runs.
  rewrite current_user_run, session_loaded_connected. cbn [store connected].
  rewrite Hanon. cbn [ret]. rewrite Hpost. reflexivity.
Qed.

Lemma book_detail_get_run rq book_id w b :
  method rq = GET ->
  fetched_book book_id (store w) = Some b ->
  book_detail py_int rq book_id w
  = (Ok (Render (BookDetailPage b
                   (order_by newest_first (book_review_rows book_id (store w)))
                   (fetched_user_review rq book_id (store w)))), connected w).
Proof.
  unfold fetched_book, fetched_user_review. intros Hget Eb.
  assert (Hbook : sqlite_integer (store w) book_id = true).
  { apply hd_error_filter_In in Eb. destruct Eb as [Hb Hid].
    apply Z.eqb_eq in Hid. rewrite <- Hid. now apply book_id_stored. }
  unfold book_detail, bind, fetchone, bind. rewrite get_db_run.
  rewrite execute_ok by statement_runs. cbn [ret store connected].
  rewrite Eb. rewrite execute_ok by statement_runs.
  rewrite current_user_run, session_loaded_connected. cbn [store connected].
  destruct (session_account rq (store w)) as [cu|] eqn:Hcu.
  - assert (Hacc := session_account_bound rq (store w) cu Hcu).
    rewrite execute_ok by statement_runs. cbn [ret]. now rewrite Hget.
  - cbn [ret]. now rewrite Hget.
Qed.

Lemma fetched_book_Some book_id d b :
  fetched_book book_id d = Some b -> In b (books d) /\ b_id b = book_id.
Proof.
  unfold fetched_book. intros H. apply hd_error_filter_In in H.
  now rewrite Z.eqb_eq in H.
Qed.

Lemma book_detail_store_change rq book_id w :
  store_change (store w) (store (snd (book_detail py_int rq book_id w))).
Proof.
  destruct (sqlite_integer (store w) book_id) eqn:Hbook;
    [|rewrite book_detail_overflow_run by exact Hbook; constructor].
  destruct (fetched_book book_id (store w)) as [b|] eqn:Eb;
    [|rewrite book_detail_no_book_run by assumption; constructor].
  destruct (fetched_book_Some _ _ _ Eb) as [Hb Hid].
  destruct (method rq) eqn:Hm;
    [rewrite (book_detail_get_run rq book_id w b) by assumption; constructor|].
  destruct (session_account rq (store w)) as [cu|] eqn:Hcu;
    [|rewrite (book_detail_anonymous_run rq book_id w b) by assumption; constructor].
  rewrite (book_detail_post_run rq book_id w cu b Hm Hcu Hb Hid).
  destruct (session_account_In _ _ _ Hcu) as (u & Hu & ->).
  destruct (form_get_int py_int "rating" (form rq)) as [v|]; [|constructor].
  destruct ((1 <=? v) && (v <=? 5)) eqn:Ev; [|constructor].
  apply andb_prop in Ev. destruct Ev as [Ev1 Ev2]. apply Z.leb_le in Ev1, Ev2.
  cbn [User_id].
  destruct (hd_error (filter _ (reviews (store w)))) as [ur|] eqn:Er.
  - apply hd_error_filter_In in Er. destruct Er as [Hr Er].
    apply andb_prop in Er. destruct Er as [Er1 Er2]. apply Z.eqb_eq in Er1, Er2.
    cbn [snd store].
    apply (change_update_review _ u b ur v (form_get "review_text" (form rq)));
      [exact Hu|exact Hb|exact Hr|congruence|congruence|lia|reflexivity].
  - cbn [snd store].
    apply (change_insert_review _ u b v (form_get "review_text" (form rq)));
      [exact Hu|exact Hb|lia|].
    unfold insert_review. rewrite Hid.
    now rewrite (hd_error_filter_None _ _ Er).
Qed.

Lemma register_store_change rq w :
  store_change (store w) (store (snd (register generate_password_hash rq w))).
Proof.
  unfold register, bind. rewrite current_user_run.
  destruct (session_account rq (store w));
    [cbn [ret snd]; rewrite session_loaded_store; constructor|].
  destruct (method rq);
    [cbn [ret snd]; rewrite session_loaded_store; constructor|].
  unfold form_item.
  destruct (form_get "username" (form rq)) as [username|];
    [|cbn [raise snd]; rewrite session_loaded_store; constructor].
  destruct (form_get "password" (form rq)) as [password|];
    [|cbn [ret raise snd]; rewrite session_loaded_store; constructor].
  cbn [ret]. rewrite get_db_run. unfold fetchone, bind.
  rewrite execute_ok by statement_runs. cbn [ret store connected].
  rewrite session_loaded_store.
  destruct (hd_error _); [simpl; rewrite session_loaded_store; constructor|].
  rewrite execute_write_ok by statement_runs. cbn [store connected].
  rewrite session_loaded_store.
  destruct (insert_user _ _ _) as [d'|e] eqn:Ei;
    [|simpl; rewrite session_loaded_store; constructor].
  simpl.
  now apply (change_insert_user _ username (generate_password_hash (salt rq) password)).
Qed.

Lemma recommendations_store_change rq w :
  store_change (store w) (store (snd (recommendations rq w))).
Proof.
  unfold recommendations, bind. rewrite current_user_run.
  destruct (session_account rq (store w)) as [cu|];
    [|simpl; rewrite session_loaded_store; constructor].
  rewrite get_recommendations_run.
  destruct (if sqlite_integer _ _ then _ else _);
    simpl; rewrite session_loaded_store; constructor.
Qed.

Lemma handle_store_change rt rq w :
  store_change (store w)
    (store (snd (handle py_int generate_password_hash rt rq w))).
Proof.
  unfold handle, app_context. cbn [snd store].
  change (store w) with (store (mkWorld (store w) (flashed w) None)) at 1.
  destruct rt.
  - apply book_detail_store_change.
  - apply recommendations_store_change.
  - apply register_store_change.
Qed.

Lemma reachable_store_ok w :
  reachable py_int generate_password_hash w -> store_ok (store w).
Proof.
  induction 1 as [|w rt rq Hreach IH].
  - apply init_world_ok.
  - eapply store_change_ok; [apply handle_store_change|exact IH].
Qed.

(** Between two requests there is no application context. *)
Lemma reachable_no_connection w :
  reachable py_int generate_password_hash w -> g_database w = None.
Proof. now destruct 1. Qed.

(** In every world the application reaches, each review names an account. *)
Corollary reachable_reviews_reference_accounts w :
  reachable py_int generate_password_hash w ->
  reviews_reference_accounts (store w) = true.
Proof. intros H. apply ok_review_accounts. now apply reachable_store_ok. Qed.

(** C10: a review posted by a logged-in account for a book of the catalogue,
    with the [rating] field missing or not an integer for [int]: the parsed
    rating is [None], the comparison raises [TypeError] out of the handler,
    and nothing is flashed, the message of the range check included. *)
Theorem unparsed_rating_raises_type_error (rq : request) (book_id : Z) (w : world) :
  method rq = POST ->
  (exists b, In b (books (store w)) /\ b_id b = book_id) ->
  (exists cu, session_account rq (store w) = Some cu) ->
  (form_get "rating" (form rq) = None \/
   exists s, form_get "rating" (form rq) = Some s /\ py_int s = None) ->
  form_get_int py_int "rating" (form rq) = None /\
  book_detail py_int rq book_id w = (Raise type_error_none, connected w) /\
  store (snd (book_detail py_int rq book_id w)) = store w /\
  flashed (snd (book_detail py_int rq book_id w)) = flashed w.
Proof.
  intros Hpost (b & Hb & Hbid) (cu & Hcu) Hrating.
  assert (Hnone : form_get_int py_int "rating" (form rq) = None).
  { unfold form_get_int.
    destruct Hrating as [->|(s & -> & Hs)]; [reflexivity|exact Hs]. }
  assert (Hrun : book_detail py_int rq book_id w = (Raise type_error_none, connected w)).
  { rewrite (book_detail_post_run rq book_id w cu b Hpost Hcu Hb Hbid).
    now rewrite Hnone. }
  split; [exact Hnone|]. split; [exact Hrun|]. now rewrite Hrun.
Qed.

(** C9: in every world the application reaches, no two reviews share their
    (account, book) pair.  And when an account that has a review of a book
    posts another valid one, the row it had takes the new rating and text
    and keeps its id; no row is added, the rows of other pairs stay, and the
    pair still has that one row. *)
Theorem one_review_per_account_and_book (w : world) :
  reachable py_int generate_password_hash w ->
  NoDup (map review_key (reviews (store w))) /\
  forall rq book_id cu b ur v,
    method rq = POST ->
    session_account rq (store w) = Some cu ->
    In b (books (store w)) -> b_id b = book_id ->
    In ur (reviews (store w)) -> review_key ur = (User_id cu, book_id) ->
    form_get_int py_int "rating" (form rq) = Some v -> 1 <= v <= 5 ->
    let w' := snd (book_detail py_int rq book_id w) in
    let updated :=
      mkReview (r_id ur) (User_id cu) book_id v (form_get "review_text" (form rq)) in
    reviews (store w')
      = map (fun r => if r_id r =? r_id ur then updated else r) (reviews (store w)) /\
    List.length (reviews (store w')) = List.length (reviews (store w)) /\
    NoDup (map review_key (reviews (store w'))) /\
    In updated (reviews (store w')) /\
    (forall r, In r (reviews (store w')) ->
               review_key r = (User_id cu, book_id) -> r = updated).
Proof.
  intros Hreach.
  assert (Hok := reachable_store_ok w Hreach).
  split; [apply (ok_review_keys _ Hok)|].
  intros rq book_id cu b ur v Hpost Hcu Hb Hbid Hur Hkey Hv Hrange w' updated.
  assert (Hok' : store_ok (store w')).
  { eapply store_change_ok; [apply book_detail_store_change|exact Hok]. }
  assert (Hrun := book_detail_post_run rq book_id w cu b Hpost Hcu Hb Hbid).
  rewrite Hv in Hrun.
  replace ((1 <=? v) && (v <=? 5)) with true in Hrun
    by (symmetry; apply andb_true_intro; split; apply Z.leb_le; lia).
  unfold review_key in Hkey. injection Hkey as Hk1 Hk2.
  destruct (hd_error_filter_Some
              (fun r => (r_user_id r =? User_id cu) && (r_book_id r =? book_id))
              _ ur Hur) as [ur' Er];
    [rewrite Hk1, Hk2, !Z.eqb_refl; reflexivity|].
  rewrite Er in Hrun.
  assert (ur' = ur).
  { apply hd_error_filter_In in Er. destruct Er as [Hur' Er].
    apply andb_prop in Er. destruct Er as [E1 E2]. apply Z.eqb_eq in E1, E2.
    apply (NoDup_map_eq review_key (reviews (store w)));
      [apply (ok_review_keys _ Hok)|exact Hur'|exact Hur|].
    unfold review_key. congruence. }
  subst ur'.
  assert (Hreviews : reviews (store w')
            = map (fun r => if r_id r =? r_id ur then updated else r)
                (reviews (store w))).
  { unfold w'. rewrite Hrun. simpl. apply map_ext_in. intros r Hr.
    destruct (r_id r =? r_id ur) eqn:E; [|reflexivity].
    apply Z.eqb_eq in E.
    assert (r = ur)
      by (apply (NoDup_map_eq r_id (reviews (store w)));
          [apply (ok_review_ids _ Hok)|exact Hr|exact Hur|exact E]).
    subst r. unfold updated. now rewrite Hk1, Hk2. }
  split; [exact Hreviews|].
  split; [now rewrite Hreviews, length_map|].
  split; [apply (ok_review_keys _ Hok')|].
  assert (Hin : In updated (reviews (store w'))).
  { rewrite Hreviews. apply in_map_iff. exists ur.
    now rewrite Z.eqb_refl. }
  split; [exact Hin|].
  intros r Hr Hrk.
  apply (NoDup_map_eq review_key (reviews (store w')));
    [apply (ok_review_keys _ Hok')|exact Hr|exact Hin|].
  rewrite Hrk. reflexivity.
Qed.

End RoutesFacts.

(** ** The session, run

    Each statement below is one of the theorems above at a world of the
    session or on the shelf, on [stable_engine], with [decimal_int] for
    [int]. *)

Lemma reachable_world_two_reviews : reachable decimal_int salted world_two_reviews.
Proof.
  apply (reachable_request decimal_int salted world_one_review (route_book_detail 4)).
  apply (reachable_request decimal_int salted world_registered (route_book_detail 2)).
  apply (reachable_request decimal_int salted init_world route_register).
  apply reachable_init.
Qed.

(** What the shelf comes to for account 1: the rated candidates by
    descending average, "Contact" (18/4) before "Dune" (9/2) by title, the
    unrated ones after them by title, the sixth candidate ("Ubik") cut off,
    "Solaris" and "Neuromancer" (reviewed) and "Emma" (another genre) left
    out. *)
Lemma shelf_ranking :
  get_recommendations 1 world_shelf
  = (Ok [ (mkBook 5 "Blindsight" "Peter Watts" "Sci-Fi" None, Some (5 # 1));
          (mkBook 3 "Contact" "Carl Sagan" "Sci-Fi" None, Some (18 # 4));
          (mkBook 2 "Dune" "Frank Herbert" "Sci-Fi" None, Some (9 # 2));
          (mkBook 8 "Accelerando" "Charles Stross" "Sci-Fi" None, None);
          (mkBook 9 "Babel-17" "Samuel R. Delany" "Sci-Fi" None, None) ],
     connected world_shelf).
Proof. vm_compute. reflexivity. Qed.

Lemma affinity_branch_ranking_witness :
  affinity_candidates 1 (store world_shelf) <> [] /\
  (List.length (favorite_genres_rows 1 (store world_shelf))
   + List.length (reviewed_books_rows 1 (store world_shelf)) <= max_variable_number)%nat /\
  exists ranked,
    get_recommendations 1 world_shelf = (Ok (firstn 5 ranked), connected world_shelf) /\
    (exists r, In r (reviews (store world_shelf)) /\ r_user_id r = 1 /\ 4 <= r_rating r) /\
    (forall b, In b (map fst ranked) <->
       In b (books (store world_shelf)) /\
       In (b_genre b) (favorite_genres_rows 1 (store world_shelf)) /\
       ~ (exists r, In r (reviews (store world_shelf)) /\
                    r_user_id r = 1 /\ r_book_id r = b_id b)) /\
    Permutation (affinity_candidates 1 (store world_shelf)) ranked /\
    (forall x, In x ranked ->
       spec_mean (spec_item_scores (store world_shelf) (fst x)) (snd x)) /\
    (forall i j x y, (i < j)%nat ->
       nth_error ranked i = Some x -> nth_error ranked j = Some y ->
       spec_not_below (snd x) (snd y) /\
       (spec_same_average (snd x) (snd y) ->
        String.leb (b_title (fst x)) (b_title (fst y)) = true)).
Proof.
  assert (H : affinity_candidates 1 (store world_shelf) <> [])
    by (vm_compute; discriminate).
  assert (Hmax : (List.length (favorite_genres_rows 1 (store world_shelf))
                  + List.length (reviewed_books_rows 1 (store world_shelf))
                  <= max_variable_number)%nat)
    by (apply Nat.leb_le; vm_compute; reflexivity).
  split; [exact H|]. split; [exact Hmax|].
  exact (affinity_branch_ranking 1 world_shelf H Hmax).
Defined.

Lemma no_high_rating_global_ranking_witness :
  (- 2 ^ 63 <= 7 < 2 ^ 63 \/ In 7 (map u_id (users (store world_two_reviews)))) /\
  (forall r, In r (reviews (store world_two_reviews)) -> r_user_id r = 7 -> r_rating r < 4) /\
  exists ranked,
    get_recommendations 7 world_two_reviews
    = (Ok (firstn 5 ranked), connected world_two_reviews) /\
    Permutation (books (store world_two_reviews)) (map fst ranked) /\
    (forall x, In x ranked ->
       spec_mean (spec_item_scores (store world_two_reviews) (fst x)) (snd x)) /\
    (forall i j x y, (i < j)%nat ->
       nth_error ranked i = Some x -> nth_error ranked j = Some y ->
       spec_not_below (snd x) (snd y)) /\
    (forall i j x y,
       nth_error ranked i = Some x -> nth_error ranked j = Some y ->
       snd x <> None -> snd y = None -> (i < j)%nat).
Proof.
  assert (Hid : - 2 ^ 63 <= 7 < 2 ^ 63 \/ In 7 (map u_id (users (store world_two_reviews))))
    by (left; split; [apply Z.leb_le|apply Z.ltb_lt]; reflexivity).
  assert (H : forall r, In r (reviews (store world_two_reviews)) ->
                        r_user_id r = 7 -> r_rating r < 4).
  { intros r Hr Hu. vm_compute in Hr.
    destruct Hr as [<-|[<-|[]]]; simpl in Hu; lia. }
  split; [exact Hid|]. split; [exact H|].
  exact (no_high_rating_global_ranking 7 world_two_reviews Hid H).
Defined.

Lemma favorite_genres_most_frequent_witness :
  let w := world_shelf in
  let count := spec_occurrences 1 (store w) in
  let reviewed := reviewed_books_rows 1 (store w) in
  (exists r b, In r (reviews (store w)) /\ In b (books (store w)) /\
               r_user_id r = 1 /\ 4 <= r_rating r /\ r_book_id r = b_id b) /\
  exists genres,
    get_recommendations 1 w
    = (if (max_variable_number <? List.length genres + List.length reviewed)%nat
       then Raise too_many_variables
       else
         match firstn 5
                 (order_by avg_desc_title_asc
                    (map (with_avg (store w))
                       (filter (fun b => genre_in genres b && id_not_in reviewed b)
                          (books (store w))))) with
         | [] => Raise (unrecognized_token_error "{")
         | x :: l => Ok (x :: l)
         end, connected w) /\
    genres <> [] /\
    NoDup genres /\
    (forall g, In g genres -> (0 < count g)%nat) /\
    List.length genres
    = Nat.min 3 (List.length
                   (nodup string_dec (spec_qualifying_categories 1 (store w)))) /\
    StronglySorted (fun g h => (count h <= count g)%nat) genres /\
    (forall g h, In g genres -> ~ In h genres -> (count h <= count g)%nat).
Proof.
  intros w count reviewed.
  assert (H : exists r b, In r (reviews (store w)) /\ In b (books (store w)) /\
                          r_user_id r = 1 /\ 4 <= r_rating r /\ r_book_id r = b_id b).
  { exists (mkReview 1 1 1 5 None), (mkBook 1 "Solaris" "Stanislaw Lem" "Sci-Fi" None).
    split; [vm_compute; tauto|]. split; [vm_compute; tauto|].
    split; [reflexivity|]. split; [simpl; lia|reflexivity]. }
  split; [exact H|].
  exact (favorite_genres_most_frequent 1 w H).
Defined.

Lemma unknown_user_global_ranking_witness :
  - 2 ^ 63 <= 7 < 2 ^ 63 /\
  reviews_reference_accounts (store world_two_reviews) = true /\
  ~ In 7 (map u_id (users (store world_two_reviews))) /\
  get_recommendations 7 world_two_reviews
    = (Ok (global_top_rows (store world_two_reviews)), connected world_two_reviews) /\
  (forall other,
     - 2 ^ 63 <= other < 2 ^ 63 \/ In other (map u_id (users (store world_two_reviews))) ->
     (forall r, In r (reviews (store world_two_reviews)) -> r_user_id r <> other) ->
     get_recommendations other world_two_reviews = get_recommendations 7 world_two_reviews).
Proof.
  assert (Hid : - 2 ^ 63 <= 7 < 2 ^ 63)
    by (split; [apply Z.leb_le|apply Z.ltb_lt]; reflexivity).
  assert (Hfk : reviews_reference_accounts (store world_two_reviews) = true)
    by (vm_compute; reflexivity).
  assert (Hunknown : ~ In 7 (map u_id (users (store world_two_reviews)))).
  { vm_compute. intros [H|[]]. discriminate H. }
  split; [exact Hid|]. split; [exact Hfk|]. split; [exact Hunknown|].
  exact (unknown_user_global_ranking 7 world_two_reviews Hid Hfk Hunknown).
Defined.

(** C5 (the claim as it stands fails): [2 ^ 63] has no account in the world
    where one account is registered, that world has no review at all, and
    every review names an account; the account that exists, with zero
    ratings, gets the global ranking, but for [2 ^ 63] the call raises
    [OverflowError]. *)
Lemma unknown_user_counterexample :
  ~ In (2 ^ 63) (map u_id (users (store world_registered))) /\
  reviews_reference_accounts (store world_registered) = true /\
  reviews (store world_registered) = [] /\
  fst (get_recommendations 1 world_registered)
  = Ok (global_top_rows (store world_registered)) /\
  fst (get_recommendations (2 ^ 63) world_registered) = Raise int_too_large /\
  ~ (exists result, fst (get_recommendations (2 ^ 63) world_registered) = Ok result).
Proof.
  split; [vm_compute; intros [H|[]]; discriminate H|].
  split; [vm_compute; reflexivity|]. split; [vm_compute; reflexivity|].
  split; [vm_compute; reflexivity|].
  assert (H : fst (get_recommendations (2 ^ 63) world_registered) = Raise int_too_large)
    by (vm_compute; reflexivity).
  split; [exact H|]. rewrite H. intros (result & Hres). discriminate Hres.
Qed.

(** C8 (the claim as it stands fails): a request that has not touched the
    database yet has no connection in [g]; after [get_recommendations] it has
    one, so the call wrote state besides the three tables. *)
Lemma read_only_counterexample :
  g_database world_two_reviews = None /\
  g_database (snd (get_recommendations 7 world_two_reviews)) = Some Connection /\
  snd (get_recommendations 7 world_two_reviews) <> world_two_reviews.
Proof.
  split; [reflexivity|]. split; [vm_compute; reflexivity|].
  intros H. apply (f_equal g_database) in H. vm_compute in H. discriminate H.
Qed.

Lemma at_most_five_distinct_witness :
  let result := [with_avg (store world_one_review)
                   (mkBook 4 "Project Hail Mary" "Andy Weir" "Sci-Fi"
                      (Some "A solitary survivor must save Earth from catastrophe."))] in
  NoDup (map b_id (books (store world_one_review))) /\
  get_recommendations 1 world_one_review = (Ok result, connected world_one_review) /\
  (List.length result <= 5)%nat /\
  NoDup (map (fun x : row => b_id (fst x)) result) /\
  NoDup result.
Proof.
  intros result.
  assert (Hkey : NoDup (map b_id (books (store world_one_review)))).
  { vm_compute. repeat (constructor; [simpl; intuition discriminate|]). constructor. }
  assert (Hrun : get_recommendations 1 world_one_review
                 = (Ok result, connected world_one_review))
    by (vm_compute; reflexivity).
  split; [exact Hkey|]. split; [exact Hrun|].
  exact (at_most_five_distinct 1 world_one_review (connected world_one_review)
           result Hkey Hrun).
Defined.

Lemma unparsed_rating_raises_type_error_witness :
  let rq := mkRequest (Some 1) POST [("rating", "five"); ("review_text", "fine")] "" in
  method rq = POST /\
  (exists b, In b (books (store world_registered)) /\ b_id b = 2) /\
  (exists cu, session_account rq (store world_registered) = Some cu) /\
  (form_get "rating" (form rq) = None \/
   exists s, form_get "rating" (form rq) = Some s /\ decimal_int s = None) /\
  form_get_int decimal_int "rating" (form rq) = None /\
  book_detail decimal_int rq 2 world_registered
  = (Raise type_error_none, connected world_registered) /\
  store (snd (book_detail decimal_int rq 2 world_registered)) = store world_registered /\
  flashed (snd (book_detail decimal_int rq 2 world_registered)) = flashed world_registered.
Proof.
  intros rq.
  assert (Hpost : method rq = POST) by reflexivity.
  assert (Hbook : exists b, In b (books (store world_registered)) /\ b_id b = 2).
  { exists (mkBook 2 "The Martian" "Andy Weir" "Sci-Fi"
              (Some "An astronaut struggles to survive alone on Mars.")).
    split; [vm_compute; tauto|reflexivity]. }
  assert (Hcu : exists cu, session_account rq (store world_registered) = Some cu)
    by (exists (mkUserMixin 1 "ann"); vm_compute; reflexivity).
  assert (Hrating : form_get "rating" (form rq) = None \/
                    exists s, form_get "rating" (form rq) = Some s /\ decimal_int s = None)
    by (right; exists "five"; split; reflexivity).
  split; [exact Hpost|]. split; [exact Hbook|]. split; [exact Hcu|].
  split; [exact Hrating|].
  exact (unparsed_rating_raises_type_error decimal_int rq 2 world_registered
           Hpost Hbook Hcu Hrating).
Defined.

Lemma one_review_per_account_and_book_witness :
  let rq := mkRequest (Some 1) POST
              [("rating", "3"); ("review_text", "on second thought")] "" in
  let w' := snd (book_detail decimal_int rq 2 world_two_reviews) in
  let updated := mkReview 1 1 2 3 (Some "on second thought") in
  reachable decimal_int salted world_two_reviews /\
  NoDup (map review_key (reviews (store world_two_reviews))) /\
  reviews (store w')
    = map (fun r => if r_id r =? 1 then updated else r) (reviews (store world_two_reviews)) /\
  List.length (reviews (store w')) = List.length (reviews (store world_two_reviews)) /\
  NoDup (map review_key (reviews (store w'))) /\
  In updated (reviews (store w')) /\
  (forall r, In r (reviews (store w')) -> review_key r = (1, 2) -> r = updated).
Proof.
  intros rq w' updated.
  destruct (one_review_per_account_and_book decimal_int salted world_two_reviews
              reachable_world_two_reviews) as [Hkeys Hagain].
  split; [exact reachable_world_two_reviews|]. split; [exact Hkeys|].
  apply (Hagain rq 2 (mkUserMixin 1 "ann")
           (mkBook 2 "The Martian" "Andy Weir" "Sci-Fi"
              (Some "An astronaut struggles to survive alone on Mars."))
           (mkReview 1 1 2 5 (Some "great")) 3).
  - reflexivity.
  - vm_compute. reflexivity.
  - vm_compute. tauto.
  - reflexivity.
  - vm_compute. tauto.
  - reflexivity.
  - reflexivity.
  - lia.
Defined.

(** * More of the code *)

(** ** When [get_recommendations] fails, and what it excludes *)

Lemma sqlite_integer_false d n :
  sqlite_integer d n = false <->
  ~ (- 2 ^ 63 <= n < 2 ^ 63) /\ ~ In n (stored_integers d).
Proof.
  unfold sqlite_integer. rewrite orb_false_iff.
  rewrite <- !not_true_iff_false, fits_int64_range, existsb_exists.
  split; intros [Hbig Hnew]; (split; [exact Hbig|]).
  - intros Hin. apply Hnew. exists n. split; [exact Hin|apply Z.eqb_refl].
  - intros (m & Hm & Heq). apply Z.eqb_eq in Heq. now subst m.
Qed.

Section MoreRecommendationFacts.
Context {engine : SqlEngine}.

Lemma affinity_candidates_without_favorites user_id d :
  favorite_genres_rows user_id d = [] -> affinity_candidates user_id d = [].
Proof.
  intros E. unfold affinity_candidates. rewrite E. simpl.
  now induction (books d).
Qed.

(** X1: the exceptions [get_recommendations] can raise, each with the
    condition it is raised under.  [OverflowError]: the user id is not an
    integer of 64 bits (nor one of the store), so the first statement cannot
    take it.  [OperationalError], too many SQL variables: the user has a
    review rated 4 or more of a catalogued book, and favourite genres and
    reviewed books together are more than the engine's limit.
    [OperationalError], unrecognized token: such a user, within the limit,
    for whom the recommendation query has no candidate; the fallback
    statement is then sent with its braces.  There is no other exception,
    and the assembled IN lists never cause a binding error. *)
Theorem get_recommendations_failures (user_id : Z) (w : world) (e : exn) :
  let parameters :=
    (List.length (favorite_genres_rows user_id (store w))
     + List.length (reviewed_books_rows user_id (store w)))%nat in
  fst (get_recommendations user_id w) = Raise e <->
  (e = int_too_large /\
   ~ (- 2 ^ 63 <= user_id < 2 ^ 63) /\ ~ In user_id (stored_integers (store w))) \/
  (e = too_many_variables /\
   high_rated_genres user_id (store w) <> [] /\
   (max_variable_number < parameters)%nat) \/
  (e = unrecognized_token_error "{" /\
   high_rated_genres user_id (store w) <> [] /\
   (parameters <= max_variable_number)%nat /\
   affinity_candidates user_id (store w) = []).
Proof.
  intros parameters. unfold parameters. clear parameters.
  rewrite <- sqlite_integer_false.
  rewrite get_recommendations_run. cbn [fst].
  destruct (sqlite_integer (store w) user_id) eqn:Hu.
  2: { split.
       - intros [= <-]. left. auto.
       - intros [[-> _]|[(_ & Hhigh & _)|(_ & Hhigh & _)]]; [reflexivity| |];
           exfalso; apply Hhigh; apply favorite_genres_rows_nil;
           destruct (favorite_genres_rows user_id (store w)) eqn:E; [reflexivity| |reflexivity|];
           assert (Hb := favorite_genres_user_bound user_id (store w));
           rewrite E in Hb; rewrite Hb in Hu; discriminate. }
  destruct (favorite_genres_rows user_id (store w)) as [|g gs] eqn:Efav.
  { split; [discriminate|].
    intros [[_ H]|[(_ & Hhigh & _)|(_ & Hhigh & _)]]; [discriminate| |];
      exfalso; apply Hhigh; apply favorite_genres_rows_nil; exact Efav. }
  assert (Hfav : favorite_genres_rows user_id (store w) <> []) by congruence.
  assert (Hhigh : high_rated_genres user_id (store w) <> []).
  { intros H. apply favorite_genres_rows_nil in H. congruence. }
  rewrite <- Efav.
  destruct (max_variable_number
            <? List.length (favorite_genres_rows user_id (store w))
               + List.length (reviewed_books_rows user_id (store w)))%nat eqn:Emax.
  { apply Nat.ltb_lt in Emax. split.
    - intros [= <-]. right. left. auto.
    - intros [[_ H]|[(-> & _)|(_ & _ & Hle & _)]];
        [discriminate|reflexivity|lia]. }
  apply Nat.ltb_ge in Emax.
  destruct (firstn 5 _) as [|x l] eqn:F.
  - apply firstn_succ_nil, order_by_nil in F. split.
    + intros [= <-]. right. right. auto.
    + intros [[_ H]|[(_ & _ & Hlt)|(-> & _)]]; [discriminate|lia|reflexivity].
  - split; [discriminate|].
    intros [[_ H]|[(_ & _ & Hlt)|(_ & _ & _ & Hnone)]]; [discriminate|lia|].
    rewrite Hnone in F.
    assert (E : order_by avg_desc_title_asc (@nil row) = [])
      by (apply Permutation_nil, order_by_perm).
    rewrite E in F. discriminate.
Qed.

(** X2: where favourite genres exist the user has reviewed a book, so the
    recommendation query always carries its [NOT IN] exclusion: the
    [else: params = tuple(genres)] branch is never taken. *)
Theorem exclusion_list_never_empty (user_id : Z) (d : database) :
  favorite_genres_rows user_id d <> [] ->
  reviewed_books_rows user_id d <> [].
Proof.
  intros Hfav Hnone.
  destruct (high_rated_genres user_id d) as [|g gs] eqn:E.
  - apply Hfav. now apply favorite_genres_rows_nil.
  - assert (Hin : In g (high_rated_genres user_id d)) by (rewrite E; now left).
    apply high_rated_genres_In in Hin.
    destruct Hin as (r & b & Hr & _ & Hu & _).
    assert (Hid : In (r_book_id r) (reviewed_books_rows user_id d)).
    { unfold reviewed_books_rows. apply in_map. apply filter_In.
      split; [exact Hr|now apply Z.eqb_eq]. }
    rewrite Hnone in Hid. contradiction.
Qed.

(** X3: for a user without a review rated 4 or more, the user id being of
    64 bits or the id of an account, the result has exactly five rows where
    the catalogue has at least five books, else one row for each book; every
    row is a book of the catalogue. *)
Theorem global_ranking_length (user_id : Z) (w : world) :
  - 2 ^ 63 <= user_id < 2 ^ 63 \/ In user_id (map u_id (users (store w))) ->
  (forall r, In r (reviews (store w)) -> r_user_id r = user_id -> r_rating r < 4) ->
  exists result,
    get_recommendations user_id w = (Ok result, connected w) /\
    List.length result = Nat.min 5 (List.length (books (store w))) /\
    (forall x, In x result -> In (fst x) (books (store w))).
Proof.
  intros Hid Hlow. exists (global_top_rows (store w)).
  split.
  { apply get_recommendations_no_affinity;
      [now apply account_or_int64_bound|now apply no_high_rating_no_favorite]. }
  unfold global_top_rows. split.
  - rewrite length_firstn.
    rewrite <- (Permutation_length (order_by_perm _ avg_desc _)), length_map.
    reflexivity.
  - intros x Hx.
    assert (Hx' : In x (order_by avg_desc (map (with_avg (store w)) (books (store w))))).
    { rewrite <- (firstn_skipn 5). apply in_or_app. now left. }
    apply (Permutation_in _ (Permutation_sym (order_by_perm _ avg_desc _))) in Hx'.
    apply in_map_iff in Hx'. destruct Hx' as (b & <- & Hb). exact Hb.
Qed.

End MoreRecommendationFacts.

(** ** The paths of [book_detail] *)

Section MoreReviewFacts.
Context {engine : SqlEngine}.
Variable py_int : string -> option Z.

Lemma hd_error_filter_absent {A} (p : A -> bool) (l : list A) :
  (forall x, In x l -> p x = false) -> hd_error (filter p l) = None.
Proof.
  intros H. induction l as [|a l IH]; simpl; [reflexivity|].
  rewrite (H a) by now left. apply IH. intros x Hx. apply H. now right.
Qed.

Lemma fetched_book_None book_id d :
  fetched_book book_id d = None <-> (forall b, In b (books d) -> b_id b <> book_id).
Proof.
  unfold fetched_book. split.
  - intros Hnone b Hb Hid.
    destruct (hd_error_filter_Some (fun b => b_id b =? book_id) _ b Hb) as [y Hy];
      [now apply Z.eqb_eq|congruence].
  - intros H. apply hd_error_filter_absent.
    intros b Hb. apply Z.eqb_neq. now apply H.
Qed.

Lemma book_detail_rated_outcome rq book_id w cu b v :
  method rq = POST ->
  session_account rq (store w) = Some cu ->
  In b (books (store w)) -> b_id b = book_id ->
  form_get_int py_int "rating" (form rq) = Some v ->
  fst (book_detail py_int rq book_id w) = Ok (Redirect "book_detail").
Proof.
  intros Hpost Hcu Hb Hbid Hv.
  rewrite (book_detail_post_run py_int rq book_id w cu b Hpost Hcu Hb Hbid), Hv.
  destruct ((1 <=? v) && (v <=? 5)); [destruct (hd_error _)|]; reflexivity.
Qed.

(** X5: a request for a book id that is not in the catalogue, whatever its
    method, session and form, writes nothing to the tables.  For an id of 64
    bits it flashes 'Book not found.' and redirects to the index; for an id
    that is not of 64 bits (the URL converter takes any numeral) the first
    statement raises [OverflowError] and nothing is flashed. *)
Theorem unknown_book_not_found (rq : request) (book_id : Z) (w : world) :
  (forall b, In b (books (store w)) -> b_id b <> book_id) ->
  (- 2 ^ 63 <= book_id < 2 ^ 63 ->
   book_detail py_int rq book_id w
   = (Ok (Redirect "index"),
      mkWorld (store w) (flashed w ++ [("Book not found.", "error")])%list
        (Some Connection))) /\
  (~ (- 2 ^ 63 <= book_id < 2 ^ 63) -> ~ In book_id (stored_integers (store w)) ->
   book_detail py_int rq book_id w = (Raise int_too_large, connected w)).
Proof.
  intros Hnone. split.
  - intros Hrange. apply book_detail_no_book_run.
    + now apply sqlite_integer_fits.
    + now apply fetched_book_None.
  - intros Hbig Hnew. apply book_detail_overflow_run.
    now apply sqlite_integer_false.
Qed.

(** X6: a POST on a catalogued book by a request whose session names no
    account is sent to the login view with a warning and writes nothing,
    whatever the form holds. *)
Theorem anonymous_post_refused (rq : request) (book_id : Z) (w : world) :
  method rq = POST ->
  (exists b, In b (books (store w)) /\ b_id b = book_id) ->
  session_account rq (store w) = None ->
  book_detail py_int rq book_id w
  = (Ok (Redirect "login"),
     mkWorld (store w)
       (flashed w ++ [("You must be logged in to submit a review.", "warning")])%list
       (Some Connection)).
Proof.
  intros Hpost (b & Hb & Hbid) Hanon.
  destruct (fetched_book book_id (store w)) as [b'|] eqn:Eb.
  - now apply (book_detail_anonymous_run py_int rq book_id w b').
  - exfalso. rewrite fetched_book_None in Eb. now apply (Eb b).
Qed.

(** X7: a rating that parses to an integer outside 1 to 5 is refused: the
    handler flashes 'Rating must be between 1 and 5.', redirects to the book
    page and leaves the store as it was. *)
Theorem out_of_range_rating_refused (rq : request) (book_id v : Z) (w : world) :
  method rq = POST ->
  (exists b, In b (books (store w)) /\ b_id b = book_id) ->
  (exists cu, session_account rq (store w) = Some cu) ->
  form_get_int py_int "rating" (form rq) = Some v ->
  v < 1 \/ 5 < v ->
  book_detail py_int rq book_id w
  = (Ok (Redirect "book_detail"),
     mkWorld (store w)
       (flashed w ++ [("Rating must be between 1 and 5.", "error")])%list
       (Some Connection)).
Proof.
  intros Hpost (b & Hb & Hbid) (cu & Hcu) Hv Hout.
  rewrite (book_detail_post_run py_int rq book_id w cu b Hpost Hcu Hb Hbid), Hv.
  replace ((1 <=? v) && (v <=? 5)) with false; [reflexivity|].
  symmetry. apply andb_false_iff. rewrite !Z.leb_gt. lia.
Qed.

(** X8: the first valid review of a book by an account appends one row with
    a fresh id, the account's id, the book id, the rating and the text; the
    lookup the handler does for that account and book then finds this row,
    and the session still resolves to the account. *)
Theorem first_review_inserted (rq : request) (book_id v : Z) (cu : User) (w : world) :
  method rq = POST ->
  (exists b, In b (books (store w)) /\ b_id b = book_id) ->
  session_account rq (store w) = Some cu ->
  (forall r, In r (reviews (store w)) -> review_key r <> (User_id cu, book_id)) ->
  form_get_int py_int "rating" (form rq) = Some v -> 1 <= v <= 5 ->
  let inserted :=
    mkReview (next_rowid (map r_id (reviews (store w)))) (User_id cu) book_id v
      (form_get "review_text" (form rq)) in
  let w' := snd (book_detail py_int rq book_id w) in
  book_detail py_int rq book_id w
  = (Ok (Redirect "book_detail"),
     mkWorld (mkDb (users (store w)) (books (store w))
                (reviews (store w) ++ [inserted])%list)
       (flashed w ++ [("Your review has been submitted!", "success")])%list
       (Some Connection)) /\
  ~ In (r_id inserted) (map r_id (reviews (store w))) /\
  hd_error (filter (fun r => (r_user_id r =? User_id cu) && (r_book_id r =? book_id))
              (reviews (store w'))) = Some inserted /\
  session_account rq (store w') = Some cu.
Proof.
  intros Hpost (b & Hb & Hbid) Hcu Hnew Hv Hrange inserted w'.
  assert (Hnone : hd_error (filter (fun r => (r_user_id r =? User_id cu)
                                             && (r_book_id r =? book_id))
                              (reviews (store w))) = None).
  { apply hd_error_filter_absent. intros r Hr.
    destruct ((r_user_id r =? User_id cu) && (r_book_id r =? book_id)) eqn:E;
      [|reflexivity].
    apply andb_prop in E. destruct E as [E1 E2]. apply Z.eqb_eq in E1, E2.
    exfalso. apply (Hnew r Hr). unfold review_key. congruence. }
  assert (Hrun := book_detail_post_run py_int rq book_id w cu b Hpost Hcu Hb Hbid).
  rewrite Hv, Hnone in Hrun.
  replace ((1 <=? v) && (v <=? 5)) with true in Hrun
    by (symmetry; apply andb_true_intro; split; apply Z.leb_le; lia).
  split; [exact Hrun|]. split; [apply next_rowid_fresh|].
  unfold w'. rewrite Hrun. simpl. split; [|exact Hcu].
  rewrite filter_app.
  destruct (filter _ (reviews (store w))) as [|x l]; [|discriminate].
  simpl. now rewrite !Z.eqb_refl.
Qed.

(** X9: the exceptions that leave [book_detail] are the [TypeError] of the
    range check and the [OverflowError] of the first statement, which is
    outside the [try] block.  [TypeError] is raised exactly for a POST on a
    catalogued book by a logged-in account whose rating field is missing or
    not an integer; [OverflowError] exactly for a book id that is not an
    integer of 64 bits (nor one of the store); no constraint error of the
    store escapes. *)
Theorem book_detail_exceptions (rq : request) (book_id : Z) (w : world) :
  (forall e, fst (book_detail py_int rq book_id w) = Raise e ->
             e = type_error_none \/ e = int_too_large) /\
  (fst (book_detail py_int rq book_id w) = Raise type_error_none <->
   method rq = POST /\
   (exists b, In b (books (store w)) /\ b_id b = book_id) /\
   (exists cu, session_account rq (store w) = Some cu) /\
   form_get_int py_int "rating" (form rq) = None) /\
  (fst (book_detail py_int rq book_id w) = Raise int_too_large <->
   ~ (- 2 ^ 63 <= book_id < 2 ^ 63) /\ ~ In book_id (stored_integers (store w))).
Proof.
  rewrite <- sqlite_integer_false.
  destruct (sqlite_integer (store w) book_id) eqn:Hbook.
  2: { rewrite book_detail_overflow_run by exact Hbook. cbn [fst].
       split; [intros e [= <-]; now right|]. split; [|tauto].
       split; [discriminate|].
       intros (_ & (b & Hb & Hid) & _). exfalso.
       rewrite <- Hid, (book_id_stored _ _ Hb) in Hbook. discriminate. }
  assert (Hok : forall r : response,
            fst (book_detail py_int rq book_id w) = Ok r ->
            ~ (method rq = POST /\
               (exists b, In b (books (store w)) /\ b_id b = book_id) /\
               (exists cu, session_account rq (store w) = Some cu) /\
               form_get_int py_int "rating" (form rq) = None) ->
            (forall e, fst (book_detail py_int rq book_id w) = Raise e ->
                       e = type_error_none \/ e = int_too_large) /\
            (fst (book_detail py_int rq book_id w) = Raise type_error_none <->
             method rq = POST /\
             (exists b, In b (books (store w)) /\ b_id b = book_id) /\
             (exists cu, session_account rq (store w) = Some cu) /\
             form_get_int py_int "rating" (form rq) = None) /\
            (fst (book_detail py_int rq book_id w) = Raise int_too_large <->
             true = false)).
  { intros r Hr Hnot. rewrite Hr.
    split; [discriminate|]. split; (split; [discriminate|]); intros H;
      [now exfalso|discriminate]. }
  destruct (fetched_book book_id (store w)) as [b|] eqn:Eb.
  2: { apply (Hok (Redirect "index")).
       - now rewrite book_detail_no_book_run.
       - intros (_ & (b & Hb & Hid) & _).
         rewrite fetched_book_None in Eb. now apply (Eb b). }
  destruct (fetched_book_Some _ _ _ Eb) as [Hb Hid].
  destruct (method rq) eqn:Hm.
  { eapply Hok.
    - rewrite (book_detail_get_run py_int rq book_id w b Hm Eb). reflexivity.
    - intros (H & _). discriminate. }
  destruct (session_account rq (store w)) as [cu|] eqn:Hcu.
  2: { apply (Hok (Redirect "login")).
       - now rewrite (book_detail_anonymous_run py_int rq book_id w b).
       - intros (_ & _ & (cu & H) & _). discriminate. }
  destruct (form_get_int py_int "rating" (form rq)) as [v|] eqn:Hv.
  { apply (Hok (Redirect "book_detail")).
    - now apply (book_detail_rated_outcome rq book_id w cu b v).
    - intros (_ & _ & _ & H). discriminate. }
  rewrite (book_detail_post_run py_int rq book_id w cu b Hm Hcu Hb Hid), Hv. simpl.
  split; [intros e [= <-]; now left|]. split.
  - split; [|reflexivity]. intros _. repeat split; eauto.
  - split; discriminate.
Qed.
End MoreReviewFacts.

(** ** What every request keeps *)

Lemma newest_first_total (x y : review * string) :
  newest_first x y = true \/ newest_first y x = true.
Proof. unfold newest_first. rewrite !Z.leb_le. lia. Qed.

Lemma newest_first_trans (x y z : review * string) :
  newest_first x y = true -> newest_first y z = true -> newest_first x z = true.
Proof. unfold newest_first. rewrite !Z.leb_le. lia. Qed.

Lemma store_change_well_formed d d' :
  store_change d d' ->
  (forall r, In r (reviews d) -> review_well_formed d r) ->
  forall r, In r (reviews d') -> review_well_formed d' r.
Proof.
  intros Hchange Hwf.
  destruct Hchange as [|username password_hash d' Hins
                       |u b rating text d' Hin Hbin Hrat Hins
                       |u b ur rating text d' Hin Hbin Hrin Hru Hrb Hrat Hupd].
  - exact Hwf.
  - unfold insert_user in Hins. destruct (existsb _ _); [discriminate|].
    injection Hins as <-. exact Hwf.
  - unfold insert_review in Hins. destruct (existsb _ _); [discriminate|].
    injection Hins as <-. simpl. intros r Hr.
    apply in_app_or in Hr. destruct Hr as [Hr|[<-|[]]].
    + exact (Hwf r Hr).
    + split; [exact Hrat|]. now exists b.
  - unfold update_review in Hupd. injection Hupd as <-. simpl. intros r Hr.
    apply in_map_iff in Hr. destruct Hr as (r0 & <- & Hr0).
    destruct (Hwf r0 Hr0) as [Hr1 Hr2].
    destruct (r_id r0 =? r_id ur); split; simpl; assumption.
Qed.

Lemma store_change_usernames d d' :
  store_change d d' ->
  NoDup (map u_username (users d)) -> NoDup (map u_username (users d')).
Proof.
  intros Hchange Hn.
  destruct Hchange as [|username password_hash d' Hins
                       |u b rating text d' Hin Hbin Hrat Hins
                       |u b ur rating text d' Hin Hbin Hrin Hru Hrb Hrat Hupd].
  - exact Hn.
  - unfold insert_user in Hins. destruct (existsb _ _) eqn:E; [discriminate|].
    injection Hins as <-. simpl. rewrite map_app. apply NoDup_snoc; [exact Hn|].
    simpl. intros Hin. apply in_map_iff in Hin. destruct Hin as (u & Hu & Hin).
    assert (Ht : existsb (fun u => String.eqb (u_username u) username) (users d) = true).
    { apply existsb_exists. exists u. split; [exact Hin|now apply String.eqb_eq]. }
    congruence.
  - unfold insert_review in Hins. destruct (existsb _ _); [discriminate|].
    now injection Hins as <-.
  - unfold update_review in Hupd. now injection Hupd as <-.
Qed.

(** Nothing is deleted or renumbered. *)
Lemma store_change_grows d d' :
  store_change d d' ->
  books d' = books d /\
  (exists more, users d' = (users d ++ more)%list) /\
  (exists more, map r_id (reviews d') = (map r_id (reviews d) ++ more)%list) /\
  (exists more, map review_key (reviews d') = (map review_key (reviews d) ++ more)%list).
Proof.
  intros Hchange.
  destruct Hchange as [|username password_hash d' Hins
                       |u b rating text d' Hin Hbin Hrat Hins
                       |u b ur rating text d' Hin Hbin Hrin Hru Hrb Hrat Hupd].
  - repeat split; exists []; now rewrite app_nil_r.
  - unfold insert_user in Hins. destruct (existsb _ _); [discriminate|].
    injection Hins as <-. simpl.
    repeat split; [now eexists|exists []; now rewrite app_nil_r..].
  - unfold insert_review in Hins. destruct (existsb _ _); [discriminate|].
    injection Hins as <-. simpl. rewrite !map_app.
    repeat split; [exists []; now rewrite app_nil_r|now eexists..].
  - unfold update_review in Hupd. injection Hupd as <-. simpl.
    rewrite update_review_ids, update_review_keys.
    repeat split; exists []; now rewrite app_nil_r.
Qed.

Section MoreInvariants.
Context {engine : SqlEngine}.
Variable py_int : string -> option Z.
Variable generate_password_hash : string -> string -> string.

Lemma reachable_well_formed (w : world) :
  reachable py_int generate_password_hash w ->
  forall r, In r (reviews (store w)) -> review_well_formed (store w) r.
Proof.
  induction 1 as [|w rt rq Hreach IH]; [intros r []|].
  eapply store_change_well_formed; [apply handle_store_change|exact IH].
Qed.

(** X11: in every world the application reaches, each review has a rating
    from 1 to 5, a book of the catalogue and an account. *)
Theorem reachable_reviews_well_formed (w : world) :
  reachable py_int generate_password_hash w ->
  forall r, In r (reviews (store w)) ->
    1 <= r_rating r <= 5 /\
    (exists b, In b (books (store w)) /\ b_id b = r_book_id r) /\
    (exists u, In u (users (store w)) /\ u_id u = r_user_id r).
Proof.
  intros Hreach.
  assert (Hwf := reachable_well_formed w Hreach).
  assert (Hfk := reachable_reviews_reference_accounts py_int generate_password_hash w Hreach).
  intros r Hr. destruct (Hwf r Hr) as [Hrating Hbook].
  split; [exact Hrating|]. split; [exact Hbook|].
  unfold reviews_reference_accounts in Hfk. rewrite forallb_forall in Hfk.
  specialize (Hfk r Hr). apply existsb_exists in Hfk.
  destruct Hfk as (u & Hu & Hid). apply Z.eqb_eq in Hid. now exists u.
Qed.

(** X12: in every world the application reaches, account ids, usernames,
    review ids and book ids are keys (no value twice). *)
Theorem reachable_keys (w : world) :
  reachable py_int generate_password_hash w ->
  NoDup (map u_id (users (store w))) /\
  NoDup (map u_username (users (store w))) /\
  NoDup (map r_id (reviews (store w))) /\
  NoDup (map b_id (books (store w))).
Proof.
  intros Hreach.
  assert (Hok := reachable_store_ok py_int generate_password_hash w Hreach).
  split; [apply (ok_user_ids _ Hok)|].
  split.
  - clear Hok. induction Hreach as [|w rt rq Hreach IH]; [constructor|].
    eapply store_change_usernames; [apply handle_store_change|exact IH].
  - split; [apply (ok_review_ids _ Hok)|].
    rewrite (ok_books _ Hok). vm_compute.
    repeat (constructor; [simpl; intuition discriminate|]). constructor.
Qed.

(** X13: no request deletes or renumbers anything: after any request the
    catalogue is the same, the accounts are the old ones with at most new
    ones after them, and so are the ids and the (account, book) pairs of
    the reviews. *)
Theorem requests_only_add (rt : route) (rq : request) (w : world) :
  let w' := snd (handle py_int generate_password_hash rt rq w) in
  books (store w') = books (store w) /\
  (exists more, users (store w') = (users (store w) ++ more)%list) /\
  (exists more, map r_id (reviews (store w'))
                = (map r_id (reviews (store w)) ++ more)%list) /\
  (exists more, map review_key (reviews (store w'))
                = (map review_key (reviews (store w)) ++ more)%list).
Proof. apply store_change_grows. apply handle_store_change. Qed.

End MoreInvariants.

(** ** [init_db] and [register] *)

Lemma hd_error_filter_existsb {A} (p : A -> bool) (l : list A) :
  existsb p l = true -> exists x, hd_error (filter p l) = Some x.
Proof.
  intros H. apply existsb_exists in H. destruct H as (x & Hx & Hp).
  now apply (hd_error_filter_Some p l x).
Qed.

Lemma hd_error_filter_last {A} (p : A -> bool) (l : list A) (x : A) :
  (forall y, In y l -> p y = false) -> p x = true ->
  hd_error (filter p (l ++ [x])) = Some x.
Proof.
  intros Hl Hx. rewrite filter_app.
  replace (filter p l) with (@nil A).
  - simpl. now rewrite Hx.
  - symmetry. induction l as [|a l IH]; simpl; [reflexivity|].
    rewrite (Hl a) by now left. apply IH. intros y Hy. apply Hl. now right.
Qed.

Lemma init_db_seeds us rs :
  init_db (mkDb us [] rs)
  = mkDb us
      [ mkBook 1 "The Shadow of the Wind" "Carlos Ruiz Zafón" "Mystery"
          (Some "A magical tale set in a Barcelona book graveyard.");
        mkBook 2 "The Martian" "Andy Weir" "Sci-Fi"
          (Some "An astronaut struggles to survive alone on Mars.");
        mkBook 3 "A Gentleman in Moscow" "Amor Towles" "Historical Fiction"
          (Some "A count is sentenced to house arrest in a luxury hotel.");
        mkBook 4 "Project Hail Mary" "Andy Weir" "Sci-Fi"
          (Some "A solitary survivor must save Earth from catastrophe.");
        mkBook 5 "Where the Crawdads Sing" "Delia Owens" "Mystery"
          (Some "A story of a girl who raises herself in the marshes of North Carolina.");
        mkBook 6 "Sapiens: A Brief History of Humankind" "Yuval Noah Harari" "Non-Fiction"
          (Some "A look at the history of humanity from early times to the present.") ]
      rs.
Proof. reflexivity. Qed.

(** X18: [init_db] keeps accounts and reviews, leaves a catalogue that has
    books untouched, seeds an empty one with the six sample books under ids
    1 to 6, and running it again changes nothing. *)
Theorem init_db_runs_once (d : database) :
  init_db (init_db d) = init_db d /\
  users (init_db d) = users d /\
  reviews (init_db d) = reviews d /\
  (books d <> [] -> init_db d = d) /\
  (books d = [] ->
   map b_id (books (init_db d)) = [1; 2; 3; 4; 5; 6] /\
   map (fun b => (b_title b, b_author b, b_genre b)) (books (init_db d))
   = map (fun '(title, author, genre, _) => (title, author, genre)) sample_books).
Proof.
  destruct d as [us [|b bs] rs].
  - rewrite init_db_seeds.
    split; [reflexivity|]. split; [reflexivity|]. split; [reflexivity|].
    split; [intros H; now exfalso|]. intros _. split; reflexivity.
  - split; [reflexivity|]. split; [reflexivity|]. split; [reflexivity|].
    split; [reflexivity|]. discriminate.
Qed.

Section MoreRegisterFacts.
Context {engine : SqlEngine}.
Variable generate_password_hash : string -> string -> string.

Lemma register_post_run rq w username password :
  session_account rq (store w) = None ->
  method rq = POST ->
  form_get "username" (form rq) = Some username ->
  form_get "password" (form rq) = Some password ->
  register generate_password_hash rq w =
  if existsb (fun u => String.eqb (u_username u) username) (users (store w))
  then (Ok (Render RegisterPage),
        mkWorld (store w)
          (flashed w ++ [("Username already taken. Please choose a different one.",
                          "error")])%list
          (Some Connection))
  else (Ok (Redirect "login"),
        mkWorld
          (mkDb (users (store w) ++
                 [mkUser (next_rowid (map u_id (users (store w)))) username
                    (generate_password_hash (salt rq) password)])%list
             (books (store w)) (reviews (store w)))
          (flashed w ++ [("Registration successful! Please log in.", "success")])%list
          (Some Connection)).
Proof.
  intros Hanon Hpost Hname Hpw.
  unfold register, bind. rewrite current_user_run, Hanon, Hpost.
  unfold form_item. rewrite Hname, Hpw. cbn [ret].
  assert (Hs := session_loaded_store rq w).
  assert (Hf := session_loaded_flashed rq w).
  set (loaded := session_loaded rq w) in *.
  rewrite get_db_run.
  unfold fetchone, bind. rewrite execute_ok by statement_runs.
  cbn [ret store connected]. rewrite Hs.
  destruct (existsb _ (users (store w))) eqn:E.
  - destruct (hd_error_filter_existsb _ _ E) as [u ->].
    unfold flash, connected. cbn. now rewrite Hs, Hf.
  - assert (Hnone : hd_error (filter (fun u => String.eqb (u_username u) username)
                                (users (store w))) = None).
    { destruct (hd_error _) as [u|] eqn:F; [|reflexivity].
      apply hd_error_filter_In in F. destruct F as [Hu Hp].
      assert (existsb (fun u => String.eqb (u_username u) username) (users (store w)) = true)
        by (apply existsb_exists; now exists u).
      congruence. }
    rewrite Hnone. rewrite execute_write_ok by statement_runs.
    cbn [store connected]. rewrite Hs.
    unfold insert_user. rewrite E.
    unfold flash, commit, connected. cbn. now rewrite Hf.
Qed.

(** X14: registering a free username as an anonymous client appends one
    account with a fresh id and the hash of the password, and redirects to
    the login view; [load_user] then finds the new account under its id and
    answers for every older id what it answered before. *)
Theorem register_creates_account (rq : request) (w : world) (username password : string) :
  session_account rq (store w) = None ->
  method rq = POST ->
  form_get "username" (form rq) = Some username ->
  form_get "password" (form rq) = Some password ->
  (forall u, In u (users (store w)) -> u_username u <> username) ->
  let account :=
    mkUser (next_rowid (map u_id (users (store w)))) username
      (generate_password_hash (salt rq) password) in
  let w' := snd (register generate_password_hash rq w) in
  register generate_password_hash rq w
  = (Ok (Redirect "login"),
     mkWorld (mkDb (users (store w) ++ [account])%list (books (store w)) (reviews (store w)))
       (flashed w ++ [("Registration successful! Please log in.", "success")])%list
       (Some Connection)) /\
  ~ In (u_id account) (map u_id (users (store w))) /\
  load_user (u_id account) w' = (Ok (Some (mkUserMixin (u_id account) username)), w') /\
  (forall user_id, In user_id (map u_id (users (store w))) ->
     load_user user_id w' = (fst (load_user user_id w), w')).
Proof.
  intros Hanon Hpost Hname Hpw Hfree account w'.
  assert (E : existsb (fun u => String.eqb (u_username u) username) (users (store w))
              = false).
  { destruct (existsb _ _) eqn:E; [|reflexivity].
    apply existsb_exists in E. destruct E as (u & Hu & Heq).
    apply String.eqb_eq in Heq. exfalso. now apply (Hfree u). }
  assert (Hrun := register_post_run rq w username password Hanon Hpost Hname Hpw).
  rewrite E in Hrun.
  assert (Hfresh : ~ In (u_id account) (map u_id (users (store w))))
    by apply next_rowid_fresh.
  split; [exact Hrun|]. split; [exact Hfresh|].
  unfold w'. rewrite Hrun. simpl snd. rewrite !load_user_run.
  unfold connected. simpl.
  split.
  - rewrite hd_error_filter_last; [reflexivity| |apply Z.eqb_refl].
    intros y Hy. apply Z.eqb_neq. intros Heq. apply Hfresh.
    fold account. simpl. rewrite <- Heq. now apply in_map.
  - intros user_id Hin. rewrite !load_user_run. unfold connected. simpl.
    rewrite filter_app.
    apply in_map_iff in Hin. destruct Hin as (u & Hid & Hu).
    destruct (hd_error_filter_Some (fun u => u_id u =? user_id) _ u Hu) as [y Hy];
      [now apply Z.eqb_eq|].
    destruct (filter (fun u => u_id u =? user_id) (users (store w))) as [|z l];
      [discriminate|]. reflexivity.
Qed.

(** X15: registering a username that an account already has is refused with
    'Username already taken.', the form is shown again and nothing is
    written. *)
Theorem register_refuses_taken_username (rq : request) (w : world)
    (username password : string) :
  session_account rq (store w) = None ->
  method rq = POST ->
  form_get "username" (form rq) = Some username ->
  form_get "password" (form rq) = Some password ->
  (exists u, In u (users (store w)) /\ u_username u = username) ->
  register generate_password_hash rq w
  = (Ok (Render RegisterPage),
     mkWorld (store w)
       (flashed w ++ [("Username already taken. Please choose a different one.",
                       "error")])%list
       (Some Connection)).
Proof.
  intros Hanon Hpost Hname Hpw (u & Hu & Heq).
  rewrite (register_post_run rq w username password Hanon Hpost Hname Hpw).
  replace (existsb _ _) with true; [reflexivity|].
  symmetry. apply existsb_exists. exists u. split; [exact Hu|now apply String.eqb_eq].
Qed.

(** X16: a registration POST without its [username] or [password] field
    raises [BadRequestKeyError] for the first missing field and writes
    nothing: the world is as [current_user] left it. *)
Theorem register_missing_field (rq : request) (w : world) :
  session_account rq (store w) = None ->
  method rq = POST ->
  form_get "username" (form rq) = None \/ form_get "password" (form rq) = None ->
  exists key,
    register generate_password_hash rq w
    = (Raise (BadRequestKeyError key), session_loaded rq w) /\
    (key = "username" \/ key = "password") /\
    form_get key (form rq) = None.
Proof.
  intros Hanon Hpost Hmissing.
  unfold register, bind. rewrite current_user_run, Hanon, Hpost.
  unfold form_item.
  destruct (form_get "username" (form rq)) as [username|] eqn:Hname.
  - destruct Hmissing as [H|Hpw]; [discriminate|].
    exists "password". rewrite Hpw. cbn [ret]. simpl. auto.
  - exists "username". simpl. auto.
Qed.

(** X17: [register] changes the store exactly when the client is anonymous,
    the method is POST, both fields are present and no account has the
    username. *)
Theorem register_writes_exactly_when (rq : request) (w : world) :
  store (snd (register generate_password_hash rq w)) <> store w <->
  session_account rq (store w) = None /\
  method rq = POST /\
  exists username password,
    form_get "username" (form rq) = Some username /\
    form_get "password" (form rq) = Some password /\
    (forall u, In u (users (store w)) -> u_username u <> username).
Proof.
  destruct (session_account rq (store w)) as [cu|] eqn:Hcu.
  { unfold register, bind. rewrite current_user_run, Hcu. simpl.
    rewrite session_loaded_store.
    split; [congruence|]. intros (H & _). discriminate. }
  destruct (method rq) eqn:Hm.
  { unfold register, bind. rewrite current_user_run, Hcu, Hm. simpl.
    rewrite session_loaded_store.
    split; [congruence|]. intros (_ & H & _). discriminate. }
  destruct (form_get "username" (form rq)) as [username|] eqn:Hname.
  2: { unfold register, bind. rewrite current_user_run, Hcu, Hm.
       unfold form_item. rewrite Hname. simpl.
       rewrite session_loaded_store.
       split; [congruence|]. intros (_ & _ & u & p & H & _). discriminate. }
  destruct (form_get "password" (form rq)) as [password|] eqn:Hpw.
  2: { unfold register, bind. rewrite current_user_run, Hcu, Hm.
       unfold form_item. rewrite Hname, Hpw. simpl.
       rewrite session_loaded_store.
       split; [congruence|]. intros (_ & _ & u & p & _ & H & _). discriminate. }
  rewrite (register_post_run rq w username password Hcu Hm Hname Hpw).
  destruct (existsb _ (users (store w))) eqn:E; simpl.
  - split; [congruence|].
    intros (_ & _ & u' & p' & [= <-] & _ & Hfree). exfalso.
    apply existsb_exists in E. destruct E as (u & Hu & Heq).
    apply String.eqb_eq in Heq. now apply (Hfree u).
  - split.
    + intros _. split; [reflexivity|]. split; [reflexivity|].
      exists username, password. split; [reflexivity|]. split; [reflexivity|].
      intros u Hu Heq.
      assert (existsb (fun u => String.eqb (u_username u) username) (users (store w)) = true)
        by (apply existsb_exists; exists u; split; [exact Hu|now apply String.eqb_eq]).
      congruence.
    + intros _ Heq. apply (f_equal users) in Heq. simpl in Heq.
      apply (f_equal (@List.length user)) in Heq. rewrite length_app in Heq.
      simpl in Heq. lia.
Qed.

End MoreRegisterFacts.

(** ** [index], [login] and the recommendations route *)

Lemma title_asc_total (x y : index_row) : title_asc x y = true \/ title_asc y x = true.
Proof. apply String.leb_total. Qed.

Lemma title_asc_trans (x y z : index_row) :
  title_asc x y = true -> title_asc y z = true -> title_asc x z = true.
Proof. apply string_leb_trans. Qed.

Lemma AVG_none (ratings : list Z) : AVG ratings = None <-> ratings = [].
Proof. destruct ratings; simpl; split; congruence. Qed.

Lemma AVG_between (ratings : list Z) (q : Q) :
  (forall n, In n ratings -> 1 <= n <= 5) ->
  AVG ratings = Some q -> (1 <= q /\ q <= 5)%Q.
Proof.
  intros Hall Havg.
  assert (Hsum : Z.of_nat (List.length ratings) <= fold_right Z.add 0 ratings
                 <= 5 * Z.of_nat (List.length ratings)).
  { clear Havg. induction ratings as [|n l IH]; [simpl; lia|].
    assert (Hn := Hall n (or_introl eq_refl)).
    assert (Hl : forall m, In m l -> 1 <= m <= 5) by (intros m Hm; apply Hall; now right).
    specialize (IH Hl). cbn [fold_right List.length]. lia. }
  destruct ratings as [|n l]; [discriminate|].
  unfold AVG in Havg. injection Havg as <-.
  set (total := fold_right Z.add 0 (n :: l)) in *.
  set (count := List.length (n :: l)) in *.
  assert (Hpos : Z.pos (Pos.of_nat count) = Z.of_nat count).
  { rewrite <- (Nat2Pos.id count) at 2 by (unfold count; simpl; lia).
    symmetry. apply positive_nat_Z. }
  change (1 * Z.pos (Pos.of_nat count) <= total * 1
          /\ total * 1 <= 5 * Z.pos (Pos.of_nat count)).
  rewrite Hpos. lia.
Qed.

Section MoreReadingFacts.
Context {engine : SqlEngine}.
Variable py_int : string -> option Z.
Variable generate_password_hash : string -> string -> string.
Variable check_password_hash : string -> string -> bool.

(** X19: the index page writes nothing to the store and lists every book of the
    catalogue, in ascending order of title, with the number of its reviews
    and an average that is null exactly when it has none. *)
Theorem index_lists_catalogue (w : world) :
  exists rows,
    index w = (Ok (RenderIndex rows), connected w) /\
    Permutation (map (with_avg_count (store w)) (books (store w))) rows /\
    (forall i j x y, (i < j)%nat ->
       nth_error rows i = Some x -> nth_error rows j = Some y ->
       String.leb (b_title (fst (fst x))) (b_title (fst (fst y))) = true) /\
    (forall b avg n, In (b, avg, n) rows ->
       In b (books (store w)) /\
       n = List.length (filter (fun r => r_book_id r =? b_id b) (reviews (store w))) /\
       (avg = None <-> n = O)).
Proof.
  exists (index_rows (store w)).
  assert (Hperm : Permutation (map (with_avg_count (store w)) (books (store w)))
                    (index_rows (store w))) by apply order_by_perm.
  split; [|split; [exact Hperm|split]].
  - unfold index, bind. rewrite get_db_run.
    now rewrite execute_ok by statement_runs.
  - intros i j x y Hij Hi Hj.
    assert (Hsort : StronglySorted (fun x y => title_asc x y = true) (index_rows (store w)))
      by (apply order_by_sorted; [apply title_asc_total|apply title_asc_trans]).
    exact (StronglySorted_before _ _ i j x y Hsort Hij Hi Hj).
  - intros b avg n Hin.
    apply (Permutation_in _ (Permutation_sym Hperm)) in Hin.
    apply in_map_iff in Hin. destruct Hin as (b0 & Heq & Hb0).
    unfold with_avg_count in Heq. injection Heq as -> <- <-.
    split; [exact Hb0|]. split.
    + f_equal. apply filter_ext. intros r. apply Z.eqb_sym.
    + rewrite AVG_none. split.
      * intros H. apply map_eq_nil in H. now rewrite H.
      * intros H. apply length_zero_iff_nil in H. now rewrite H.
Qed.

Lemma login_post_run next_page rq w username password :
  session_account rq (store w) = None ->
  method rq = POST ->
  form_get "username" (form rq) = Some username ->
  form_get "password" (form rq) = Some password ->
  login check_password_hash next_page rq w =
  match hd_error (filter (fun u => String.eqb (u_username u) username) (users (store w))) with
  | Some u =>
      if check_password_hash (u_password_hash u) password
      then (Ok (LoginRedirect (next_or_index next_page)
                  (Some (mkUserMixin (u_id u) (u_username u)))),
            mkWorld (store w)
              (flashed w ++ [(("Welcome back, " ++ username ++ "!")%string, "success")])%list
              (Some Connection))
      else (Ok LoginPage,
            mkWorld (store w)
              (flashed w ++ [("Invalid username or password.", "error")])%list
              (Some Connection))
  | None => (Ok LoginPage,
             mkWorld (store w)
               (flashed w ++ [("Invalid username or password.", "error")])%list
               (Some Connection))
  end.
Proof.
  intros Hanon Hpost Hname Hpw.
  unfold login, bind. rewrite current_user_run, Hanon, Hpost.
  unfold form_item. rewrite Hname, Hpw. cbn [ret].
  assert (Hs := session_loaded_store rq w).
  assert (Hf := session_loaded_flashed rq w).
  set (loaded := session_loaded rq w) in *.
  rewrite get_db_run.
  unfold fetchone, bind. rewrite execute_ok by statement_runs.
  cbn [ret store connected]. rewrite Hs.
  destruct (hd_error _) as [u|];
    [destruct (check_password_hash (u_password_hash u) password)|];
    unfold flash, connected; cbn; now rewrite Hs, Hf.
Qed.

(** What [login] does in every case. *)
Lemma login_cases next_page rq w :
  (exists answer,
     login check_password_hash next_page rq w = (Ok answer, session_loaded rq w) /\
     (answer = LoginPage \/ answer = LoginRedirect (Endpoint "index") None)) \/
  (exists key,
     login check_password_hash next_page rq w
     = (Raise (BadRequestKeyError key), session_loaded rq w)) \/
  (exists username password,
     session_account rq (store w) = None /\ method rq = POST /\
     form_get "username" (form rq) = Some username /\
     form_get "password" (form rq) = Some password).
Proof.
  destruct (session_account rq (store w)) as [cu|] eqn:Hcu.
  { left. exists (LoginRedirect (Endpoint "index") None).
    unfold login, bind. rewrite current_user_run, Hcu. simpl. auto. }
  destruct (method rq) eqn:Hm.
  { left. exists LoginPage.
    unfold login, bind. rewrite current_user_run, Hcu, Hm. simpl. auto. }
  destruct (form_get "username" (form rq)) as [username|] eqn:Hname.
  2: { right. left. exists "username". unfold login, bind.
       rewrite current_user_run, Hcu, Hm. unfold form_item. now rewrite Hname. }
  destruct (form_get "password" (form rq)) as [password|] eqn:Hpw.
  2: { right. left. exists "password". unfold login, bind.
       rewrite current_user_run, Hcu, Hm. unfold form_item. now rewrite Hname, Hpw. }
  right. right. exists username, password. auto.
Qed.

(** X20: [login] never writes to the store, whatever the request. *)
Theorem login_never_writes (next_page : option string) (rq : request) (w : world) :
  store (snd (login check_password_hash next_page rq w)) = store w.
Proof.
  destruct (login_cases next_page rq w)
    as [(answer & -> & _)|[(key & ->)|(username & password & Ha & Hm & Hn & Hp)]];
    [apply session_loaded_store|apply session_loaded_store|].
  rewrite (login_post_run next_page rq w username password Ha Hm Hn Hp).
  destruct (hd_error _) as [u|]; [|reflexivity].
  now destruct (check_password_hash _ _).
Qed.

(** X21: when [login] logs a user in, that user is an account of the store
    whose username is the submitted one and whose stored hash
    [check_password_hash] accepts for the submitted password; the redirect
    goes to [next] when it is given and not empty, else to the index. *)
Theorem login_sound (next_page : option string) (rq : request) (w : world)
    (to : target) (user : User) :
  fst (login check_password_hash next_page rq w) = Ok (LoginRedirect to (Some user)) ->
  exists u password,
    In u (users (store w)) /\
    user = mkUserMixin (u_id u) (u_username u) /\
    form_get "username" (form rq) = Some (u_username u) /\
    form_get "password" (form rq) = Some password /\
    check_password_hash (u_password_hash u) password = true /\
    to = next_or_index next_page.
Proof.
  destruct (login_cases next_page rq w)
    as [(answer & -> & [->| ->])|[(key & ->)|(username & password & Ha & Hm & Hn & Hp)]];
    try discriminate.
  rewrite (login_post_run next_page rq w username password Ha Hm Hn Hp).
  destruct (hd_error _) as [u|] eqn:Eu; [|discriminate].
  destruct (check_password_hash _ _) eqn:Ec; [|discriminate].
  simpl. intros [= <- <-].
  apply hd_error_filter_In in Eu. destruct Eu as [Hu Heq].
  apply String.eqb_eq in Heq.
  exists u, password. rewrite Heq. auto 10.
Qed.

(** X22: a login attempt fails the same way for an unknown username and for
    a wrong password: 'Invalid username or password.', the form again, no
    user logged in. *)
Theorem login_failure_uniform (next_page : option string) (rq : request) (w : world)
    (username password : string) :
  session_account rq (store w) = None ->
  method rq = POST ->
  form_get "username" (form rq) = Some username ->
  form_get "password" (form rq) = Some password ->
  (forall u, In u (users (store w)) -> u_username u = username ->
             check_password_hash (u_password_hash u) password = false) ->
  login check_password_hash next_page rq w
  = (Ok LoginPage,
     mkWorld (store w) (flashed w ++ [("Invalid username or password.", "error")])%list
       (Some Connection)).
Proof.
  intros Ha Hm Hn Hp Hwrong.
  rewrite (login_post_run next_page rq w username password Ha Hm Hn Hp).
  destruct (hd_error _) as [u|] eqn:Eu; [|reflexivity].
  apply hd_error_filter_In in Eu. destruct Eu as [Hu Heq].
  apply String.eqb_eq in Heq. now rewrite (Hwrong u Hu Heq).
Qed.

(** X23: after a successful registration, logging in with the same username
    and password logs the new account in, provided [check_password_hash]
    accepts the hash [generate_password_hash] made of that password. *)
Theorem register_then_login (next_page : option string) (rq : request) (w : world)
    (username password : string) :
  session_user_id rq = None ->
  method rq = POST ->
  form_get "username" (form rq) = Some username ->
  form_get "password" (form rq) = Some password ->
  (forall u, In u (users (store w)) -> u_username u <> username) ->
  check_password_hash (generate_password_hash (salt rq) password) password = true ->
  let w' := snd (register generate_password_hash rq w) in
  fst (login check_password_hash next_page rq w')
  = Ok (LoginRedirect (next_or_index next_page)
          (Some (mkUserMixin (next_rowid (map u_id (users (store w)))) username))).
Proof.
  intros Hsess Hm Hn Hp Hfree Hcheck w'.
  assert (Hanon : forall d, session_account rq d = None)
    by (intros d; unfold session_account; now rewrite Hsess).
  assert (E : existsb (fun u => String.eqb (u_username u) username) (users (store w))
              = false).
  { destruct (existsb _ _) eqn:E; [|reflexivity].
    apply existsb_exists in E. destruct E as (u & Hu & Heq).
    apply String.eqb_eq in Heq. exfalso. now apply (Hfree u). }
  assert (Hrun := register_post_run generate_password_hash rq w username password
                    (Hanon _) Hm Hn Hp).
  rewrite E in Hrun.
  rewrite (login_post_run next_page rq w' username password (Hanon _) Hm Hn Hp).
  unfold w'. rewrite Hrun. simpl store. simpl users.
  rewrite hd_error_filter_last.
  - simpl. now rewrite Hcheck.
  - intros y Hy. apply String.eqb_neq. now apply Hfree.
  - apply String.eqb_refl.
Qed.

(** X24: the recommendations route never runs the selector for a client
    that is not logged in (it redirects to the login view and writes
    nothing to the store).  For a logged-in account it writes nothing but
    the connection, renders what [get_recommendations] returns for the
    account's id, and lets its exceptions through: the one of the fallback
    statement when the affinity branch is exhausted (within the engine's
    limit of parameters), and any other. *)
Theorem recommendations_route_outcome (rq : request) (w : world) :
  match session_account rq (store w) with
  | None =>
      fst (recommendations rq w) = Ok (Redirect "login") /\
      store (snd (recommendations rq w)) = store w
  | Some cu =>
      snd (recommendations rq w) = connected w /\
      (forall result,
         fst (get_recommendations (User_id cu) w) = Ok result ->
         fst (recommendations rq w) = Ok (Render (RecommendationsPage result))) /\
      (forall e,
         fst (get_recommendations (User_id cu) w) = Raise e ->
         fst (recommendations rq w) = Raise e) /\
      (high_rated_genres (User_id cu) (store w) <> [] ->
       (List.length (favorite_genres_rows (User_id cu) (store w))
        + List.length (reviewed_books_rows (User_id cu) (store w))
        <= max_variable_number)%nat ->
       affinity_candidates (User_id cu) (store w) = [] ->
       fst (recommendations rq w) = Raise (unrecognized_token_error "{"))
  end.
Proof.
  unfold recommendations, bind. rewrite current_user_run.
  destruct (session_account rq (store w)) as [cu|] eqn:Hcu;
    [|split; [reflexivity|apply session_loaded_store]].
  assert (Hrun : get_recommendations (User_id cu) (session_loaded rq w)
                 = (fst (get_recommendations (User_id cu) w), connected w)).
  { unfold session_account in Hcu. unfold session_loaded.
    destruct (session_user_id rq); [|discriminate].
    rewrite (surjective_pairing (get_recommendations (User_id cu) (connected w))).
    rewrite get_recommendations_frame.
    now rewrite (get_recommendations_of_store (User_id cu) (connected w) w). }
  rewrite Hrun.
  split; [|split; [|split]].
  - now destruct (fst (get_recommendations (User_id cu) w)).
  - now intros result ->.
  - now intros e ->.
  - intros Hhigh Hmax Hnone.
    rewrite exhausted_affinity_raises; [reflexivity| |exact Hmax|exact Hnone].
    intros H. apply favorite_genres_rows_nil in H. contradiction.
Qed.

(** X25: in every world the application reaches, every average rating that
    is not null lies between 1 and 5. *)
Theorem reachable_averages_in_range (w : world) (b : book) (q : Q) :
  reachable py_int generate_password_hash w ->
  snd (with_avg (store w) b) = Some q ->
  (1 <= q /\ q <= 5)%Q.
Proof.
  intros Hreach Havg. unfold with_avg in Havg. simpl in Havg.
  apply (AVG_between _ q) in Havg; [exact Havg|].
  intros n Hn. apply in_map_iff in Hn. destruct Hn as (r & <- & Hr).
  apply filter_In in Hr. destruct Hr as [Hr _].
  now destruct (reachable_well_formed py_int generate_password_hash w Hreach r Hr).
Qed.

End MoreReadingFacts.

(** ** Reviews of other accounts, and the book page *)

Lemma book_review_rows_In book_id d r name :
  In (r, name) (book_review_rows book_id d) <->
  In r (reviews d) /\ r_book_id r = book_id /\
  exists u, In u (users d) /\ u_id u = r_user_id r /\ u_username u = name.
Proof.
  unfold book_review_rows. rewrite in_flat_map. split.
  - intros (r0 & Hr0 & Hin).
    destruct (r_book_id r0 =? book_id) eqn:E; [|contradiction].
    apply Z.eqb_eq in E. apply in_map_iff in Hin.
    destruct Hin as (u & [= <- <-] & Hu). apply filter_In in Hu.
    destruct Hu as [Hu Hid]. apply Z.eqb_eq in Hid.
    split; [exact Hr0|]. split; [exact E|]. exists u. auto.
  - intros (Hr & Hb & u & Hu & Hid & Hname).
    exists r. split; [exact Hr|]. apply Z.eqb_eq in Hb. rewrite Hb.
    apply in_map_iff. exists u. split; [now rewrite Hname|].
    apply filter_In. split; [exact Hu|]. now apply Z.eqb_eq.
Qed.

Lemma filter_map_unaffected {A} (p : A -> bool) (f : A -> A) (l : list A) :
  (forall x, In x l -> f x = x \/ (p x = false /\ p (f x) = false)) ->
  filter p (map f l) = filter p l.
Proof.
  induction l as [|a l IH]; simpl; intros H; [reflexivity|].
  rewrite IH by (intros x Hx; apply H; now right).
  destruct (H a (or_introl eq_refl)) as [->|[-> ->]]; reflexivity.
Qed.

Lemma high_rated_genres_of_own_reviews user_id d :
  high_rated_genres user_id d
  = flat_map (fun r =>
      if 4 <=? r_rating r
      then map b_genre (filter (fun b => r_book_id r =? b_id b) (books d))
      else []) (filter (fun r => r_user_id r =? user_id) (reviews d)).
Proof.
  unfold high_rated_genres.
  induction (reviews d) as [|r l IH]; simpl; [reflexivity|].
  rewrite IH. destruct (r_user_id r =? user_id); simpl; reflexivity.
Qed.

Section MoreIsolationFacts.
Context {engine : SqlEngine}.
Variable py_int : string -> option Z.

Lemma book_detail_reviews_cases rq book_id w :
  let w' := snd (book_detail py_int rq book_id w) in
  reviews (store w') = reviews (store w) \/
  (exists cu ur v text,
     session_account rq (store w) = Some cu /\ In ur (reviews (store w)) /\
     r_user_id ur = User_id cu /\
     reviews (store w')
     = map (fun r => if r_id r =? r_id ur
                     then mkReview (r_id r) (r_user_id r) (r_book_id r) v text
                     else r) (reviews (store w))) \/
  (exists cu v text,
     session_account rq (store w) = Some cu /\
     reviews (store w')
     = (reviews (store w) ++
        [mkReview (next_rowid (map r_id (reviews (store w)))) (User_id cu) book_id v text])%list).
Proof.
  intros w'. unfold w'.
  destruct (sqlite_integer (store w) book_id) eqn:Hbook;
    [|left; now rewrite book_detail_overflow_run].
  destruct (fetched_book book_id (store w)) as [b|] eqn:Eb;
    [|left; now rewrite book_detail_no_book_run].
  destruct (fetched_book_Some _ _ _ Eb) as [Hb Hid].
  destruct (method rq) eqn:Hm;
    [left; now rewrite (book_detail_get_run py_int rq book_id w b)|].
  destruct (session_account rq (store w)) as [cu|] eqn:Hcu;
    [|left; now rewrite (book_detail_anonymous_run py_int rq book_id w b)].
  rewrite (book_detail_post_run py_int rq book_id w cu b Hm Hcu Hb Hid).
  destruct (form_get_int py_int "rating" (form rq)) as [v|]; [|now left].
  destruct ((1 <=? v) && (v <=? 5)); [|now left].
  destruct (hd_error _) as [ur|] eqn:Er.
  - right. left. exists cu, ur, v, (form_get "review_text" (form rq)).
    apply hd_error_filter_In in Er. destruct Er as [Hur Hkey].
    apply andb_prop in Hkey. destruct Hkey as [Hk _]. apply Z.eqb_eq in Hk.
    auto.
  - right. right. exists cu, v, (form_get "review_text" (form rq)). auto.
Qed.

(** X4: a review posted by one account changes nothing another user's
    affinity is computed from: that user's own reviews, favourite genres and
    exclusion list are the same after the request, given that review ids are
    a key. *)
Theorem others_reviews_untouched (rq : request) (book_id user_id : Z) (w : world) :
  NoDup (map r_id (reviews (store w))) ->
  (forall cu, session_account rq (store w) = Some cu -> User_id cu <> user_id) ->
  let w' := snd (book_detail py_int rq book_id w) in
  filter (fun r => r_user_id r =? user_id) (reviews (store w'))
  = filter (fun r => r_user_id r =? user_id) (reviews (store w)) /\
  favorite_genres_rows user_id (store w') = favorite_genres_rows user_id (store w) /\
  reviewed_books_rows user_id (store w') = reviewed_books_rows user_id (store w).
Proof.
  intros Hids Hother w'.
  assert (Hbooks : books (store w') = books (store w))
    by (apply store_change_grows, book_detail_store_change).
  assert (Hown : filter (fun r => r_user_id r =? user_id) (reviews (store w'))
                 = filter (fun r => r_user_id r =? user_id) (reviews (store w))).
  { destruct (book_detail_reviews_cases rq book_id w)
      as [H|[(cu & ur & v & text & Hcu & Hur & Hu & H)|(cu & v & text & Hcu & H)]];
      fold w' in H; rewrite H.
    - reflexivity.
    - apply filter_map_unaffected. intros r Hr.
      destruct (r_id r =? r_id ur) eqn:E; [|now left]. right.
      apply Z.eqb_eq in E.
      assert (r = ur) by (apply (NoDup_map_eq r_id (reviews (store w))); assumption).
      subst r. simpl. rewrite Hu.
      split; apply Z.eqb_neq; now apply Hother.
    - rewrite filter_app. simpl.
      replace (User_id cu =? user_id) with false; [now rewrite app_nil_r|].
      symmetry. apply Z.eqb_neq. now apply Hother. }
  split; [exact Hown|]. split.
  - unfold favorite_genres_rows.
    now rewrite !high_rated_genres_of_own_reviews, Hown, Hbooks.
  - unfold reviewed_books_rows. now rewrite Hown.
Qed.

(** X10: a GET of a catalogued book writes nothing to the store and renders the book
    with its reviews, each paired with the username of its author, in
    descending order of review id, and with the review of the session's
    account when it has one (the book ids being a key). *)
Theorem book_page_content (rq : request) (book_id : Z) (w : world) (b : book) :
  method rq = GET ->
  In b (books (store w)) -> b_id b = book_id ->
  NoDup (map b_id (books (store w))) ->
  exists rows user_review,
    book_detail py_int rq book_id w
    = (Ok (Render (BookDetailPage b rows user_review)), connected w) /\
    (forall r name, In (r, name) rows <->
       In r (reviews (store w)) /\ r_book_id r = book_id /\
       exists u, In u (users (store w)) /\ u_id u = r_user_id r /\ u_username u = name) /\
    (forall i j x y, (i < j)%nat ->
       nth_error rows i = Some x -> nth_error rows j = Some y ->
       r_id (fst y) <= r_id (fst x)) /\
    (forall r, user_review = Some r ->
       In r (reviews (store w)) /\ r_book_id r = book_id /\
       exists cu, session_account rq (store w) = Some cu /\ r_user_id r = User_id cu) /\
    (user_review = None ->
     forall cu r, session_account rq (store w) = Some cu -> In r (reviews (store w)) ->
                  review_key r <> (User_id cu, book_id)).
Proof.
  intros Hget Hb Hid Hkey.
  assert (Eb : fetched_book book_id (store w) = Some b).
  { destruct (fetched_book book_id (store w)) as [b'|] eqn:E.
    - destruct (fetched_book_Some _ _ _ E) as [Hb' Hid'].
      f_equal. apply (NoDup_map_eq b_id (books (store w))); congruence.
    - exfalso. rewrite fetched_book_None in E. now apply (E b). }
  exists (order_by newest_first (book_review_rows book_id (store w))),
         (fetched_user_review rq book_id (store w)).
  split; [now apply book_detail_get_run|]. split; [|split; [|split]].
  - intros r name. rewrite <- book_review_rows_In. split; intros H.
    + eapply Permutation_in; [apply Permutation_sym, order_by_perm|exact H].
    + eapply Permutation_in; [apply order_by_perm|exact H].
  - intros i j x y Hij Hi Hj.
    assert (Hsort : StronglySorted (fun x y => newest_first x y = true)
                      (order_by newest_first (book_review_rows book_id (store w))))
      by (apply order_by_sorted; [apply newest_first_total|apply newest_first_trans]).
    assert (H := StronglySorted_before _ _ i j x y Hsort Hij Hi Hj).
    simpl in H. unfold newest_first in H. now apply Z.leb_le in H.
  - unfold fetched_user_review. intros r Hr.
    destruct (session_account rq (store w)) as [cu|]; [|discriminate].
    apply hd_error_filter_In in Hr. destruct Hr as [Hr Hk].
    apply andb_prop in Hk. destruct Hk as [H1 H2]. apply Z.eqb_eq in H1, H2.
    split; [exact Hr|]. split; [exact H2|]. now exists cu.
  - unfold fetched_user_review. intros Hnone cu r Hcu Hr Hk.
    rewrite Hcu in Hnone. apply hd_error_filter_None in Hnone.
    assert (Ht : existsb (fun r => (r_user_id r =? User_id cu) && (r_book_id r =? book_id))
                   (reviews (store w)) = true).
    { apply existsb_exists. exists r. split; [exact Hr|].
      unfold review_key in Hk. injection Hk as -> ->. now rewrite !Z.eqb_refl. }
    congruence.
Qed.

End MoreIsolationFacts.

(** ** More of the session, run *)

Lemma exclusion_list_never_empty_witness :
  favorite_genres_rows 1 (store world_one_review) <> [] /\
  reviewed_books_rows 1 (store world_one_review) <> [].
Proof.
  assert (H : favorite_genres_rows 1 (store world_one_review) <> [])
    by (vm_compute; discriminate).
  split; [exact H|exact (exclusion_list_never_empty 1 (store world_one_review) H)].
Defined.

Lemma global_ranking_length_witness :
  (- 2 ^ 63 <= 7 < 2 ^ 63 \/ In 7 (map u_id (users (store world_two_reviews)))) /\
  (forall r, In r (reviews (store world_two_reviews)) -> r_user_id r = 7 -> r_rating r < 4) /\
  exists result,
    get_recommendations 7 world_two_reviews = (Ok result, connected world_two_reviews) /\
    List.length result = Nat.min 5 (List.length (books (store world_two_reviews))) /\
    (forall x, In x result -> In (fst x) (books (store world_two_reviews))).
Proof.
  assert (Hid : - 2 ^ 63 <= 7 < 2 ^ 63 \/ In 7 (map u_id (users (store world_two_reviews))))
    by (left; split; [apply Z.leb_le|apply Z.ltb_lt]; reflexivity).
  assert (H : forall r, In r (reviews (store world_two_reviews)) ->
                        r_user_id r = 7 -> r_rating r < 4).
  { intros r Hr Hu. vm_compute in Hr.
    destruct Hr as [<-|[<-|[]]]; simpl in Hu; lia. }
  split; [exact Hid|]. split; [exact H|].
  exact (global_ranking_length 7 world_two_reviews Hid H).
Defined.

Lemma others_reviews_untouched_witness :
  let rq := mkRequest (Some 1) POST [("rating", "4")] "" in
  let w' := snd (book_detail decimal_int rq 4 world_one_review) in
  NoDup (map r_id (reviews (store world_one_review))) /\
  (forall cu, session_account rq (store world_one_review) = Some cu -> User_id cu <> 7) /\
  filter (fun r => r_user_id r =? 7) (reviews (store w'))
  = filter (fun r => r_user_id r =? 7) (reviews (store world_one_review)) /\
  favorite_genres_rows 7 (store w') = favorite_genres_rows 7 (store world_one_review) /\
  reviewed_books_rows 7 (store w') = reviewed_books_rows 7 (store world_one_review).
Proof.
  intros rq w'.
  assert (Hids : NoDup (map r_id (reviews (store world_one_review)))).
  { vm_compute. repeat (constructor; [simpl; intuition discriminate|]). constructor. }
  assert (Hother : forall cu, session_account rq (store world_one_review) = Some cu ->
                              User_id cu <> 7).
  { intros cu Hcu. vm_compute in Hcu. injection Hcu as <-. simpl. lia. }
  split; [exact Hids|]. split; [exact Hother|].
  exact (others_reviews_untouched decimal_int rq 4 7 world_one_review Hids Hother).
Defined.

Lemma unknown_book_not_found_witness :
  let rq := mkRequest None GET [] "" in
  (forall b, In b (books (store init_world)) -> b_id b <> 99) /\
  (- 2 ^ 63 <= 99 < 2 ^ 63 ->
   book_detail decimal_int rq 99 init_world
   = (Ok (Redirect "index"),
      mkWorld (store init_world)
        (flashed init_world ++ [("Book not found.", "error")])%list
        (Some Connection))) /\
  (~ (- 2 ^ 63 <= 99 < 2 ^ 63) -> ~ In 99 (stored_integers (store init_world)) ->
   book_detail decimal_int rq 99 init_world = (Raise int_too_large, connected init_world)).
Proof.
  intros rq.
  assert (H : forall b, In b (books (store init_world)) -> b_id b <> 99).
  { intros b Hb. vm_compute in Hb.
    repeat (destruct Hb as [<-|Hb]; [simpl; lia|]). contradiction. }
  split; [exact H|exact (unknown_book_not_found decimal_int rq 99 init_world H)].
Defined.

(** The two cases of X5, run: book 99, and book 2^63. *)
Lemma unknown_book_runs :
  let rq := mkRequest None GET [] "" in
  book_detail decimal_int rq 99 init_world
  = (Ok (Redirect "index"),
     mkWorld (store init_world) [("Book not found.", "error")] (Some Connection)) /\
  book_detail decimal_int rq (2 ^ 63) init_world
  = (Raise int_too_large, connected init_world).
Proof. split; vm_compute; reflexivity. Qed.

Lemma anonymous_post_refused_witness :
  let rq := mkRequest None POST [("rating", "5")] "" in
  method rq = POST /\
  (exists b, In b (books (store init_world)) /\ b_id b = 2) /\
  session_account rq (store init_world) = None /\
  book_detail decimal_int rq 2 init_world
  = (Ok (Redirect "login"),
     mkWorld (store init_world)
       (flashed init_world
        ++ [("You must be logged in to submit a review.", "warning")])%list
       (Some Connection)).
Proof.
  intros rq.
  assert (Hpost : method rq = POST) by reflexivity.
  assert (Hbook : exists b, In b (books (store init_world)) /\ b_id b = 2)
    by (exists the_martian; split; [vm_compute; tauto|reflexivity]).
  assert (Hanon : session_account rq (store init_world) = None) by reflexivity.
  split; [exact Hpost|]. split; [exact Hbook|]. split; [exact Hanon|].
  exact (anonymous_post_refused decimal_int rq 2 init_world Hpost Hbook Hanon).
Defined.

Lemma out_of_range_rating_refused_witness :
  let rq := mkRequest (Some 1) POST [("rating", "9")] "" in
  method rq = POST /\
  (exists b, In b (books (store world_registered)) /\ b_id b = 2) /\
  (exists cu, session_account rq (store world_registered) = Some cu) /\
  form_get_int decimal_int "rating" (form rq) = Some 9 /\
  (9 < 1 \/ 5 < 9) /\
  book_detail decimal_int rq 2 world_registered
  = (Ok (Redirect "book_detail"),
     mkWorld (store world_registered)
       (flashed world_registered ++ [("Rating must be between 1 and 5.", "error")])%list
       (Some Connection)).
Proof.
  intros rq.
  assert (Hpost : method rq = POST) by reflexivity.
  assert (Hbook : exists b, In b (books (store world_registered)) /\ b_id b = 2)
    by (exists the_martian; split; [vm_compute; tauto|reflexivity]).
  assert (Hcu : exists cu, session_account rq (store world_registered) = Some cu)
    by (exists (mkUserMixin 1 "ann"); vm_compute; reflexivity).
  assert (Hv : form_get_int decimal_int "rating" (form rq) = Some 9) by reflexivity.
  assert (Hout : 9 < 1 \/ 5 < 9) by lia.
  split; [exact Hpost|]. split; [exact Hbook|]. split; [exact Hcu|].
  split; [exact Hv|]. split; [exact Hout|].
  exact (out_of_range_rating_refused decimal_int rq 2 9 world_registered
           Hpost Hbook Hcu Hv Hout).
Defined.

Lemma first_review_inserted_witness :
  let rq := mkRequest (Some 1) POST [("rating", "5"); ("review_text", "great")] "" in
  let cu := mkUserMixin 1 "ann" in
  let w := world_registered in
  let inserted :=
    mkReview (next_rowid (map r_id (reviews (store w)))) (User_id cu) 2 5
      (form_get "review_text" (form rq)) in
  let w' := snd (book_detail decimal_int rq 2 w) in
  method rq = POST /\
  (exists b, In b (books (store w)) /\ b_id b = 2) /\
  session_account rq (store w) = Some cu /\
  (forall r, In r (reviews (store w)) -> review_key r <> (User_id cu, 2)) /\
  form_get_int decimal_int "rating" (form rq) = Some 5 /\
  1 <= 5 <= 5 /\
  book_detail decimal_int rq 2 w
  = (Ok (Redirect "book_detail"),
     mkWorld (mkDb (users (store w)) (books (store w))
                (reviews (store w) ++ [inserted])%list)
       (flashed w ++ [("Your review has been submitted!", "success")])%list
       (Some Connection)) /\
  ~ In (r_id inserted) (map r_id (reviews (store w))) /\
  hd_error (filter (fun r => (r_user_id r =? User_id cu) && (r_book_id r =? 2))
              (reviews (store w'))) = Some inserted /\
  session_account rq (store w') = Some cu.
Proof.
  intros rq cu w inserted w'.
  assert (Hpost : method rq = POST) by reflexivity.
  assert (Hbook : exists b, In b (books (store w)) /\ b_id b = 2)
    by (exists the_martian; split; [vm_compute; tauto|reflexivity]).
  assert (Hcu : session_account rq (store w) = Some cu) by (vm_compute; reflexivity).
  assert (Hnew : forall r, In r (reviews (store w)) -> review_key r <> (User_id cu, 2))
    by (intros r Hr; vm_compute in Hr; contradiction).
  assert (Hv : form_get_int decimal_int "rating" (form rq) = Some 5) by reflexivity.
  assert (Hrange : 1 <= 5 <= 5) by lia.
  split; [exact Hpost|]. split; [exact Hbook|]. split; [exact Hcu|].
  split; [exact Hnew|]. split; [exact Hv|]. split; [exact Hrange|].
  exact (first_review_inserted decimal_int rq 2 5 cu w Hpost Hbook Hcu Hnew Hv Hrange).
Defined.

Lemma book_page_content_witness :
  let rq := mkRequest (Some 1) GET [] "" in
  let w := world_two_reviews in
  method rq = GET /\
  In the_martian (books (store w)) /\ b_id the_martian = 2 /\
  NoDup (map b_id (books (store w))) /\
  exists rows user_review,
    book_detail decimal_int rq 2 w
    = (Ok (Render (BookDetailPage the_martian rows user_review)), connected w) /\
    (forall r name, In (r, name) rows <->
       In r (reviews (store w)) /\ r_book_id r = 2 /\
       exists u, In u (users (store w)) /\ u_id u = r_user_id r /\ u_username u = name) /\
    (forall i j x y, (i < j)%nat ->
       nth_error rows i = Some x -> nth_error rows j = Some y ->
       r_id (fst y) <= r_id (fst x)) /\
    (forall r, user_review = Some r ->
       In r (reviews (store w)) /\ r_book_id r = 2 /\
       exists cu, session_account rq (store w) = Some cu /\ r_user_id r = User_id cu) /\
    (user_review = None ->
     forall cu r, session_account rq (store w) = Some cu -> In r (reviews (store w)) ->
                  review_key r <> (User_id cu, 2)).
Proof.
  intros rq w.
  assert (Hget : method rq = GET) by reflexivity.
  assert (Hb : In the_martian (books (store w))) by (vm_compute; tauto).
  assert (Hid : b_id the_martian = 2) by reflexivity.
  assert (Hkey : NoDup (map b_id (books (store w)))).
  { vm_compute. repeat (constructor; [simpl; intuition discriminate|]). constructor. }
  split; [exact Hget|]. split; [exact Hb|]. split; [exact Hid|]. split; [exact Hkey|].
  exact (book_page_content decimal_int rq 2 w the_martian Hget Hb Hid Hkey).
Defined.

Lemma reachable_reviews_well_formed_witness :
  let r := mkReview 1 1 2 5 (Some "great") in
  reachable decimal_int salted world_two_reviews /\
  In r (reviews (store world_two_reviews)) /\
  1 <= r_rating r <= 5 /\
  (exists b, In b (books (store world_two_reviews)) /\ b_id b = r_book_id r) /\
  (exists u, In u (users (store world_two_reviews)) /\ u_id u = r_user_id r).
Proof.
  intros r.
  assert (Hr : In r (reviews (store world_two_reviews))) by (vm_compute; tauto).
  split; [exact reachable_world_two_reviews|]. split; [exact Hr|].
  exact (reachable_reviews_well_formed decimal_int salted world_two_reviews
           reachable_world_two_reviews r Hr).
Defined.

Lemma reachable_keys_witness :
  reachable decimal_int salted world_two_reviews /\
  NoDup (map u_id (users (store world_two_reviews))) /\
  NoDup (map u_username (users (store world_two_reviews))) /\
  NoDup (map r_id (reviews (store world_two_reviews))) /\
  NoDup (map b_id (books (store world_two_reviews))).
Proof.
  split; [exact reachable_world_two_reviews|].
  exact (reachable_keys decimal_int salted world_two_reviews reachable_world_two_reviews).
Defined.

Lemma reachable_averages_in_range_witness :
  reachable decimal_int salted world_two_reviews /\
  snd (with_avg (store world_two_reviews) the_martian) = Some (5 # 1) /\
  (1 <= 5 # 1 /\ 5 # 1 <= 5)%Q.
Proof.
  assert (Havg : snd (with_avg (store world_two_reviews) the_martian) = Some (5 # 1))
    by (vm_compute; reflexivity).
  split; [exact reachable_world_two_reviews|]. split; [exact Havg|].
  exact (reachable_averages_in_range decimal_int salted world_two_reviews the_martian
           (5 # 1) reachable_world_two_reviews Havg).
Defined.

Lemma register_creates_account_witness :
  let rq := ann_registers in
  let w := init_world in
  let account := mkUser (next_rowid (map u_id (users (store w)))) "ann"
                   (salted (salt rq) "pw") in
  let w' := snd (register salted rq w) in
  session_account rq (store w) = None /\
  method rq = POST /\
  form_get "username" (form rq) = Some "ann" /\
  form_get "password" (form rq) = Some "pw" /\
  (forall u, In u (users (store w)) -> u_username u <> "ann") /\
  register salted rq w
  = (Ok (Redirect "login"),
     mkWorld (mkDb (users (store w) ++ [account])%list (books (store w)) (reviews (store w)))
       (flashed w ++ [("Registration successful! Please log in.", "success")])%list
       (Some Connection)) /\
  ~ In (u_id account) (map u_id (users (store w))) /\
  load_user (u_id account) w' = (Ok (Some (mkUserMixin (u_id account) "ann")), w') /\
  (forall user_id, In user_id (map u_id (users (store w))) ->
     load_user user_id w' = (fst (load_user user_id w), w')).
Proof.
  intros rq w account w'.
  assert (Hanon : session_account rq (store w) = None) by reflexivity.
  assert (Hpost : method rq = POST) by reflexivity.
  assert (Hname : form_get "username" (form rq) = Some "ann") by reflexivity.
  assert (Hpw : form_get "password" (form rq) = Some "pw") by reflexivity.
  assert (Hfree : forall u, In u (users (store w)) -> u_username u <> "ann")
    by (intros u Hu; vm_compute in Hu; contradiction).
  split; [exact Hanon|]. split; [exact Hpost|]. split; [exact Hname|].
  split; [exact Hpw|]. split; [exact Hfree|].
  exact (register_creates_account salted rq w "ann" "pw" Hanon Hpost Hname Hpw Hfree).
Defined.

Lemma register_refuses_taken_username_witness :
  let rq := ann_registers in
  let w := world_registered in
  session_account rq (store w) = None /\
  method rq = POST /\
  form_get "username" (form rq) = Some "ann" /\
  form_get "password" (form rq) = Some "pw" /\
  (exists u, In u (users (store w)) /\ u_username u = "ann") /\
  register salted rq w
  = (Ok (Render RegisterPage),
     mkWorld (store w)
       (flashed w ++ [("Username already taken. Please choose a different one.",
                       "error")])%list
       (Some Connection)).
Proof.
  intros rq w.
  assert (Hanon : session_account rq (store w) = None) by reflexivity.
  assert (Hpost : method rq = POST) by reflexivity.
  assert (Hname : form_get "username" (form rq) = Some "ann") by reflexivity.
  assert (Hpw : form_get "password" (form rq) = Some "pw") by reflexivity.
  assert (Htaken : exists u, In u (users (store w)) /\ u_username u = "ann")
    by (exists (mkUser 1 "ann" "s1$pw"); split; [vm_compute; tauto|reflexivity]).
  split; [exact Hanon|]. split; [exact Hpost|]. split; [exact Hname|].
  split; [exact Hpw|]. split; [exact Htaken|].
  exact (register_refuses_taken_username salted rq w "ann" "pw"
           Hanon Hpost Hname Hpw Htaken).
Defined.

Lemma register_missing_field_witness :
  let rq := mkRequest None POST [("username", "bob")] "s2" in
  session_account rq (store init_world) = None /\
  method rq = POST /\
  (form_get "username" (form rq) = None \/ form_get "password" (form rq) = None) /\
  exists key,
    register salted rq init_world
    = (Raise (BadRequestKeyError key), session_loaded rq init_world) /\
    (key = "username" \/ key = "password") /\
    form_get key (form rq) = None.
Proof.
  intros rq.
  assert (Hanon : session_account rq (store init_world) = None) by reflexivity.
  assert (Hpost : method rq = POST) by reflexivity.
  assert (Hmissing : form_get "username" (form rq) = None
                     \/ form_get "password" (form rq) = None)
    by (right; reflexivity).
  split; [exact Hanon|]. split; [exact Hpost|]. split; [exact Hmissing|].
  exact (register_missing_field salted rq init_world Hanon Hpost Hmissing).
Defined.

Lemma login_sound_witness :
  let rq := ann_registers in
  let user := mkUserMixin 1 "ann" in
  fst (login check_salted None rq world_registered)
  = Ok (LoginRedirect (Endpoint "index") (Some user)) /\
  exists u password,
    In u (users (store world_registered)) /\
    user = mkUserMixin (u_id u) (u_username u) /\
    form_get "username" (form rq) = Some (u_username u) /\
    form_get "password" (form rq) = Some password /\
    check_salted (u_password_hash u) password = true /\
    Endpoint "index" = next_or_index None.
Proof.
  intros rq user.
  assert (Hrun : fst (login check_salted None rq world_registered)
                 = Ok (LoginRedirect (Endpoint "index") (Some user)))
    by (vm_compute; reflexivity).
  split; [exact Hrun|].
  exact (login_sound check_salted None rq world_registered (Endpoint "index") user Hrun).
Defined.

Lemma login_failure_uniform_witness :
  let rq := mkRequest None POST [("username", "ann"); ("password", "guess")] "" in
  let w := world_registered in
  session_account rq (store w) = None /\
  method rq = POST /\
  form_get "username" (form rq) = Some "ann" /\
  form_get "password" (form rq) = Some "guess" /\
  (forall u, In u (users (store w)) -> u_username u = "ann" ->
             check_salted (u_password_hash u) "guess" = false) /\
  login check_salted (Some "/recommendations") rq w
  = (Ok LoginPage,
     mkWorld (store w) (flashed w ++ [("Invalid username or password.", "error")])%list
       (Some Connection)).
Proof.
  intros rq w.
  assert (Hanon : session_account rq (store w) = None) by reflexivity.
  assert (Hpost : method rq = POST) by reflexivity.
  assert (Hname : form_get "username" (form rq) = Some "ann") by reflexivity.
  assert (Hpw : form_get "password" (form rq) = Some "guess") by reflexivity.
  assert (Hwrong : forall u, In u (users (store w)) -> u_username u = "ann" ->
                             check_salted (u_password_hash u) "guess" = false).
  { intros u Hu _. vm_compute in Hu. destruct Hu as [<-|[]]. vm_compute. reflexivity. }
  split; [exact Hanon|]. split; [exact Hpost|]. split; [exact Hname|].
  split; [exact Hpw|]. split; [exact Hwrong|].
  exact (login_failure_uniform check_salted (Some "/recommendations") rq w "ann" "guess"
           Hanon Hpost Hname Hpw Hwrong).
Defined.

Lemma register_then_login_witness :
  let rq := ann_registers in
  let w := init_world in
  let w' := snd (register salted rq w) in
  session_user_id rq = None /\
  method rq = POST /\
  form_get "username" (form rq) = Some "ann" /\
  form_get "password" (form rq) = Some "pw" /\
  (forall u, In u (users (store w)) -> u_username u <> "ann") /\
  check_salted (salted (salt rq) "pw") "pw" = true /\
  fst (login check_salted (Some "/recommendations") rq w')
  = Ok (LoginRedirect (next_or_index (Some "/recommendations"))
          (Some (mkUserMixin (next_rowid (map u_id (users (store w)))) "ann"))).
Proof.
  intros rq w w'.
  assert (Hsess : session_user_id rq = None) by reflexivity.
  assert (Hpost : method rq = POST) by reflexivity.
  assert (Hname : form_get "username" (form rq) = Some "ann") by reflexivity.
  assert (Hpw : form_get "password" (form rq) = Some "pw") by reflexivity.
  assert (Hfree : forall u, In u (users (store w)) -> u_username u <> "ann")
    by (intros u Hu; vm_compute in Hu; contradiction).
  assert (Hcheck : check_salted (salted (salt rq) "pw") "pw" = true)
    by (vm_compute; reflexivity).
  split; [exact Hsess|]. split; [exact Hpost|]. split; [exact Hname|].
  split; [exact Hpw|]. split; [exact Hfree|]. split; [exact Hcheck|].
  exact (register_then_login salted check_salted (Some "/recommendations") rq w "ann" "pw"
           Hsess Hpost Hname Hpw Hfree Hcheck).
Defined.
